(** * SQLite viewer: session store, query gateway and upload flow

    A shallow embedding of [session_manager.py], [utils/database.py] and of
    the handlers of [modules/] that call them.  The relational engine, the
    temporary-file service, the wall clock and the frame encoders are
    external collaborators: they are an interface ([Backend]) over an opaque
    engine state.  Every call the program issues to that interface is logged
    in the world, so that "commits" and "does not commit" are statements
    about the log. *)

From Stdlib Require Import ZArith String Ascii List.
From stdpp Require Import base gmap strings list sorting pretty.

Open Scope string_scope.

(** ** Python strings

    A text is the UTF-8 encoding of a Python [str]: a character is one to
    four bytes.  [strip] and [upper] are [str.strip()] and [str.upper()] of
    CPython 3.11 (Unicode 14.0) on that encoding. *)

Module Py.

Definition code (a : ascii) : N := N_of_ascii a.

(** The UTF-8 encoding of a code point. *)
Definition utf8 (n : N) : string :=
  let b (k : N) := ascii_of_N k in
  (if n <? 128 then String (b n) ""
   else if n <? 2048
   then String (b (192 + n / 64)) (String (b (128 + n mod 64)) "")
   else if n <? 65536
   then String (b (224 + n / 4096))
          (String (b (128 + (n / 64) mod 64)) (String (b (128 + n mod 64)) ""))
   else String (b (240 + n / 262144))
          (String (b (128 + (n / 4096) mod 64))
             (String (b (128 + (n / 64) mod 64))
                (String (b (128 + n mod 64)) ""))))%N.

Definition encode (l : list N) : string :=
  fold_right (fun n s => utf8 n ++ s) "" l.

(** The code points for which [str.isspace()] holds. *)
Definition whitespace : list N :=
  [
   9; 10; 11; 12; 13; 28; 29; 30; 31; 32; 133; 160; 5760; 8192; 8193; 8194;
   8195; 8196; 8197; 8198; 8199; 8200; 8201; 8202; 8232; 8233; 8239; 8287;
   12288 ]%N.

(** [str.upper()] of each code point it changes. *)
Definition upper_table : list (N * list N) :=
  [
   (97, [65]); (98, [66]); (99, [67]); (100, [68]); (101, [69]); (102, [70]);
   (103, [71]); (104, [72]); (105, [73]); (106, [74]); (107, [75]);
   (108, [76]); (109, [77]); (110, [78]); (111, [79]); (112, [80]);
   (113, [81]); (114, [82]); (115, [83]); (116, [84]); (117, [85]);
   (118, [86]); (119, [87]); (120, [88]); (121, [89]); (122, [90]);
   (181, [924]); (223, [83; 83]); (224, [192]); (225, [193]); (226, [194]);
   (227, [195]); (228, [196]); (229, [197]); (230, [198]); (231, [199]);
   (232, [200]); (233, [201]); (234, [202]); (235, [203]); (236, [204]);
   (237, [205]); (238, [206]); (239, [207]); (240, [208]); (241, [209]);
   (242, [210]); (243, [211]); (244, [212]); (245, [213]); (246, [214]);
   (248, [216]); (249, [217]); (250, [218]); (251, [219]); (252, [220]);
   (253, [221]); (254, [222]); (255, [376]); (257, [256]); (259, [258]);
   (261, [260]); (263, [262]); (265, [264]); (267, [266]); (269, [268]);
   (271, [270]); (273, [272]); (275, [274]); (277, [276]); (279, [278]);
   (281, [280]); (283, [282]); (285, [284]); (287, [286]); (289, [288]);
   (291, [290]); (293, [292]); (295, [294]); (297, [296]); (299, [298]);
   (301, [300]); (303, [302]); (305, [73]); (307, [306]); (309, [308]);
   (311, [310]); (314, [313]); (316, [315]); (318, [317]); (320, [319]);
   (322, [321]); (324, [323]); (326, [325]); (328, [327]); (329, [700; 78]);
   (331, [330]); (333, [332]); (335, [334]); (337, [336]); (339, [338]);
   (341, [340]); (343, [342]); (345, [344]); (347, [346]); (349, [348]);
   (351, [350]); (353, [352]); (355, [354]); (357, [356]); (359, [358]);
   (361, [360]); (363, [362]); (365, [364]); (367, [366]); (369, [368]);
   (371, [370]); (373, [372]); (375, [374]); (378, [377]); (380, [379]);
   (382, [381]); (383, [83]); (384, [579]); (387, [386]); (389, [388]);
   (392, [391]); (396, [395]); (402, [401]); (405, [502]); (409, [408]);
   (410, [573]); (414, [544]); (417, [416]); (419, [418]); (421, [420]);
   (424, [423]); (429, [428]); (432, [431]); (436, [435]); (438, [437]);
   (441, [440]); (445, [444]); (447, [503]); (453, [452]); (454, [452]);
   (456, [455]); (457, [455]); (459, [458]); (460, [458]); (462, [461]);
   (464, [463]); (466, [465]); (468, [467]); (470, [469]); (472, [471]);
   (474, [473]); (476, [475]); (477, [398]); (479, [478]); (481, [480]);
   (483, [482]); (485, [484]); (487, [486]); (489, [488]); (491, [490]);
   (493, [492]); (495, [494]); (496, [74; 780]); (498, [497]); (499, [497]);
   (501, [500]); (505, [504]); (507, [506]); (509, [508]); (511, [510]);
   (513, [512]); (515, [514]); (517, [516]); (519, [518]); (521, [520]);
   (523, [522]); (525, [524]); (527, [526]); (529, [528]); (531, [530]);
   (533, [532]); (535, [534]); (537, [536]); (539, [538]); (541, [540]);
   (543, [542]); (547, [546]); (549, [548]); (551, [550]); (553, [552]);
   (555, [554]); (557, [556]); (559, [558]); (561, [560]); (563, [562]);
   (572, [571]); (575, [11390]); (576, [11391]); (578, [577]); (583, [582]);
   (585, [584]); (587, [586]); (589, [588]); (591, [590]); (592, [11375]);
   (593, [11373]); (594, [11376]); (595, [385]); (596, [390]); (598, [393]);
   (599, [394]); (601, [399]); (603, [400]); (604, [42923]); (608, [403]);
   (609, [42924]); (611, [404]); (613, [42893]); (614, [42922]); (616, [407]);
   (617, [406]); (618, [42926]); (619, [11362]); (620, [42925]); (623, [412]);
   (625, [11374]); (626, [413]); (629, [415]); (637, [11364]); (640, [422]);
   (642, [42949]); (643, [425]); (647, [42929]); (648, [430]); (649, [580]);
   (650, [433]); (651, [434]); (652, [581]); (658, [439]); (669, [42930]);
   (670, [42928]); (837, [921]); (881, [880]); (883, [882]); (887, [886]);
   (891, [1021]); (892, [1022]); (893, [1023]); (912, [921; 776; 769]);
   (940, [902]); (941, [904]); (942, [905]); (943, [906]);
   (944, [933; 776; 769]); (945, [913]); (946, [914]); (947, [915]);
   (948, [916]); (949, [917]); (950, [918]); (951, [919]); (952, [920]);
   (953, [921]); (954, [922]); (955, [923]); (956, [924]); (957, [925]);
   (958, [926]); (959, [927]); (960, [928]); (961, [929]); (962, [931]);
   (963, [931]); (964, [932]); (965, [933]); (966, [934]); (967, [935]);
   (968, [936]); (969, [937]); (970, [938]); (971, [939]); (972, [908]);
   (973, [910]); (974, [911]); (976, [914]); (977, [920]); (981, [934]);
   (982, [928]); (983, [975]); (985, [984]); (987, [986]); (989, [988]);
   (991, [990]); (993, [992]); (995, [994]); (997, [996]); (999, [998]);
   (1001, [1000]); (1003, [1002]); (1005, [1004]); (1007, [1006]);
   (1008, [922]); (1009, [929]); (1010, [1017]); (1011, [895]); (1013, [917]);
   (1016, [1015]); (1019, [1018]); (1072, [1040]); (1073, [1041]);
   (1074, [1042]); (1075, [1043]); (1076, [1044]); (1077, [1045]);
   (1078, [1046]); (1079, [1047]); (1080, [1048]); (1081, [1049]);
   (1082, [1050]); (1083, [1051]); (1084, [1052]); (1085, [1053]);
   (1086, [1054]); (1087, [1055]); (1088, [1056]); (1089, [1057]);
   (1090, [1058]); (1091, [1059]); (1092, [1060]); (1093, [1061]);
   (1094, [1062]); (1095, [1063]); (1096, [1064]); (1097, [1065]);
   (1098, [1066]); (1099, [1067]); (1100, [1068]); (1101, [1069]);
   (1102, [1070]); (1103, [1071]); (1104, [1024]); (1105, [1025]);
   (1106, [1026]); (1107, [1027]); (1108, [1028]); (1109, [1029]);
   (1110, [1030]); (1111, [1031]); (1112, [1032]); (1113, [1033]);
   (1114, [1034]); (1115, [1035]); (1116, [1036]); (1117, [1037]);
   (1118, [1038]); (1119, [1039]); (1121, [1120]); (1123, [1122]);
   (1125, [1124]); (1127, [1126]); (1129, [1128]); (1131, [1130]);
   (1133, [1132]); (1135, [1134]); (1137, [1136]); (1139, [1138]);
   (1141, [1140]); (1143, [1142]); (1145, [1144]); (1147, [1146]);
   (1149, [1148]); (1151, [1150]); (1153, [1152]); (1163, [1162]);
   (1165, [1164]); (1167, [1166]); (1169, [1168]); (1171, [1170]);
   (1173, [1172]); (1175, [1174]); (1177, [1176]); (1179, [1178]);
   (1181, [1180]); (1183, [1182]); (1185, [1184]); (1187, [1186]);
   (1189, [1188]); (1191, [1190]); (1193, [1192]); (1195, [1194]);
   (1197, [1196]); (1199, [1198]); (1201, [1200]); (1203, [1202]);
   (1205, [1204]); (1207, [1206]); (1209, [1208]); (1211, [1210]);
   (1213, [1212]); (1215, [1214]); (1218, [1217]); (1220, [1219]);
   (1222, [1221]); (1224, [1223]); (1226, [1225]); (1228, [1227]);
   (1230, [1229]); (1231, [1216]); (1233, [1232]); (1235, [1234]);
   (1237, [1236]); (1239, [1238]); (1241, [1240]); (1243, [1242]);
   (1245, [1244]); (1247, [1246]); (1249, [1248]); (1251, [1250]);
   (1253, [1252]); (1255, [1254]); (1257, [1256]); (1259, [1258]);
   (1261, [1260]); (1263, [1262]); (1265, [1264]); (1267, [1266]);
   (1269, [1268]); (1271, [1270]); (1273, [1272]); (1275, [1274]);
   (1277, [1276]); (1279, [1278]); (1281, [1280]); (1283, [1282]);
   (1285, [1284]); (1287, [1286]); (1289, [1288]); (1291, [1290]);
   (1293, [1292]); (1295, [1294]); (1297, [1296]); (1299, [1298]);
   (1301, [1300]); (1303, [1302]); (1305, [1304]); (1307, [1306]);
   (1309, [1308]); (1311, [1310]); (1313, [1312]); (1315, [1314]);
   (1317, [1316]); (1319, [1318]); (1321, [1320]); (1323, [1322]);
   (1325, [1324]); (1327, [1326]); (1377, [1329]); (1378, [1330]);
   (1379, [1331]); (1380, [1332]); (1381, [1333]); (1382, [1334]);
   (1383, [1335]); (1384, [1336]); (1385, [1337]); (1386, [1338]);
   (1387, [1339]); (1388, [1340]); (1389, [1341]); (1390, [1342]);
   (1391, [1343]); (1392, [1344]); (1393, [1345]); (1394, [1346]);
   (1395, [1347]); (1396, [1348]); (1397, [1349]); (1398, [1350]);
   (1399, [1351]); (1400, [1352]); (1401, [1353]); (1402, [1354]);
   (1403, [1355]); (1404, [1356]); (1405, [1357]); (1406, [1358]);
   (1407, [1359]); (1408, [1360]); (1409, [1361]); (1410, [1362]);
   (1411, [1363]); (1412, [1364]); (1413, [1365]); (1414, [1366]);
   (1415, [1333; 1362]); (4304, [7312]); (4305, [7313]); (4306, [7314]);
   (4307, [7315]); (4308, [7316]); (4309, [7317]); (4310, [7318]);
   (4311, [7319]); (4312, [7320]); (4313, [7321]); (4314, [7322]);
   (4315, [7323]); (4316, [7324]); (4317, [7325]); (4318, [7326]);
   (4319, [7327]); (4320, [7328]); (4321, [7329]); (4322, [7330]);
   (4323, [7331]); (4324, [7332]); (4325, [7333]); (4326, [7334]);
   (4327, [7335]); (4328, [7336]); (4329, [7337]); (4330, [7338]);
   (4331, [7339]); (4332, [7340]); (4333, [7341]); (4334, [7342]);
   (4335, [7343]); (4336, [7344]); (4337, [7345]); (4338, [7346]);
   (4339, [7347]); (4340, [7348]); (4341, [7349]); (4342, [7350]);
   (4343, [7351]); (4344, [7352]); (4345, [7353]); (4346, [7354]);
   (4349, [7357]); (4350, [7358]); (4351, [7359]); (5112, [5104]);
   (5113, [5105]); (5114, [5106]); (5115, [5107]); (5116, [5108]);
   (5117, [5109]); (7296, [1042]); (7297, [1044]); (7298, [1054]);
   (7299, [1057]); (7300, [1058]); (7301, [1058]); (7302, [1066]);
   (7303, [1122]); (7304, [42570]); (7545, [42877]); (7549, [11363]);
   (7566, [42950]); (7681, [7680]); (7683, [7682]); (7685, [7684]);
   (7687, [7686]); (7689, [7688]); (7691, [7690]); (7693, [7692]);
   (7695, [7694]); (7697, [7696]); (7699, [7698]); (7701, [7700]);
   (7703, [7702]); (7705, [7704]); (7707, [7706]); (7709, [7708]);
   (7711, [7710]); (7713, [7712]); (7715, [7714]); (7717, [7716]);
   (7719, [7718]); (7721, [7720]); (7723, [7722]); (7725, [7724]);
   (7727, [7726]); (7729, [7728]); (7731, [7730]); (7733, [7732]);
   (7735, [7734]); (7737, [7736]); (7739, [7738]); (7741, [7740]);
   (7743, [7742]); (7745, [7744]); (7747, [7746]); (7749, [7748]);
   (7751, [7750]); (7753, [7752]); (7755, [7754]); (7757, [7756]);
   (7759, [7758]); (7761, [7760]); (7763, [7762]); (7765, [7764]);
   (7767, [7766]); (7769, [7768]); (7771, [7770]); (7773, [7772]);
   (7775, [7774]); (7777, [7776]); (7779, [7778]); (7781, [7780]);
   (7783, [7782]); (7785, [7784]); (7787, [7786]); (7789, [7788]);
   (7791, [7790]); (7793, [7792]); (7795, [7794]); (7797, [7796]);
   (7799, [7798]); (7801, [7800]); (7803, [7802]); (7805, [7804]);
   (7807, [7806]); (7809, [7808]); (7811, [7810]); (7813, [7812]);
   (7815, [7814]); (7817, [7816]); (7819, [7818]); (7821, [7820]);
   (7823, [7822]); (7825, [7824]); (7827, [7826]); (7829, [7828]);
   (7830, [72; 817]); (7831, [84; 776]); (7832, [87; 778]); (7833, [89; 778]);
   (7834, [65; 702]); (7835, [7776]); (7841, [7840]); (7843, [7842]);
   (7845, [7844]); (7847, [7846]); (7849, [7848]); (7851, [7850]);
   (7853, [7852]); (7855, [7854]); (7857, [7856]); (7859, [7858]);
   (7861, [7860]); (7863, [7862]); (7865, [7864]); (7867, [7866]);
   (7869, [7868]); (7871, [7870]); (7873, [7872]); (7875, [7874]);
   (7877, [7876]); (7879, [7878]); (7881, [7880]); (7883, [7882]);
   (7885, [7884]); (7887, [7886]); (7889, [7888]); (7891, [7890]);
   (7893, [7892]); (7895, [7894]); (7897, [7896]); (7899, [7898]);
   (7901, [7900]); (7903, [7902]); (7905, [7904]); (7907, [7906]);
   (7909, [7908]); (7911, [7910]); (7913, [7912]); (7915, [7914]);
   (7917, [7916]); (7919, [7918]); (7921, [7920]); (7923, [7922]);
   (7925, [7924]); (7927, [7926]); (7929, [7928]); (7931, [7930]);
   (7933, [7932]); (7935, [7934]); (7936, [7944]); (7937, [7945]);
   (7938, [7946]); (7939, [7947]); (7940, [7948]); (7941, [7949]);
   (7942, [7950]); (7943, [7951]); (7952, [7960]); (7953, [7961]);
   (7954, [7962]); (7955, [7963]); (7956, [7964]); (7957, [7965]);
   (7968, [7976]); (7969, [7977]); (7970, [7978]); (7971, [7979]);
   (7972, [7980]); (7973, [7981]); (7974, [7982]); (7975, [7983]);
   (7984, [7992]); (7985, [7993]); (7986, [7994]); (7987, [7995]);
   (7988, [7996]); (7989, [7997]); (7990, [7998]); (7991, [7999]);
   (8000, [8008]); (8001, [8009]); (8002, [8010]); (8003, [8011]);
   (8004, [8012]); (8005, [8013]); (8016, [933; 787]); (8017, [8025]);
   (8018, [933; 787; 768]); (8019, [8027]); (8020, [933; 787; 769]);
   (8021, [8029]); (8022, [933; 787; 834]); (8023, [8031]); (8032, [8040]);
   (8033, [8041]); (8034, [8042]); (8035, [8043]); (8036, [8044]);
   (8037, [8045]); (8038, [8046]); (8039, [8047]); (8048, [8122]);
   (8049, [8123]); (8050, [8136]); (8051, [8137]); (8052, [8138]);
   (8053, [8139]); (8054, [8154]); (8055, [8155]); (8056, [8184]);
   (8057, [8185]); (8058, [8170]); (8059, [8171]); (8060, [8186]);
   (8061, [8187]); (8064, [7944; 921]); (8065, [7945; 921]);
   (8066, [7946; 921]); (8067, [7947; 921]); (8068, [7948; 921]);
   (8069, [7949; 921]); (8070, [7950; 921]); (8071, [7951; 921]);
   (8072, [7944; 921]); (8073, [7945; 921]); (8074, [7946; 921]);
   (8075, [7947; 921]); (8076, [7948; 921]); (8077, [7949; 921]);
   (8078, [7950; 921]); (8079, [7951; 921]); (8080, [7976; 921]);
   (8081, [7977; 921]); (8082, [7978; 921]); (8083, [7979; 921]);
   (8084, [7980; 921]); (8085, [7981; 921]); (8086, [7982; 921]);
   (8087, [7983; 921]); (8088, [7976; 921]); (8089, [7977; 921]);
   (8090, [7978; 921]); (8091, [7979; 921]); (8092, [7980; 921]);
   (8093, [7981; 921]); (8094, [7982; 921]); (8095, [7983; 921]);
   (8096, [8040; 921]); (8097, [8041; 921]); (8098, [8042; 921]);
   (8099, [8043; 921]); (8100, [8044; 921]); (8101, [8045; 921]);
   (8102, [8046; 921]); (8103, [8047; 921]); (8104, [8040; 921]);
   (8105, [8041; 921]); (8106, [8042; 921]); (8107, [8043; 921]);
   (8108, [8044; 921]); (8109, [8045; 921]); (8110, [8046; 921]);
   (8111, [8047; 921]); (8112, [8120]); (8113, [8121]); (8114, [8122; 921]);
   (8115, [913; 921]); (8116, [902; 921]); (8118, [913; 834]);
   (8119, [913; 834; 921]); (8124, [913; 921]); (8126, [921]);
   (8130, [8138; 921]); (8131, [919; 921]); (8132, [905; 921]);
   (8134, [919; 834]); (8135, [919; 834; 921]); (8140, [919; 921]);
   (8144, [8152]); (8145, [8153]); (8146, [921; 776; 768]);
   (8147, [921; 776; 769]); (8150, [921; 834]); (8151, [921; 776; 834]);
   (8160, [8168]); (8161, [8169]); (8162, [933; 776; 768]);
   (8163, [933; 776; 769]); (8164, [929; 787]); (8165, [8172]);
   (8166, [933; 834]); (8167, [933; 776; 834]); (8178, [8186; 921]);
   (8179, [937; 921]); (8180, [911; 921]); (8182, [937; 834]);
   (8183, [937; 834; 921]); (8188, [937; 921]); (8526, [8498]);
   (8560, [8544]); (8561, [8545]); (8562, [8546]); (8563, [8547]);
   (8564, [8548]); (8565, [8549]); (8566, [8550]); (8567, [8551]);
   (8568, [8552]); (8569, [8553]); (8570, [8554]); (8571, [8555]);
   (8572, [8556]); (8573, [8557]); (8574, [8558]); (8575, [8559]);
   (8580, [8579]); (9424, [9398]); (9425, [9399]); (9426, [9400]);
   (9427, [9401]); (9428, [9402]); (9429, [9403]); (9430, [9404]);
   (9431, [9405]); (9432, [9406]); (9433, [9407]); (9434, [9408]);
   (9435, [9409]); (9436, [9410]); (9437, [9411]); (9438, [9412]);
   (9439, [9413]); (9440, [9414]); (9441, [9415]); (9442, [9416]);
   (9443, [9417]); (9444, [9418]); (9445, [9419]); (9446, [9420]);
   (9447, [9421]); (9448, [9422]); (9449, [9423]); (11312, [11264]);
   (11313, [11265]); (11314, [11266]); (11315, [11267]); (11316, [11268]);
   (11317, [11269]); (11318, [11270]); (11319, [11271]); (11320, [11272]);
   (11321, [11273]); (11322, [11274]); (11323, [11275]); (11324, [11276]);
   (11325, [11277]); (11326, [11278]); (11327, [11279]); (11328, [11280]);
   (11329, [11281]); (11330, [11282]); (11331, [11283]); (11332, [11284]);
   (11333, [11285]); (11334, [11286]); (11335, [11287]); (11336, [11288]);
   (11337, [11289]); (11338, [11290]); (11339, [11291]); (11340, [11292]);
   (11341, [11293]); (11342, [11294]); (11343, [11295]); (11344, [11296]);
   (11345, [11297]); (11346, [11298]); (11347, [11299]); (11348, [11300]);
   (11349, [11301]); (11350, [11302]); (11351, [11303]); (11352, [11304]);
   (11353, [11305]); (11354, [11306]); (11355, [11307]); (11356, [11308]);
   (11357, [11309]); (11358, [11310]); (11359, [11311]); (11361, [11360]);
   (11365, [570]); (11366, [574]); (11368, [11367]); (11370, [11369]);
   (11372, [11371]); (11379, [11378]); (11382, [11381]); (11393, [11392]);
   (11395, [11394]); (11397, [11396]); (11399, [11398]); (11401, [11400]);
   (11403, [11402]); (11405, [11404]); (11407, [11406]); (11409, [11408]);
   (11411, [11410]); (11413, [11412]); (11415, [11414]); (11417, [11416]);
   (11419, [11418]); (11421, [11420]); (11423, [11422]); (11425, [11424]);
   (11427, [11426]); (11429, [11428]); (11431, [11430]); (11433, [11432]);
   (11435, [11434]); (11437, [11436]); (11439, [11438]); (11441, [11440]);
   (11443, [11442]); (11445, [11444]); (11447, [11446]); (11449, [11448]);
   (11451, [11450]); (11453, [11452]); (11455, [11454]); (11457, [11456]);
   (11459, [11458]); (11461, [11460]); (11463, [11462]); (11465, [11464]);
   (11467, [11466]); (11469, [11468]); (11471, [11470]); (11473, [11472]);
   (11475, [11474]); (11477, [11476]); (11479, [11478]); (11481, [11480]);
   (11483, [11482]); (11485, [11484]); (11487, [11486]); (11489, [11488]);
   (11491, [11490]); (11500, [11499]); (11502, [11501]); (11507, [11506]);
   (11520, [4256]); (11521, [4257]); (11522, [4258]); (11523, [4259]);
   (11524, [4260]); (11525, [4261]); (11526, [4262]); (11527, [4263]);
   (11528, [4264]); (11529, [4265]); (11530, [4266]); (11531, [4267]);
   (11532, [4268]); (11533, [4269]); (11534, [4270]); (11535, [4271]);
   (11536, [4272]); (11537, [4273]); (11538, [4274]); (11539, [4275]);
   (11540, [4276]); (11541, [4277]); (11542, [4278]); (11543, [4279]);
   (11544, [4280]); (11545, [4281]); (11546, [4282]); (11547, [4283]);
   (11548, [4284]); (11549, [4285]); (11550, [4286]); (11551, [4287]);
   (11552, [4288]); (11553, [4289]); (11554, [4290]); (11555, [4291]);
   (11556, [4292]); (11557, [4293]); (11559, [4295]); (11565, [4301]);
   (42561, [42560]); (42563, [42562]); (42565, [42564]); (42567, [42566]);
   (42569, [42568]); (42571, [42570]); (42573, [42572]); (42575, [42574]);
   (42577, [42576]); (42579, [42578]); (42581, [42580]); (42583, [42582]);
   (42585, [42584]); (42587, [42586]); (42589, [42588]); (42591, [42590]);
   (42593, [42592]); (42595, [42594]); (42597, [42596]); (42599, [42598]);
   (42601, [42600]); (42603, [42602]); (42605, [42604]); (42625, [42624]);
   (42627, [42626]); (42629, [42628]); (42631, [42630]); (42633, [42632]);
   (42635, [42634]); (42637, [42636]); (42639, [42638]); (42641, [42640]);
   (42643, [42642]); (42645, [42644]); (42647, [42646]); (42649, [42648]);
   (42651, [42650]); (42787, [42786]); (42789, [42788]); (42791, [42790]);
   (42793, [42792]); (42795, [42794]); (42797, [42796]); (42799, [42798]);
   (42803, [42802]); (42805, [42804]); (42807, [42806]); (42809, [42808]);
   (42811, [42810]); (42813, [42812]); (42815, [42814]); (42817, [42816]);
   (42819, [42818]); (42821, [42820]); (42823, [42822]); (42825, [42824]);
   (42827, [42826]); (42829, [42828]); (42831, [42830]); (42833, [42832]);
   (42835, [42834]); (42837, [42836]); (42839, [42838]); (42841, [42840]);
   (42843, [42842]); (42845, [42844]); (42847, [42846]); (42849, [42848]);
   (42851, [42850]); (42853, [42852]); (42855, [42854]); (42857, [42856]);
   (42859, [42858]); (42861, [42860]); (42863, [42862]); (42874, [42873]);
   (42876, [42875]); (42879, [42878]); (42881, [42880]); (42883, [42882]);
   (42885, [42884]); (42887, [42886]); (42892, [42891]); (42897, [42896]);
   (42899, [42898]); (42900, [42948]); (42903, [42902]); (42905, [42904]);
   (42907, [42906]); (42909, [42908]); (42911, [42910]); (42913, [42912]);
   (42915, [42914]); (42917, [42916]); (42919, [42918]); (42921, [42920]);
   (42933, [42932]); (42935, [42934]); (42937, [42936]); (42939, [42938]);
   (42941, [42940]); (42943, [42942]); (42945, [42944]); (42947, [42946]);
   (42952, [42951]); (42954, [42953]); (42961, [42960]); (42967, [42966]);
   (42969, [42968]); (42998, [42997]); (43859, [42931]); (43888, [5024]);
   (43889, [5025]); (43890, [5026]); (43891, [5027]); (43892, [5028]);
   (43893, [5029]); (43894, [5030]); (43895, [5031]); (43896, [5032]);
   (43897, [5033]); (43898, [5034]); (43899, [5035]); (43900, [5036]);
   (43901, [5037]); (43902, [5038]); (43903, [5039]); (43904, [5040]);
   (43905, [5041]); (43906, [5042]); (43907, [5043]); (43908, [5044]);
   (43909, [5045]); (43910, [5046]); (43911, [5047]); (43912, [5048]);
   (43913, [5049]); (43914, [5050]); (43915, [5051]); (43916, [5052]);
   (43917, [5053]); (43918, [5054]); (43919, [5055]); (43920, [5056]);
   (43921, [5057]); (43922, [5058]); (43923, [5059]); (43924, [5060]);
   (43925, [5061]); (43926, [5062]); (43927, [5063]); (43928, [5064]);
   (43929, [5065]); (43930, [5066]); (43931, [5067]); (43932, [5068]);
   (43933, [5069]); (43934, [5070]); (43935, [5071]); (43936, [5072]);
   (43937, [5073]); (43938, [5074]); (43939, [5075]); (43940, [5076]);
   (43941, [5077]); (43942, [5078]); (43943, [5079]); (43944, [5080]);
   (43945, [5081]); (43946, [5082]); (43947, [5083]); (43948, [5084]);
   (43949, [5085]); (43950, [5086]); (43951, [5087]); (43952, [5088]);
   (43953, [5089]); (43954, [5090]); (43955, [5091]); (43956, [5092]);
   (43957, [5093]); (43958, [5094]); (43959, [5095]); (43960, [5096]);
   (43961, [5097]); (43962, [5098]); (43963, [5099]); (43964, [5100]);
   (43965, [5101]); (43966, [5102]); (43967, [5103]); (64256, [70; 70]);
   (64257, [70; 73]); (64258, [70; 76]); (64259, [70; 70; 73]);
   (64260, [70; 70; 76]); (64261, [83; 84]); (64262, [83; 84]);
   (64275, [1348; 1350]); (64276, [1348; 1333]); (64277, [1348; 1339]);
   (64278, [1358; 1350]); (64279, [1348; 1341]); (65345, [65313]);
   (65346, [65314]); (65347, [65315]); (65348, [65316]); (65349, [65317]);
   (65350, [65318]); (65351, [65319]); (65352, [65320]); (65353, [65321]);
   (65354, [65322]); (65355, [65323]); (65356, [65324]); (65357, [65325]);
   (65358, [65326]); (65359, [65327]); (65360, [65328]); (65361, [65329]);
   (65362, [65330]); (65363, [65331]); (65364, [65332]); (65365, [65333]);
   (65366, [65334]); (65367, [65335]); (65368, [65336]); (65369, [65337]);
   (65370, [65338]); (66600, [66560]); (66601, [66561]); (66602, [66562]);
   (66603, [66563]); (66604, [66564]); (66605, [66565]); (66606, [66566]);
   (66607, [66567]); (66608, [66568]); (66609, [66569]); (66610, [66570]);
   (66611, [66571]); (66612, [66572]); (66613, [66573]); (66614, [66574]);
   (66615, [66575]); (66616, [66576]); (66617, [66577]); (66618, [66578]);
   (66619, [66579]); (66620, [66580]); (66621, [66581]); (66622, [66582]);
   (66623, [66583]); (66624, [66584]); (66625, [66585]); (66626, [66586]);
   (66627, [66587]); (66628, [66588]); (66629, [66589]); (66630, [66590]);
   (66631, [66591]); (66632, [66592]); (66633, [66593]); (66634, [66594]);
   (66635, [66595]); (66636, [66596]); (66637, [66597]); (66638, [66598]);
   (66639, [66599]); (66776, [66736]); (66777, [66737]); (66778, [66738]);
   (66779, [66739]); (66780, [66740]); (66781, [66741]); (66782, [66742]);
   (66783, [66743]); (66784, [66744]); (66785, [66745]); (66786, [66746]);
   (66787, [66747]); (66788, [66748]); (66789, [66749]); (66790, [66750]);
   (66791, [66751]); (66792, [66752]); (66793, [66753]); (66794, [66754]);
   (66795, [66755]); (66796, [66756]); (66797, [66757]); (66798, [66758]);
   (66799, [66759]); (66800, [66760]); (66801, [66761]); (66802, [66762]);
   (66803, [66763]); (66804, [66764]); (66805, [66765]); (66806, [66766]);
   (66807, [66767]); (66808, [66768]); (66809, [66769]); (66810, [66770]);
   (66811, [66771]); (66967, [66928]); (66968, [66929]); (66969, [66930]);
   (66970, [66931]); (66971, [66932]); (66972, [66933]); (66973, [66934]);
   (66974, [66935]); (66975, [66936]); (66976, [66937]); (66977, [66938]);
   (66979, [66940]); (66980, [66941]); (66981, [66942]); (66982, [66943]);
   (66983, [66944]); (66984, [66945]); (66985, [66946]); (66986, [66947]);
   (66987, [66948]); (66988, [66949]); (66989, [66950]); (66990, [66951]);
   (66991, [66952]); (66992, [66953]); (66993, [66954]); (66995, [66956]);
   (66996, [66957]); (66997, [66958]); (66998, [66959]); (66999, [66960]);
   (67000, [66961]); (67001, [66962]); (67003, [66964]); (67004, [66965]);
   (68800, [68736]); (68801, [68737]); (68802, [68738]); (68803, [68739]);
   (68804, [68740]); (68805, [68741]); (68806, [68742]); (68807, [68743]);
   (68808, [68744]); (68809, [68745]); (68810, [68746]); (68811, [68747]);
   (68812, [68748]); (68813, [68749]); (68814, [68750]); (68815, [68751]);
   (68816, [68752]); (68817, [68753]); (68818, [68754]); (68819, [68755]);
   (68820, [68756]); (68821, [68757]); (68822, [68758]); (68823, [68759]);
   (68824, [68760]); (68825, [68761]); (68826, [68762]); (68827, [68763]);
   (68828, [68764]); (68829, [68765]); (68830, [68766]); (68831, [68767]);
   (68832, [68768]); (68833, [68769]); (68834, [68770]); (68835, [68771]);
   (68836, [68772]); (68837, [68773]); (68838, [68774]); (68839, [68775]);
   (68840, [68776]); (68841, [68777]); (68842, [68778]); (68843, [68779]);
   (68844, [68780]); (68845, [68781]); (68846, [68782]); (68847, [68783]);
   (68848, [68784]); (68849, [68785]); (68850, [68786]); (71872, [71840]);
   (71873, [71841]); (71874, [71842]); (71875, [71843]); (71876, [71844]);
   (71877, [71845]); (71878, [71846]); (71879, [71847]); (71880, [71848]);
   (71881, [71849]); (71882, [71850]); (71883, [71851]); (71884, [71852]);
   (71885, [71853]); (71886, [71854]); (71887, [71855]); (71888, [71856]);
   (71889, [71857]); (71890, [71858]); (71891, [71859]); (71892, [71860]);
   (71893, [71861]); (71894, [71862]); (71895, [71863]); (71896, [71864]);
   (71897, [71865]); (71898, [71866]); (71899, [71867]); (71900, [71868]);
   (71901, [71869]); (71902, [71870]); (71903, [71871]); (93792, [93760]);
   (93793, [93761]); (93794, [93762]); (93795, [93763]); (93796, [93764]);
   (93797, [93765]); (93798, [93766]); (93799, [93767]); (93800, [93768]);
   (93801, [93769]); (93802, [93770]); (93803, [93771]); (93804, [93772]);
   (93805, [93773]); (93806, [93774]); (93807, [93775]); (93808, [93776]);
   (93809, [93777]); (93810, [93778]); (93811, [93779]); (93812, [93780]);
   (93813, [93781]); (93814, [93782]); (93815, [93783]); (93816, [93784]);
   (93817, [93785]); (93818, [93786]); (93819, [93787]); (93820, [93788]);
   (93821, [93789]); (93822, [93790]); (93823, [93791]); (125218, [125184]);
   (125219, [125185]); (125220, [125186]); (125221, [125187]);
   (125222, [125188]); (125223, [125189]); (125224, [125190]);
   (125225, [125191]); (125226, [125192]); (125227, [125193]);
   (125228, [125194]); (125229, [125195]); (125230, [125196]);
   (125231, [125197]); (125232, [125198]); (125233, [125199]);
   (125234, [125200]); (125235, [125201]); (125236, [125202]);
   (125237, [125203]); (125238, [125204]); (125239, [125205]);
   (125240, [125206]); (125241, [125207]); (125242, [125208]);
   (125243, [125209]); (125244, [125210]); (125245, [125211]);
   (125246, [125212]); (125247, [125213]); (125248, [125214]);
   (125249, [125215]); (125250, [125216]); (125251, [125217]) ]%N.

Definition spaces : list string := Eval vm_compute in map utf8 whitespace.

Definition upper_map : list (string * string) :=
  Eval vm_compute in map (fun kv => (utf8 (fst kv), encode (snd kv))) upper_table.

(** [c.isspace()] for the encoding [c] of one character. *)
Definition isspace (c : string) : bool := existsb (String.eqb c) spaces.

(** The upper case of the character encoded by [c], when it has one. *)
Definition upper_char (c : string) : option string :=
  match find (fun kv => String.eqb (fst kv) c) upper_map with
  | Some kv => Some (snd kv)
  | None => None
  end.

(** The number of bytes of the character that starts with the byte [a]. *)
Definition width (a : ascii) : nat :=
  if (code a <? 192)%N then 1
  else if (code a <? 224)%N then 2
  else if (code a <? 240)%N then 3 else 4.

(** [s.lstrip()]: white space is one to three bytes long. *)
Fixpoint lstrip (s : string) : string :=
  match s with
  | EmptyString => EmptyString
  | String a s1 =>
      if isspace (String a "") then lstrip s1 else
      match s1 with
      | String b s2 =>
          if isspace (String a (String b "")) then lstrip s2 else
          match s2 with
          | String c s3 =>
              if isspace (String a (String b (String c ""))) then lstrip s3
              else s
          | EmptyString => s
          end
      | EmptyString => s
      end
  end.

(** [s.rstrip()]: a byte followed by the stripped rest is dropped when the
    two are one white space character. *)
Fixpoint rstrip (s : string) : string :=
  match s with
  | EmptyString => EmptyString
  | String a s' =>
      let r := rstrip s' in
      if isspace (String a r) then EmptyString else String a r
  end.

Definition strip (s : string) : string := rstrip (lstrip s).

(** [s.upper()]: a character with an upper case is replaced by it, every
    other byte is kept. *)
Fixpoint upper (s : string) : string :=
  match s with
  | EmptyString => EmptyString
  | String a s1 =>
      match width a, s1 with
      | 1, _ =>
          match upper_char (String a "") with
          | Some v => v ++ upper s1
          | None => String a (upper s1)
          end
      | 2, String b s2 =>
          match upper_char (String a (String b "")) with
          | Some v => v ++ upper s2
          | None => String a (upper s1)
          end
      | 3, String b (String c s3) =>
          match upper_char (String a (String b (String c ""))) with
          | Some v => v ++ upper s3
          | None => String a (upper s1)
          end
      | 4, String b (String c (String d s4)) =>
          match upper_char (String a (String b (String c (String d "")))) with
          | Some v => v ++ upper s4
          | None => String a (upper s1)
          end
      | _, _ => String a (upper s1)
      end
  end.

Definition startswith (s p : string) : bool := String.prefix p s.

(** Truth value of a text: the empty text is false. *)
Definition truthy (s : string) : bool :=
  match s with EmptyString => false | _ => true end.

(** [str(n)] for an integer. *)
Definition str_int (n : Z) : string := pretty n.

Definition nl : string := String (ascii_of_nat 10) EmptyString.

End Py.

Arguments Py.isspace : simpl never.
Arguments Py.upper_char : simpl never.
Arguments Py.lstrip : simpl never.
Arguments Py.rstrip : simpl never.
Arguments Py.upper : simpl never.

(** ** Well-formed characters

    What the properties of [strip] and [upper] are stated with: a
    continuation byte, one whole character, a text made of whole
    characters. *)

Module Utf8.

Definition is_cont (a : ascii) : bool :=
  (128 <=? Py.code a)%N && (Py.code a <? 192)%N.

Fixpoint all_cont (s : string) : bool :=
  match s with
  | EmptyString => true
  | String a s' => is_cont a && all_cont s'
  end.

(** One character: a byte that is not a continuation byte, followed by the
    continuation bytes it announces. *)
Definition is_char (c : string) : bool :=
  match c with
  | EmptyString => false
  | String a r =>
      negb (is_cont a) && Nat.eqb (S (String.length r)) (Py.width a)
      && all_cont r
  end.

Fixpoint take (n : nat) (s : string) : string :=
  match n, s with
  | S n', String a s' => String a (take n' s')
  | _, _ => EmptyString
  end.

Fixpoint drop (n : nat) (s : string) : string :=
  match n, s with
  | S n', String _ s' => drop n' s'
  | _, _ => s
  end.

(** [s] is made of whole characters that all pass the test [p]. *)
Fixpoint whole (p : string -> bool) (fuel : nat) (s : string) : bool :=
  match fuel, s with
  | _, EmptyString => true
  | S fuel', String a _ =>
      is_char (take (Py.width a) s) && p (take (Py.width a) s)
      && whole p fuel' (drop (Py.width a) s)
  | O, String _ _ => false
  end.

Inductive Whole (P : string -> Prop) : string -> Prop :=
| Whole_nil : Whole P EmptyString
| Whole_cons (c s : string) :
    is_char c = true -> P c -> Whole P s -> Whole P (c ++ s).

(** The test for [Stable] below. *)
Definition stable (c : string) : bool :=
  negb (Py.isspace c)
  && match Py.upper_char c with None => true | Some _ => false end.

(** A character that is neither white space nor changed by [upper]. *)
Definition Stable (c : string) : Prop :=
  Py.isspace c = false /\ Py.upper_char c = None.

(** A text made of white space only. *)
Definition Blank : string -> Prop := Whole (fun w => Py.isspace w = true).

End Utf8.

(** ** Values *)

(** Identity of an [sqlite3.Connection] and of a cursor object. *)
Definition conn := nat.
Definition cursor := nat.

(** A Python float (a clock reading, a REAL cell), kept as its bit pattern;
    the program never computes with one. *)
Inductive pyfloat := Float64 (bits : Z).

(** A cell of a table frame. *)
Inductive scalar :=
| SNull
| SInt (n : Z)
| SReal (x : pyfloat)
| SText (s : string).

(** A [pandas.DataFrame]: named columns and rows of cells. *)
Record frame := DataFrame {
  columns : list string;
  rows : list (list scalar)
}.

(** [len(df)] *)
Definition frame_len (df : frame) : nat := length (rows df).

(** [df.empty]: some axis has length 0. *)
Definition frame_empty (df : frame) : bool :=
  Nat.eqb (length (columns df)) 0 || Nat.eqb (length (rows df)) 0.

(** [pd.DataFrame({'message': [msg]})] *)
Definition message_frame (msg : string) : frame :=
  {| columns := ["message"]; rows := [[SText msg]] |}.

(** The value of a preference: an integer, a text or a boolean. *)
Inductive prefval :=
| PInt (n : Z)
| PStr (s : string)
| PBool (b : bool).

(** [str(v)], as an f-string renders it. *)
Definition str_prefval (v : prefval) : string :=
  match v with
  | PInt n => Py.str_int n
  | PStr s => s
  | PBool true => "True"
  | PBool false => "False"
  end.

(** The dictionary [add_to_query_history] builds. *)
Record history_entry := HistoryEntry {
  query : string;
  timestamp : pyfloat;
  success : bool;
  rows_returned : Z;
  time : string
}.

(** [st.session_state]: each field is absent ([None]) or holds a value; a
    field that holds Python's [None] is [Some None]. *)
Record session := Session {
  db_path : option (option string);
  connection : option (option conn);
  tables : option (list scalar);
  query_history : option (list history_entry);
  selected_table : option (option scalar);
  active_tab : option string;
  preferences : option (gmap string prefval)
}.

Definition set_db_path (v : option string) (s : session) : session :=
  {| db_path := Some v; connection := connection s; tables := tables s;
     query_history := query_history s; selected_table := selected_table s;
     active_tab := active_tab s; preferences := preferences s |}.

Definition set_connection (v : option conn) (s : session) : session :=
  {| db_path := db_path s; connection := Some v; tables := tables s;
     query_history := query_history s; selected_table := selected_table s;
     active_tab := active_tab s; preferences := preferences s |}.

Definition set_tables (v : list scalar) (s : session) : session :=
  {| db_path := db_path s; connection := connection s; tables := Some v;
     query_history := query_history s; selected_table := selected_table s;
     active_tab := active_tab s; preferences := preferences s |}.

Definition set_query_history (v : list history_entry) (s : session) : session :=
  {| db_path := db_path s; connection := connection s; tables := tables s;
     query_history := Some v; selected_table := selected_table s;
     active_tab := active_tab s; preferences := preferences s |}.

Definition set_selected_table (v : option scalar) (s : session) : session :=
  {| db_path := db_path s; connection := connection s; tables := tables s;
     query_history := query_history s; selected_table := Some v;
     active_tab := active_tab s; preferences := preferences s |}.

Definition set_active_tab (v : string) (s : session) : session :=
  {| db_path := db_path s; connection := connection s; tables := tables s;
     query_history := query_history s; selected_table := selected_table s;
     active_tab := Some v; preferences := preferences s |}.

Definition set_preferences (v : gmap string prefval) (s : session) : session :=
  {| db_path := db_path s; connection := connection s; tables := tables s;
     query_history := query_history s; selected_table := selected_table s;
     active_tab := active_tab s; preferences := Some v |}.

(** ** Exceptions, the engine and the world *)

(** A call returns a value or raises; [Exn] carries [str(e)]. *)
Inductive outcome (A : Type) :=
| Val (a : A)
| Exn (msg : string).
Arguments Val {A} a.
Arguments Exn {A} msg.

(** What the program asks of its collaborators.  [E] is the state of the
    engine, the file system and the clock together. *)
Class Backend (E : Type) := {
  (* tempfile.NamedTemporaryFile(delete=False, suffix=...), write, close *)
  named_temporary_file : string -> list Byte.byte -> E -> outcome string * E;
  sqlite3_connect : string -> E -> outcome conn * E;
  conn_execute : conn -> string -> E -> outcome unit * E;
  conn_cursor : conn -> E -> outcome cursor * E;
  cursor_execute : cursor -> string -> E -> outcome unit * E;
  cursor_rowcount : cursor -> E -> Z;
  conn_commit : conn -> E -> outcome unit * E;
  conn_close : conn -> E -> outcome unit * E;
  pd_read_sql_query : string -> conn -> E -> outcome frame * E;
  time_time : E -> pyfloat * E;
  time_strftime : string -> E -> string * E;
  (* df.to_csv(index=False), df.to_json(orient="records", indent=2) *)
  to_csv : frame -> string;
  to_json : frame -> string
}.

(** A call issued to the engine. *)
Inductive call :=
| CTempfile (suffix : string) (data : list Byte.byte)
| CConnect (path : string)
| CConnExecute (c : conn) (sql : string)
| CCursor (c : conn)
| CExecute (cu : cursor) (sql : string)
| CCommit (c : conn)
| CClose (c : conn)
| CReadSql (sql : string) (c : conn).

(** What the program shows to the user. *)
Inductive ui_event :=
| StSuccess (msg : string)
| StError (msg : string)
| StWarning (msg : string)
| StInfo (msg : string)
| StWrite (msg : string)
| StSubheader (msg : string)
| StInfoValue (v : scalar)
| StDataframe (df : frame)
| StDownloadButton (label data file_name mime : string)
| StExpander (label : string)
| PyPrint (msg : string).

Record world (E : Type) := World {
  st_session_state : session;
  engine : E;
  calls : list call;
  ui : list ui_event
}.
Arguments World {E}.
Arguments st_session_state {E}.
Arguments engine {E}.
Arguments calls {E}.
Arguments ui {E}.

(** ** The monad of handlers: state, with exceptions that keep the state *)

Definition M (E A : Type) : Type := world E -> outcome A * world E.

Definition ret {E A} (a : A) : M E A := fun w => (Val a, w).

Definition raise {E A} (msg : string) : M E A := fun w => (Exn msg, w).

Definition bind {E A B} (m : M E A) (k : A -> M E B) : M E B :=
  fun w =>
    match m w with
    | (Val a, w') => k a w'
    | (Exn e, w') => (Exn e, w')
    end.

(** [try: body except Exception as e: handler(str(e))] *)
Definition try_except {E A} (body : M E A) (handler : string -> M E A) : M E A :=
  fun w =>
    match body w with
    | (Val a, w') => (Val a, w')
    | (Exn e, w') => handler e w'
    end.

Declare Scope py_scope.
Delimit Scope py_scope with py.
Notation "x <- m ;; k" := (bind m (fun x => k))
  (at level 100, m at next level, right associativity) : py_scope.
Notation "m ;;; k" := (bind m (fun _ => k))
  (at level 100, right associativity) : py_scope.
Open Scope py_scope.

Definition lift {E A} (o : outcome A) : M E A := fun w => (o, w).

(** [st.session_state.<name>]: reading an absent field raises. *)
Definition getattr {E A} (name : string) (proj : session -> option A) : M E A :=
  fun w =>
    match proj (st_session_state w) with
    | Some v => (Val v, w)
    | None => (Exn ("st.session_state has no attribute " ++ name), w)
    end.

(** [st.session_state.<name> = v] *)
Definition setattr {E} (upd : session -> session) : M E unit :=
  fun w =>
    (Val tt, World (upd (st_session_state w)) (engine w) (calls w) (ui w)).

Definition emit {E} (ev : ui_event) : M E unit :=
  fun w =>
    (Val tt, World (st_session_state w) (engine w) (calls w) (ui w ++ [ev])).

(** A display call that may raise: Streamlit shows the element, or raises
    on it (as [st.dataframe] does on a frame it cannot encode) and shows
    nothing. *)
Class Display (E : Type) := {
  st_display : ui_event -> E -> outcome unit * E
}.

Definition render {E} {D : Display E} (ev : ui_event) : M E unit :=
  fun w =>
    let (r, e') := st_display ev (engine w) in
    match r with
    | Val _ =>
        (Val tt, World (st_session_state w) e' (calls w) (ui w ++ [ev]))
    | Exn m => (Exn m, World (st_session_state w) e' (calls w) (ui w))
    end.

(** A call to the engine: logged, then performed. *)
Definition ask {E A} (c : call) (op : E -> outcome A * E) : M E A :=
  fun w =>
    let (r, e') := op (engine w) in
    (r, World (st_session_state w) e' (calls w ++ [c]) (ui w)).

(** A reading of the clock. *)
Definition clock {E A} (op : E -> A * E) : M E A :=
  fun w =>
    let (r, e') := op (engine w) in
    (Val r, World (st_session_state w) e' (calls w) (ui w)).

(** ** session_manager.py *)

Module SessionManager.
Section SessionManager.
Context {E : Type} {B : Backend E}.

Definition default_preferences : gmap string prefval :=
  <["auto_run_queries" := PBool false]>
    (<["theme" := PStr "light"]> (<["rows_per_page" := PInt 100]> ∅)).

(** [if name not in st.session_state: st.session_state.<name> = v] *)
Definition init_field {A} (proj : session -> option A)
    (upd : session -> session) (s : session) : session :=
  match proj s with
  | None => upd s
  | Some _ => s
  end.

Definition init_session (s : session) : session :=
  let s := init_field db_path (set_db_path None) s in
  let s := init_field connection (set_connection None) s in
  let s := init_field tables (set_tables []) s in
  let s := init_field query_history (set_query_history []) s in
  let s := init_field selected_table (set_selected_table None) s in
  let s := init_field active_tab (set_active_tab "explorer") s in
  init_field preferences (set_preferences default_preferences) s.

Definition init_session_state : M E unit := setattr init_session.

Definition clear_database_state : M E unit :=
  c <- getattr "connection" connection ;;
  (match c with
   | Some _ =>
       try_except
         (c' <- getattr "connection" connection ;;
          match c' with
          | Some h => ask (CClose h) (conn_close h)
          | None => raise "'NoneType' object has no attribute 'close'"
          end)
         (fun _ => ret tt)
   | None => ret tt
   end) ;;;
  setattr (set_db_path None) ;;;
  setattr (set_connection None) ;;;
  setattr (set_tables []) ;;;
  setattr (set_selected_table None).

Definition add_to_query_history (q : string) (ok : bool) (n : Z) : M E unit :=
  ts <- clock time_time ;;
  tm <- clock (time_strftime "%H:%M:%S") ;;
  let history_entry :=
    {| query := q; timestamp := ts; success := ok; rows_returned := n;
       time := tm |} in
  h <- getattr "query_history" query_history ;;
  setattr (set_query_history (history_entry :: h)) ;;;
  h1 <- getattr "query_history" query_history ;;
  if Nat.ltb 50 (length h1)
  then (h2 <- getattr "query_history" query_history ;;
        setattr (set_query_history (take 50 h2)))
  else ret tt.

Definition update_preference (key : string) (value : prefval) : M E bool :=
  p <- getattr "preferences" preferences ;;
  match p !! key with
  | Some _ =>
      p' <- getattr "preferences" preferences ;;
      setattr (set_preferences (<[key := value]> p')) ;;;
      ret true
  | None => ret false
  end.

End SessionManager.
End SessionManager.

Arguments SessionManager.add_to_query_history : simpl never.
Arguments SessionManager.clear_database_state : simpl never.

(** ** utils/database.py *)

Module Database.
Section Database.
Context {E : Type} {B : Backend E}.

Definition connect_to_database (path : string) : M E conn :=
  try_except
    (c <- ask (CConnect path) (sqlite3_connect path) ;;
     ask (CConnExecute c "PRAGMA foreign_keys = ON")
         (conn_execute c "PRAGMA foreign_keys = ON") ;;;
     ret c)
    (fun e => raise ("Failed to connect to database: " ++ e)).

(** The text between the triple quotes of [get_table_list]. *)
Definition table_list_query : string :=
  Py.nl ++ "        SELECT name " ++
  Py.nl ++ "        FROM sqlite_master " ++
  Py.nl ++ "        WHERE type='table' " ++
  Py.nl ++ "        AND name NOT LIKE 'sqlite_%'" ++
  Py.nl ++ "        ORDER BY name" ++
  Py.nl ++ "        ".

(** Positions of the columns called [name]. *)
Fixpoint column_positions (name : string) (cols : list string) (i : nat)
  : list nat :=
  match cols with
  | [] => []
  | c :: cols' =>
      if String.eqb c name
      then i :: column_positions name cols' (S i)
      else column_positions name cols' (S i)
  end.

(** [df[name].tolist()]: a missing label raises [KeyError]; a label carried
    by several columns selects a frame, which has no [tolist]. *)
Definition column_tolist (name : string) (df : frame) : outcome (list scalar) :=
  match column_positions name (columns df) 0 with
  | [] => Exn ("'" ++ name ++ "'")
  | [i] => Val (map (fun r => nth i r SNull) (rows df))
  | _ => Exn "'DataFrame' object has no attribute 'tolist'"
  end.

Definition get_table_list (c : conn) : M E (list scalar) :=
  try_except
    (df <- ask (CReadSql table_list_query c)
               (pd_read_sql_query table_list_query c) ;;
     lift (column_tolist "name" df))
    (fun e =>
       emit (PyPrint ("Error getting table list: " ++ e)) ;;;
       ret []).

(** [pd.read_sql_query(sql, conn)] where [conn] may be Python's [None]. *)
Definition read_sql_query (sql : string) (c : option conn) : M E frame :=
  match c with
  | Some h => ask (CReadSql sql h) (pd_read_sql_query sql h)
  | None => raise "'NoneType' object has no attribute 'cursor'"
  end.

Definition is_select (q : string) : bool :=
  Py.startswith (Py.upper (Py.strip q)) "SELECT".

Definition execute_query (c : option conn) (q : string) : M E frame :=
  try_except
    (if is_select q
     then read_sql_query q c
     else
       match c with
       | None => raise "'NoneType' object has no attribute 'cursor'"
       | Some h =>
           cu <- ask (CCursor h) (conn_cursor h) ;;
           ask (CExecute cu q) (cursor_execute cu q) ;;;
           ask (CCommit h) (conn_commit h) ;;;
           n <- clock (fun e => (cursor_rowcount cu e, e)) ;;
           if Z.leb 0 n
           then ret (message_frame
                       ("Query executed successfully. Rows affected: "
                          ++ Py.str_int n))
           else ret (message_frame "Query executed successfully.")
       end)
    (fun e => raise ("Error executing query: " ++ e)).

Definition get_table_preview (c : option conn) (table_name : string)
    (limit : prefval) : M E frame :=
  try_except
    (let q := "SELECT * FROM " ++ table_name ++ " LIMIT " ++ str_prefval limit in
     read_sql_query q c)
    (fun e =>
       raise ("Error getting preview for table '" ++ table_name ++ "': " ++ e)).

End Database.
End Database.

Arguments Database.is_select : simpl never.
Arguments Database.execute_query : simpl never.
Arguments Database.get_table_list : simpl never.
Arguments Database.connect_to_database : simpl never.

(** ** modules/file_uploader.py *)

Module FileUploader.
Section FileUploader.
Context {E : Type} {B : Backend E}.

(** [uploaded_file] is given by the bytes its [getvalue()] returns. *)
Definition handle_uploaded_file (uploaded : list Byte.byte) : M E bool :=
  try_except
    (tmp_path <- ask (CTempfile ".db" uploaded)
                     (named_temporary_file ".db" uploaded) ;;
     cur <- getattr "db_path" db_path ;;
     if decide (cur = Some tmp_path)
     then ret false
     else
       SessionManager.clear_database_state ;;;
       c <- Database.connect_to_database tmp_path ;;
       setattr (set_connection (Some c)) ;;;
       setattr (set_db_path (Some tmp_path)) ;;;
       l <- Database.get_table_list c ;;
       setattr (set_tables l) ;;;
       t <- getattr "tables" tables ;;
       emit (StSuccess ("Database loaded successfully! Found "
                          ++ Py.str_int (Z.of_nat (length t)) ++ " tables.")) ;;;
       ret true)
    (fun e =>
       emit (StError ("Error loading database: " ++ e)) ;;;
       ret false).

End FileUploader.
End FileUploader.

(** ** modules/sql_editor.py *)

Module SqlEditor.
Section SqlEditor.
Context {E : Type} {B : Backend E} {D : Display E}.

(** [df.iloc[0, 0]] *)
Definition iloc_0_0 (df : frame) : outcome scalar :=
  match rows df with
  | (v :: _) :: _ => Val v
  | _ => Exn "single positional indexer is out-of-bounds"
  end.

(** The display calls of the [try] block come after the query is recorded
    and may raise into its [except] clause. *)
Definition execute_sql_query (q : string) : M E unit :=
  if negb (Py.truthy (Py.strip q))
  then emit (StWarning "Please enter a SQL query first.")
  else
    try_except
      (c <- getattr "connection" connection ;;
       result_df <- Database.execute_query c q ;;
       let rows_returned := Z.of_nat (frame_len result_df) in
       SessionManager.add_to_query_history q true rows_returned ;;;
       render (StSuccess "Query executed successfully!") ;;;
       if Database.is_select q
       then
         if negb (frame_empty result_df)
         then
           render (StWrite ("**Results ("
                              ++ Py.str_int (Z.of_nat (frame_len result_df))
                              ++ " rows):**")) ;;;
           render (StDataframe result_df)
         else render (StInfo "Query returned 0 rows.")
       else
         if negb (frame_empty result_df)
         then v <- lift (iloc_0_0 result_df) ;; render (StInfoValue v)
         else render (StInfo "Query executed."))
      (fun e =>
         SessionManager.add_to_query_history q false 0 ;;;
         emit (StError ("Query Error: " ++ e))).

End SqlEditor.
End SqlEditor.

(** ** modules/exporter.py *)

Module Exporter.
Section Exporter.
Context {E : Type} {B : Backend E}.

(** [df.head(10)] *)
Definition head10 (df : frame) : frame :=
  {| columns := columns df; rows := take 10 (rows df) |}.

(** In both handlers [df.to_excel(index=False)] is called without the
    required [excel_writer] argument, which raises [TypeError].  The chain
    [if format == ... elif ... else] yields the payload, the media type and
    the file extension; [None] stands for its final [else] branch. *)
Definition to_excel_error : string :=
  "NDFrame.to_excel() missing 1 required positional argument: 'excel_writer'".

Definition export_table_data (table_name format : string) : M E unit :=
  try_except
    (let q := "SELECT * FROM " ++ table_name in
     c <- getattr "connection" connection ;;
     df <- Database.execute_query c q ;;
     if frame_empty df
     then emit (StWarning "Table is empty.")
     else
       r <- (if String.eqb format "CSV"
             then ret (Some (to_csv df, "text/csv", "csv"))
             else if String.eqb format "JSON"
             then ret (Some (to_json df, "application/json", "json"))
             else if String.eqb format "Excel"
             then raise to_excel_error
             else ret None) ;;
       match r with
       | None => emit (StError "Unsupported format")
       | Some (data, mime_type, file_extension) =>
           emit (StDownloadButton
                   ("Download " ++ table_name ++ "." ++ file_extension)
                   data
                   (table_name ++ "." ++ file_extension)
                   mime_type) ;;;
           emit (StSuccess ("Ready to export "
                              ++ Py.str_int (Z.of_nat (frame_len df))
                              ++ " rows from '" ++ table_name ++ "'")) ;;;
           emit (StExpander "Preview data") ;;;
           emit (StDataframe (head10 df))
       end)
    (fun e => emit (StError ("Export error: " ++ e))).

Definition export_query_results (q format : string) : M E unit :=
  try_except
    (c <- getattr "connection" connection ;;
     df <- Database.execute_query c q ;;
     if frame_empty df
     then emit (StWarning "Query returned no results.")
     else
       r <- (if String.eqb format "CSV"
             then ret (Some (to_csv df, "text/csv", "csv"))
             else if String.eqb format "JSON"
             then ret (Some (to_json df, "application/json", "json"))
             else if String.eqb format "Excel"
             then raise to_excel_error
             else ret None) ;;
       match r with
       | None => emit (StError "Unsupported format")
       | Some (data, mime_type, file_extension) =>
           emit (StDownloadButton
                   ("Download query_results." ++ file_extension)
                   data
                   ("query_results." ++ file_extension)
                   mime_type) ;;;
           emit (StSuccess ("Ready to export "
                              ++ Py.str_int (Z.of_nat (frame_len df))
                              ++ " rows")) ;;;
           emit (StExpander "Preview results") ;;;
           emit (StDataframe (head10 df))
       end)
    (fun e => emit (StError ("Export error: " ++ e))).

(** The payloads offered for download, oldest first. *)
Definition downloads (evs : list ui_event) : list string :=
  omap (fun ev =>
          match ev with
          | StDownloadButton _ data _ _ => Some data
          | _ => None
          end) evs.

End Exporter.
End Exporter.

(** ** modules/db_explorer.py *)

Module DbExplorer.
Section DbExplorer.
Context {E : Type} {B : Backend E}.

(** [st.session_state.preferences['rows_per_page']] *)
Definition getitem (p : gmap string prefval) (key : string) : outcome prefval :=
  match p !! key with
  | Some v => Val v
  | None => Exn ("'" ++ key ++ "'")
  end.

Definition render_data_preview (table_name : string) : M E unit :=
  emit (StSubheader ("Data: " ++ table_name)) ;;;
  try_except
    (c <- getattr "connection" connection ;;
     p <- getattr "preferences" preferences ;;
     limit <- lift (getitem p "rows_per_page") ;;
     df <- Database.get_table_preview c table_name limit ;;
     let total_rows := frame_len df in
     emit (StWrite ("Showing first **"
                      ++ Py.str_int (Z.of_nat total_rows) ++ "** rows")) ;;;
     emit (StDataframe df))
    (fun e => emit (StError ("Error loading table data: " ++ e))).

End DbExplorer.
End DbExplorer.

(** ** The schema query, read as SQL

    [get_table_list] delegates filtering and ordering to the engine through
    the text of its query.  This is SQLite's reading of the statements of
    that form, [SELECT c FROM t WHERE ... ORDER BY c], over tables of text
    cells: keywords and names without regard to the case of ASCII letters,
    [=] and [ORDER BY] on the bytes of the cells, [LIKE] with [_] for any
    one character and [%] for any run of characters, ASCII letters compared
    without case. *)

Module Sql.

(** SQLite folds the case of ASCII letters only. *)
Definition fold (a : ascii) : ascii :=
  let n := nat_of_ascii a in
  if Nat.leb 97 n && Nat.leb n 122 then ascii_of_nat (n - 32) else a.

Fixpoint fold_text (s : string) : string :=
  match s with
  | EmptyString => EmptyString
  | String a s' => String (fold a) (fold_text s')
  end.

(** Two names, or a word and a keyword, are the same. *)
Definition same (x y : string) : bool :=
  String.eqb (fold_text x) (fold_text y).

Definition like_char (p c : ascii) : bool := Ascii.eqb (fold p) (fold c).

(** What is left of a text after its first character: after a byte of
    value 0xC0 or more the continuation bytes that follow belong to it. *)
Fixpoint skip_cont (s : string) : string :=
  match s with
  | EmptyString => EmptyString
  | String c s' => if Utf8.is_cont c then skip_cont s' else s
  end.

Definition at_char (s : string) : bool :=
  match s with
  | EmptyString => true
  | String c _ => negb (Utf8.is_cont c)
  end.

(** [k] holds of what is left of [s] after one character or more. *)
Fixpoint star (k : string -> bool) (s : string) : bool :=
  match s with
  | EmptyString => false
  | String _ s' => (at_char s' && k s') || star k s'
  end.

Fixpoint like (pat s : string) : bool :=
  match pat with
  | EmptyString => match s with EmptyString => true | _ => false end
  | String p pat' =>
      if Ascii.eqb p "%"
      then like pat' s || star (like pat') s
      else
        match s with
        | EmptyString => false
        | String c s' =>
            if Ascii.eqb p "_"
            then like pat'
                   (if (192 <=? Py.code c)%N then skip_cont s' else s')
            else like_char p c && like pat' s'
        end
  end.

(** *** Reading the statement *)

Inductive token :=
| TWord (w : string)
| TText (t : string)
| TEq
| TOther (a : ascii).

Inductive lexing :=
| Between
| InWord (w : string)
| InText (t : string).

Definition is_blank (a : ascii) : bool :=
  let n := nat_of_ascii a in
  (Nat.leb 9 n && Nat.leb n 13) || Nat.eqb n 32.

(** Letters, digits, the underscore and the bytes of characters beyond
    ASCII make up words. *)
Definition is_word (a : ascii) : bool :=
  let n := nat_of_ascii a in
  (Nat.leb 48 n && Nat.leb n 57) || (Nat.leb 65 n && Nat.leb n 90)
  || (Nat.leb 97 n && Nat.leb n 122) || Nat.eqb n 95 || Nat.leb 128 n.

Definition flush (st : lexing) : list token :=
  match st with
  | InWord w => [TWord w]
  | _ => []
  end.

Fixpoint lex (st : lexing) (s : string) : list token :=
  match s with
  | EmptyString =>
      match st with
      | InText t => [TOther "'"]
      | _ => flush st
      end
  | String a s' =>
      match st with
      | InText t =>
          if Ascii.eqb a "'" then TText t :: lex Between s'
          else lex (InText (t ++ String a "")) s'
      | _ =>
          if is_word a
          then lex (InWord (match st with
                            | InWord w => w ++ String a ""
                            | _ => String a ""
                            end)) s'
          else
            (flush st ++
             if Ascii.eqb a "'" then lex (InText "") s'
             else if is_blank a then lex Between s'
             else if Ascii.eqb a "=" then TEq :: lex Between s'
             else TOther a :: lex Between s')%list
      end
  end.

Inductive cond :=
| Equals (column text : string)
| Like (column pattern : string)
| NotLike (column pattern : string).

Record select := Select {
  sel_column : string;
  sel_from : string;
  sel_where : list cond;
  sel_order : option string
}.

Definition keyword (w k : string) : bool := String.eqb (fold_text w) k.

Definition parse_cond (ts : list token) : option (cond * list token) :=
  match ts with
  | TWord c :: TEq :: TText v :: rest => Some (Equals c v, rest)
  | TWord c :: TWord a :: TText p :: rest =>
      if keyword a "LIKE" then Some (Like c p, rest) else None
  | TWord c :: TWord a :: TWord b :: TText p :: rest =>
      if keyword a "NOT" && keyword b "LIKE"
      then Some (NotLike c p, rest) else None
  | _ => None
  end.

(** [cond AND cond AND ...]; [fuel] bounds the number of conditions. *)
Fixpoint parse_conds (fuel : nat) (ts : list token)
  : option (list cond * list token) :=
  match fuel with
  | O => None
  | S fuel' =>
      match parse_cond ts with
      | None => None
      | Some (c, rest) =>
          match rest with
          | TWord a :: rest' =>
              if keyword a "AND"
              then match parse_conds fuel' rest' with
                   | Some (cs, r) => Some (c :: cs, r)
                   | None => None
                   end
              else Some ([c], rest)
          | _ => Some ([c], rest)
          end
      end
  end.

Definition parse_order (column table : string) (cs : list cond)
    (ts : list token) : option select :=
  match ts with
  | [] => Some (Select column table cs None)
  | [TWord o; TWord b; TWord oc] =>
      if keyword o "ORDER" && keyword b "BY"
      then Some (Select column table cs (Some oc)) else None
  | _ => None
  end.

Definition parse (ts : list token) : option select :=
  match ts with
  | TWord s :: TWord column :: TWord f :: TWord table :: rest =>
      if keyword s "SELECT" && keyword f "FROM"
      then
        match rest with
        | TWord w :: rest1 =>
            if keyword w "WHERE"
            then match parse_conds (length rest1) rest1 with
                 | Some (cs, rest2) => parse_order column table cs rest2
                 | None => None
                 end
            else parse_order column table [] rest
        | _ => parse_order column table [] rest
        end
      else None
  | _ => None
  end.

(** *** Running it *)

Record table := Table {
  t_columns : list string;
  t_rows : list (list string)
}.

Fixpoint position (column : string) (cols : list string) : option nat :=
  match cols with
  | [] => None
  | c :: cols' =>
      if same c column then Some 0
      else match position column cols' with
           | Some i => Some (S i)
           | None => None
           end
  end.

Definition cell (i : nat) (r : list string) : string := nth i r "".

(** A condition on the rows of a table whose columns are [cols];
    [None] when it names a column the table does not have. *)
Definition holds (cols : list string) (c : cond)
  : option (list string -> bool) :=
  match c with
  | Equals column text =>
      match position column cols with
      | Some i => Some (fun r => String.eqb (cell i r) text)
      | None => None
      end
  | Like column pattern =>
      match position column cols with
      | Some i => Some (fun r => like pattern (cell i r))
      | None => None
      end
  | NotLike column pattern =>
      match position column cols with
      | Some i => Some (fun r => negb (like pattern (cell i r)))
      | None => None
      end
  end.

Fixpoint holds_all (cols : list string) (cs : list cond)
  : option (list string -> bool) :=
  match cs with
  | [] => Some (fun _ => true)
  | c :: cs' =>
      match holds cols c, holds_all cols cs' with
      | Some f, Some g => Some (fun r => f r && g r)
      | _, _ => None
      end
  end.

(** [ORDER BY] the cell at [i], in the order of the bytes. *)
Definition by_cell (i : nat) (r1 r2 : list string) : Prop :=
  String.le (cell i r1) (cell i r2).

#[export] Instance by_cell_dec (i : nat) : RelDecision (by_cell i).
Proof. intros r1 r2. unfold by_cell. apply _. Defined.

Definition ordered (cols : list string) (order : option string)
    (l : list (list string)) : option (list (list string)) :=
  match order with
  | None => Some l
  | Some column =>
      match position column cols with
      | Some i => Some (merge_sort (by_cell i) l)
      | None => None
      end
  end.

Definition database := list (string * table).

Fixpoint find_table (name : string) (db : database) : option table :=
  match db with
  | [] => None
  | (n, t) :: db' => if same n name then Some t else find_table name db'
  end.

Definition eval (db : database) (q : select) : outcome frame :=
  match find_table (sel_from q) db with
  | None => Exn ("no such table: " ++ sel_from q)
  | Some t =>
      match position (sel_column q) (t_columns t),
            holds_all (t_columns t) (sel_where q) with
      | Some i, Some keep =>
          match ordered (t_columns t) (sel_order q)
                  (List.filter keep (t_rows t)) with
          | Some l =>
              Val {| columns := [sel_column q];
                     rows := map (fun r => [SText (cell i r)]) l |}
          | None => Exn "no such column"
          end
      | _, _ => Exn "no such column"
      end
  end.

Definition run (db : database) (sql : string) : outcome frame :=
  match parse (lex Between sql) with
  | Some q => eval db q
  | None => Exn "syntax error"
  end.

(** A row of [sqlite_master]: what kind of object it is, and its name (the
    other columns are not read). *)
Record master_row := MasterRow { m_type : string; m_name : string }.

Definition catalog (master : list master_row) : database :=
  [("sqlite_master",
    {| t_columns := ["type"; "name"];
       t_rows := map (fun r => [m_type r; m_name r]) master |})].

(** Names the engine keeps for its own catalog: those that begin with
    [sqlite_], in any case. *)
Definition reserved (n : string) : bool :=
  String.prefix "SQLITE_" (fold_text n).

End Sql.

(** ** A scripted engine

    A small engine with one table, [users], and a catalog, used to run the
    handlers on concrete inputs. *)

Module Script.

Record db := Db {
  connectable : bool;
  master : list Sql.master_row;
  users : list (list scalar);
  rowcount : Z;
  tmp_files : nat;
  ticks : Z
}.

Definition users_frame (e : db) : frame :=
  {| columns := ["id"; "name"]; rows := users e |}.

Definition with_users (u : list (list scalar)) (n : Z) (e : db) : db :=
  {| connectable := connectable e; master := master e; users := u;
     rowcount := n; tmp_files := tmp_files e; ticks := ticks e |}.

Definition execute (sql : string) (e : db) : outcome unit * db :=
  if String.eqb sql "DELETE FROM users"
  then (Val tt, with_users [] (Z.of_nat (length (users e))) e)
  else if String.eqb sql "INSERT INTO users VALUES (3, 'Cy')"
  then (Val tt, with_users (users e ++ [[SInt 3; SText "Cy"]]) 1 e)
  else if String.prefix "CREATE " sql
  then (Val tt, with_users (users e) (-1) e)
  else (Exn "near syntax error", e).

(** A statement of the form [Sql] reads is answered from the catalog; any
    other text that begins with [SELECT * FROM users] gets the rows of
    [users]. *)
Definition read (sql : string) (e : db) : outcome frame * db :=
  match Sql.parse (Sql.lex Sql.Between sql) with
  | Some q => (Sql.eval (Sql.catalog (master e)) q, e)
  | None =>
      if String.prefix "SELECT * FROM users" sql
      then (Val (users_frame e), e)
      else (Exn ("Execution failed on sql '" ++ sql ++ "': no such table"), e)
  end.

Definition cell_text (v : scalar) : string :=
  match v with
  | SNull => ""
  | SInt n => Py.str_int n
  | SReal _ => "nan"
  | SText s => s
  end.

Definition csv_line (cells : list string) : string :=
  String.concat "," cells ++ Py.nl.

Definition csv (df : frame) : string :=
  csv_line (columns df)
    ++ String.concat "" (map (fun r => csv_line (map cell_text r)) (rows df)).

#[export] Instance backend : Backend db := {|
  named_temporary_file suffix data e :=
    (Val ("/tmp/tmp" ++ pretty (tmp_files e) ++ suffix),
     {| connectable := connectable e; master := master e; users := users e;
        rowcount := rowcount e; tmp_files := S (tmp_files e);
        ticks := ticks e |});
  sqlite3_connect path e :=
    if connectable e then (Val 7, e)
    else (Exn "unable to open database file", e);
  conn_execute c sql e := (Val tt, e);
  conn_cursor c e := (Val c, e);
  cursor_execute cu sql e := execute sql e;
  cursor_rowcount cu e := rowcount e;
  conn_commit c e := (Val tt, e);
  conn_close c e := (Val tt, e);
  pd_read_sql_query sql c e := read sql e;
  time_time e := (Float64 (ticks e), e);
  time_strftime fmt e := ("12:00:00", e);
  to_csv := csv;
  to_json df := "[" ++ csv df ++ "]"
|}.

(** Every element is displayed. *)
#[export] Instance display : Display db := {|
  st_display ev e := (Val tt, e)
|}.

Definition sample_master : list Sql.master_row :=
  [ Sql.MasterRow "table" "users";
    Sql.MasterRow "table" "sqlite_sequence";
    Sql.MasterRow "index" "users_idx";
    Sql.MasterRow "table" "orders" ].

Definition sample_db (ok : bool) : db :=
  {| connectable := ok; master := sample_master;
     users := [[SInt 1; SText "Ann"]; [SInt 2; SText "Bob"]];
     rowcount := -1; tmp_files := 0; ticks := 1700000000 |}.

(** A database with a table whose name begins with [sqlite] and is not
    reserved. *)
Definition sqlitex_db : db :=
  {| connectable := true;
     master := [ Sql.MasterRow "table" "users";
                 Sql.MasterRow "table" "sqlitex" ];
     users := [[SInt 1; SText "Ann"]; [SInt 2; SText "Bob"]];
     rowcount := -1; tmp_files := 0; ticks := 1700000000 |}.

(** A session with a database loaded and one query in its history. *)
Definition loaded_session : session :=
  {| db_path := Some (Some "/tmp/old.db");
     connection := Some (Some 3);
     tables := Some [SText "users"];
     query_history :=
       Some [ {| query := "SELECT 1"; timestamp := Float64 1699999999;
                 success := true; rows_returned := 1; time := "11:59:59" |} ];
     selected_table := Some (Some (SText "users"));
     active_tab := Some "explorer";
     preferences := Some SessionManager.default_preferences |}.

Definition empty_session : session :=
  {| db_path := None; connection := None; tables := None;
     query_history := None; selected_table := None; active_tab := None;
     preferences := None |}.

Definition loaded_world (ok : bool) : world db :=
  World loaded_session (sample_db ok) [] [].

End Script.

(** ** More of Python's text operations *)

Module PyText.

(** [sub in s] *)
Fixpoint contains (sub s : string) : bool :=
  String.prefix sub s
  || match s with
     | EmptyString => false
     | String _ s' => contains sub s'
     end.

(** [sep.join(l)] *)
Definition join (sep : string) (l : list string) : string :=
  String.concat sep l.

(** The text without its first [n] characters. *)
Fixpoint drop_chars (n : nat) (s : string) : string :=
  match n, s with
  | S n', String _ s' => drop_chars n' s'
  | _, _ => s
  end.

(** [s.endswith(suffix)] *)
Definition endswith (s suffix : string) : bool :=
  Nat.leb (String.length suffix) (String.length s)
  && String.eqb
       (drop_chars (String.length s - String.length suffix) s) suffix.

(** [os.path.basename(p)] on a POSIX path: what follows the last slash. *)
Fixpoint basename (p : string) : string :=
  match p with
  | EmptyString => EmptyString
  | String a p' =>
      if contains "/" p' then basename p'
      else if Ascii.eqb a "/" then p' else p
  end.

End PyText.

(** [str(x)] for a float is left to the runtime. *)
Class FloatText := { str_float : pyfloat -> string }.

(** The widgets and layout calls of Streamlit that leave no message: they
    act on the outside world, and the input widgets return what the user
    chose. *)
Class Streamlit (E : Type) := {
  st_header : string -> E -> E;
  st_divider : E -> E;
  (* st.slider(label, min_value, max_value, value, step) *)
  st_slider : string -> Z -> Z -> prefval -> Z -> E -> outcome Z * E;
  (* st.button(label, type="secondary") *)
  st_button : string -> E -> bool * E
}.

(** Reading a file back: [open(path, 'rb')] and [read()] on it. *)
Class Files (E : Type) := {
  file_open : string -> E -> outcome unit * E;
  file_read : string -> E -> outcome (list Byte.byte) * E
}.

(** A layout call: no result, no message. *)
Definition layout {E} (op : E -> E) : M E unit :=
  fun w => (Val tt, World (st_session_state w) (op (engine w)) (calls w) (ui w)).

(** An input widget. *)
Definition widget {E A} (op : E -> outcome A * E) : M E A :=
  fun w =>
    let (r, e') := op (engine w) in
    (r, World (st_session_state w) e' (calls w) (ui w)).

(** A computation that leaves the session and the messages as they are,
    whatever it returns. *)
Definition keeps_session {E A} (m : M E A) : Prop :=
  forall w : world E,
    st_session_state (snd (m w)) = st_session_state w /\
    ui (snd (m w)) = ui w.

(** ** utils/database.py, the schema lookup *)

Module DatabaseSchema.
Section DatabaseSchema.
Context {E : Type} {B : Backend E}.

Definition get_table_schema (c : option conn) (table_name : string)
  : M E frame :=
  try_except
    (let q := "PRAGMA table_info(" ++ table_name ++ ")" in
     Database.read_sql_query q c)
    (fun e =>
       raise ("Error getting schema for table '" ++ table_name ++ "': " ++ e)).

End DatabaseSchema.
End DatabaseSchema.

(** ** modules/table_editor.py *)

Module TableEditor.
Section TableEditor.
Context {E : Type} {B : Backend E} {F : FloatText}.

(** What a form input holds: [st.number_input] gives an integer or a
    float, [st.text_input] a text. *)
Inductive input_value :=
| IInt (n : Z)
| IFloat (x : pyfloat)
| IStr (s : string).

(** [f"'{v}'" if isinstance(v, str) else str(v)] *)
Definition sql_value (v : input_value) : string :=
  match v with
  | IStr s => "'" ++ s ++ "'"
  | IInt n => Py.str_int n
  | IFloat x => str_float x
  end.

(** The text [insert_row] builds; [data] lists the dictionary's items in
    their order. *)
Definition insert_query (table_name : string)
    (data : list (string * input_value)) : string :=
  let columns := PyText.join ", " (map fst data) in
  let values := PyText.join ", " (map (fun kv => sql_value (snd kv)) data) in
  "INSERT INTO " ++ table_name ++ " (" ++ columns ++ ") VALUES ("
    ++ values ++ ")".

(** [st.rerun()] leaves the handler by a signal that [except Exception]
    does not catch; the result tells whether the handler was left so. *)
Definition insert_row (table_name : string)
    (data : list (string * input_value)) : M E bool :=
  try_except
    (let q := insert_query table_name data in
     c <- getattr "connection" connection ;;
     Database.execute_query c q ;;;
     emit (StSuccess "Row inserted successfully!") ;;;
     ret true)
    (fun e =>
       emit (StError ("Error inserting row: " ++ e)) ;;;
       ret false).

Definition render_update_interface (table_name : string) : M E unit :=
  emit (StSubheader ("Update rows in " ++ table_name)) ;;;
  emit (StInfo "Update functionality will be implemented in the next version.") ;;;
  try_except
    (c <- getattr "connection" connection ;;
     df <- Database.get_table_preview c table_name (PInt 20) ;;
     if negb (frame_empty df)
     then
       emit (StWrite "**Current data (first 20 rows):**") ;;;
       emit (StDataframe df)
     else ret tt)
    (fun _ => ret tt).

(** [str(v)] for a cell of a frame row. *)
Definition str_cell (v : scalar) : string :=
  match v with
  | SNull => "None"
  | SInt n => Py.str_int n
  | SReal x => str_float x
  | SText s => s
  end.

(** The test of [render_insert_interface] that decides whether a column of
    the schema gets no input: [pk] is the row's [pk] cell, [ty] its [type]
    cell before [.upper()]. *)
Definition skips_column (pk : scalar) (ty : string) : bool :=
  let col_type := Py.upper ty in
  PyText.contains "PRIMARY KEY" (str_cell pk)
  && PyText.contains "AUTOINCREMENT" col_type.

End TableEditor.
End TableEditor.

Arguments TableEditor.insert_query : simpl never.

(** ** app.py, the settings tab *)

Module App.
Section App.
Context {E : Type} {B : Backend E} {S : Streamlit E} {Fs : Files E}.

(** [n != v] for an integer [n] and the value of a preference; a boolean
    compares as 0 or 1. *)
Definition int_ne (n : Z) (v : prefval) : bool :=
  match v with
  | PInt m => negb (Z.eqb n m)
  | PBool b => negb (Z.eqb n (if b then 1 else 0))
  | PStr _ => true
  end.

Definition about_text : string :=
  Py.nl ++ "    **SQLite Browser** v1.0" ++
  Py.nl ++ "    - Built with Streamlit" ++
  Py.nl ++ "    - Uses Python's sqlite3 library" ++
  Py.nl ++ "    - Data stays in your browser (no server storage)" ++
  Py.nl ++ "    ".

Definition render_settings : M E unit :=
  layout (st_header "Settings") ;;;
  p <- getattr "preferences" preferences ;;
  cur <- lift (DbExplorer.getitem p "rows_per_page") ;;
  rows_per_page <- widget (st_slider "Rows per page in preview:" 10 500 cur 10) ;;
  p1 <- getattr "preferences" preferences ;;
  cur1 <- lift (DbExplorer.getitem p1 "rows_per_page") ;;
  (if int_ne rows_per_page cur1
   then
     SessionManager.update_preference "rows_per_page" (PInt rows_per_page) ;;;
     emit (StSuccess "Settings updated!")
   else ret tt) ;;;
  emit (StSubheader "Data Management") ;;;
  clicked <- clock (st_button "Clear Query History") ;;
  (if (clicked : bool)
   then
     setattr (set_query_history []) ;;;
     emit (StSuccess "Query history cleared!")
   else ret tt) ;;;
  layout st_divider ;;;
  emit (StSubheader "About") ;;;
  emit (StWrite about_text).

(** The statements of [create_sample_database], in order. *)
Definition create_users : string :=
     Py.nl ++ "        CREATE TABLE users (" ++
     Py.nl ++ "            id INTEGER PRIMARY KEY AUTOINCREMENT," ++
     Py.nl ++ "            username TEXT NOT NULL," ++
     Py.nl ++ "            email TEXT UNIQUE," ++
     Py.nl ++ "            created_at TIMESTAMP DEFAULT CURRENT_TIMESTAMP" ++
     Py.nl ++ "        )" ++
     Py.nl ++ "        ".

Definition create_products : string :=
     Py.nl ++ "        CREATE TABLE products (" ++
     Py.nl ++ "            id INTEGER PRIMARY KEY," ++
     Py.nl ++ "            name TEXT NOT NULL," ++
     Py.nl ++ "            price REAL," ++
     Py.nl ++ "            category TEXT," ++
     Py.nl ++ "            in_stock INTEGER DEFAULT 0" ++
     Py.nl ++ "        )" ++
     Py.nl ++ "        ".

Definition create_orders : string :=
     Py.nl ++ "        CREATE TABLE orders (" ++
     Py.nl ++ "            id INTEGER PRIMARY KEY AUTOINCREMENT," ++
     Py.nl ++ "            user_id INTEGER," ++
     Py.nl ++ "            product_id INTEGER," ++
     Py.nl ++ "            quantity INTEGER," ++
     Py.nl ++ "            order_date DATE," ++
     Py.nl ++ "            FOREIGN KEY (user_id) REFERENCES users(id)," ++
     Py.nl ++ "            FOREIGN KEY (product_id) REFERENCES products(id)" ++
     Py.nl ++ "        )" ++
     Py.nl ++ "        ".

Definition insert_alice : string :=
     "INSERT INTO users (username, email) VALUES ('alice', 'alice@example.com')".

Definition insert_bob : string :=
     "INSERT INTO users (username, email) VALUES ('bob', 'bob@example.com')".

Definition insert_laptop : string :=
     "INSERT INTO products VALUES (1, 'Laptop', 999.99, 'Electronics', 10)".

Definition insert_book : string :=
     "INSERT INTO products VALUES (2, 'Book', 19.99, 'Education', 50)".

Definition insert_order_1 : string :=
     "INSERT INTO orders (user_id, product_id, quantity, order_date) VALUES (1, 1, 1, '2024-01-15')".

Definition insert_order_2 : string :=
     "INSERT INTO orders (user_id, product_id, quantity, order_date) VALUES (2, 2, 3, '2024-01-16')".

Definition sample_statements : list string :=
  [create_users; create_products; create_orders; insert_alice; insert_bob;
   insert_laptop; insert_book; insert_order_1; insert_order_2].

(** [cursor.execute(s)] for each statement in turn. *)
Fixpoint execute_all (cu : cursor) (l : list string) : M E unit :=
  match l with
  | [] => ret tt
  | s :: l' => ask (CExecute cu s) (cursor_execute cu s) ;;; execute_all cu l'
  end.

(** The first part of the [try] block of [create_sample_database]: a fresh
    temporary file (nothing is written to it by the program), the sample
    tables and rows built through a handle of its own, which is committed
    and closed, and the file read back as [MockUploadedFile] does.  The
    result is what [getvalue()] returns. *)
Definition build_sample_database : M E (list Byte.byte) :=
  tmp_path <- ask (CTempfile ".db" []) (named_temporary_file ".db" []) ;;
  c <- ask (CConnect tmp_path) (sqlite3_connect tmp_path) ;;
  cu <- ask (CCursor c) (conn_cursor c) ;;
  execute_all cu sample_statements ;;;
  ask (CCommit c) (conn_commit c) ;;;
  ask (CClose c) (conn_close c) ;;;
  widget (file_open tmp_path) ;;;
  widget (file_open tmp_path) ;;;
  widget (file_read tmp_path).

(** The result tells whether the handler was left by [st.rerun()]. *)
Definition create_sample_database : M E bool :=
  try_except
    (value <- build_sample_database ;;
     FileUploader.handle_uploaded_file value ;;;
     emit (StSuccess "Sample database created and loaded!") ;;;
     ret true)
    (fun e =>
       emit (StError ("Error creating sample database: " ++ e)) ;;;
       ret false).

End App.
End App.

Arguments App.build_sample_database : simpl never.

(** ** modules/exporter.py, the name of the exported database file *)

Module ExporterFile.

(** Lines 211-213 of [render_database_export]:
    [filename = os.path.basename(db_path)], replaced by [database.db] when
    it does not end in [.db]. *)
Definition export_filename (path : string) : string :=
  let filename := PyText.basename path in
  if negb (PyText.endswith filename ".db") then "database.db" else filename.

End ExporterFile.

(** The scripted engine also answers the widgets: the slider returns the
    number of temporary files times ten plus 50, the button is pressed when
    the engine can connect. *)
Module ScriptUi.

#[export] Instance float_text : FloatText := {|
  str_float x := match x with Float64 bits => Py.str_int bits ++ ".0" end
|}.

#[export] Instance streamlit : Streamlit Script.db := {|
  st_header label e := e;
  st_divider e := e;
  st_slider label lo hi value step e :=
    (Val (Z.of_nat (Script.tmp_files e) * 10 + 50)%Z, e);
  st_button label e := (Script.connectable e, e)
|}.

#[export] Instance files : Files Script.db := {|
  file_open path e := (Val tt, e);
  file_read path e := (Val [], e)
|}.

(** The same engine, but every INSERT is accepted and counts one row. *)
Definition accepts_inserts : Backend Script.db := {|
  named_temporary_file := named_temporary_file (Backend := Script.backend);
  sqlite3_connect := sqlite3_connect (Backend := Script.backend);
  conn_execute := conn_execute (Backend := Script.backend);
  conn_cursor := conn_cursor (Backend := Script.backend);
  cursor_execute cu sql e :=
    if String.prefix "INSERT INTO " sql
    then (Val tt, Script.with_users (Script.users e) 1 e)
    else Script.execute sql e;
  cursor_rowcount := cursor_rowcount (Backend := Script.backend);
  conn_commit := conn_commit (Backend := Script.backend);
  conn_close := conn_close (Backend := Script.backend);
  pd_read_sql_query := pd_read_sql_query (Backend := Script.backend);
  time_time := time_time (Backend := Script.backend);
  time_strftime := time_strftime (Backend := Script.backend);
  to_csv := to_csv (Backend := Script.backend);
  to_json := to_json (Backend := Script.backend)
|}.

(** The same engine on a full disk: no temporary file can be written. *)
Definition full_disk : Backend Script.db := {|
  named_temporary_file suffix data e := (Exn "No space left on device", e);
  sqlite3_connect := sqlite3_connect (Backend := Script.backend);
  conn_execute := conn_execute (Backend := Script.backend);
  conn_cursor := conn_cursor (Backend := Script.backend);
  cursor_execute := cursor_execute (Backend := Script.backend);
  cursor_rowcount := cursor_rowcount (Backend := Script.backend);
  conn_commit := conn_commit (Backend := Script.backend);
  conn_close := conn_close (Backend := Script.backend);
  pd_read_sql_query := pd_read_sql_query (Backend := Script.backend);
  time_time := time_time (Backend := Script.backend);
  time_strftime := time_strftime (Backend := Script.backend);
  to_csv := to_csv (Backend := Script.backend);
  to_json := to_json (Backend := Script.backend)
|}.

(** The same engine, but any statement executes, and only the first
    temporary file can be opened as a database. *)
Definition first_file_only : Backend Script.db := {|
  named_temporary_file := named_temporary_file (Backend := Script.backend);
  sqlite3_connect path e :=
    if String.eqb path "/tmp/tmp0.db" then (Val 7, e)
    else (Exn "unable to open database file", e);
  conn_execute := conn_execute (Backend := Script.backend);
  conn_cursor := conn_cursor (Backend := Script.backend);
  cursor_execute cu sql e := (Val tt, e);
  cursor_rowcount := cursor_rowcount (Backend := Script.backend);
  conn_commit := conn_commit (Backend := Script.backend);
  conn_close := conn_close (Backend := Script.backend);
  pd_read_sql_query := pd_read_sql_query (Backend := Script.backend);
  time_time := time_time (Backend := Script.backend);
  time_strftime := time_strftime (Backend := Script.backend);
  to_csv := to_csv (Backend := Script.backend);
  to_json := to_json (Backend := Script.backend)
|}.

(** The same engine, but the cursor executes any statement and counts no
    row, as SQLite does for a statement that is not an INSERT, UPDATE or
    DELETE. *)
Definition any_statement : Backend Script.db := {|
  named_temporary_file := named_temporary_file (Backend := Script.backend);
  sqlite3_connect := sqlite3_connect (Backend := Script.backend);
  conn_execute := conn_execute (Backend := Script.backend);
  conn_cursor := conn_cursor (Backend := Script.backend);
  cursor_execute cu sql e := (Val tt, Script.with_users (Script.users e) (-1) e);
  cursor_rowcount := cursor_rowcount (Backend := Script.backend);
  conn_commit := conn_commit (Backend := Script.backend);
  conn_close := conn_close (Backend := Script.backend);
  pd_read_sql_query := pd_read_sql_query (Backend := Script.backend);
  time_time := time_time (Backend := Script.backend);
  time_strftime := time_strftime (Backend := Script.backend);
  to_csv := to_csv (Backend := Script.backend);
  to_json := to_json (Backend := Script.backend)
|}.

(** A Streamlit that raises on every frame it is asked to show. *)
Definition no_frames : Display Script.db := {|
  st_display ev e :=
    match ev with
    | StDataframe _ => (Exn "Duplicate column names found", e)
    | _ => (Val tt, e)
    end
|}.

End ScriptUi.

(** * Properties *)

(** Unfolds the monad so that a handler reduces on a world. *)
Ltac run :=
  unfold bind, ret, raise, lift, getattr, setattr, emit, ask, clock,
    try_except in *; simpl in *.

(** Splits a conjunction into its parts, and nothing else. *)
Ltac conjs := repeat match goal with |- _ /\ _ => split end.

(** ** Texts

    [strip] and [upper] on texts that begin with known characters, and the
    two facts behind the dispatch test of the gateway: white space around a
    text does not change what [strip] leaves, and [upper] commutes with
    [strip] and changes nothing when applied twice.  They hold of every
    sequence of bytes. *)

Module TextFacts.
Import Utf8.

(** *** Append *)

Lemma app_cons (a : ascii) (s t : string) :
  String a s ++ t = String a (s ++ t).
Proof. reflexivity. Qed.

Lemma app_nil_l (t : string) : "" ++ t = t.
Proof. reflexivity. Qed.

Lemma app_nil_r (s : string) : s ++ "" = s.
Proof.
  induction s as [|a s IH]; [reflexivity|]. rewrite app_cons, IH. reflexivity.
Qed.

Lemma app_assoc (s t u : string) : (s ++ t) ++ u = s ++ t ++ u.
Proof.
  induction s as [|a s IH]; [reflexivity|].
  rewrite !app_cons, IH. reflexivity.
Qed.

Lemma app_length (s t : string) :
  String.length (s ++ t) = String.length s + String.length t.
Proof.
  induction s as [|a s IH]; [reflexivity|].
  rewrite app_cons. simpl. rewrite IH. reflexivity.
Qed.

Lemma app_eq_nil (s t : string) : s ++ t = "" -> s = "" /\ t = "".
Proof. destruct s; [auto | discriminate]. Qed.

(** Two ways of cutting the same text: one cut comes first. *)
Lemma app_eq_app (a b c d : string) :
  a ++ b = c ++ d ->
  (exists x, a = c ++ x /\ d = x ++ b) \/
  (exists y, c = a ++ y /\ b = y ++ d).
Proof.
  revert c. induction a as [|x a IH]; intros c H.
  - right. exists c. auto.
  - destruct c as [|y c].
    + left. exists (String x a). auto.
    + rewrite !app_cons in H. injection H as -> H.
      destruct (IH c H) as [(z & -> & ->)|(z & -> & ->)]; eauto.
Qed.

Lemma take_drop (n : nat) (s : string) : take n s ++ drop n s = s.
Proof.
  revert s. induction n as [|n IH]; intros [|a s]; try reflexivity.
  simpl. rewrite app_cons, IH. reflexivity.
Qed.

Lemma drop_length (n : nat) (s : string) :
  String.length (drop n s) <= String.length s.
Proof.
  revert s. induction n as [|n IH]; intros [|a s]; simpl; try lia.
  specialize (IH s). lia.
Qed.

(** *** Bytes *)

Lemma width_range (a : ascii) :
  Py.width a = 1 \/ Py.width a = 2 \/ Py.width a = 3 \/ Py.width a = 4.
Proof. unfold Py.width. repeat case_match; auto. Qed.

Lemma cont_width (a : ascii) : is_cont a = true -> Py.width a = 1.
Proof.
  unfold is_cont, Py.width. intros [_ H]%andb_true_iff. rewrite H.
  reflexivity.
Qed.

Lemma wide_not_cont (a : ascii) : Py.width a <> 1 -> is_cont a = false.
Proof.
  intros H. destruct (is_cont a) eqn:Ha; [|reflexivity].
  apply cont_width in Ha. contradiction.
Qed.

(** *** The shapes of a character *)

Lemma is_char_cases (c : string) :
  is_char c = true ->
  (exists a, c = String a "" /\ Py.width a = 1 /\ is_cont a = false) \/
  (exists a b, c = String a (String b "") /\ Py.width a = 2 /\
               is_cont b = true) \/
  (exists a b c0, c = String a (String b (String c0 "")) /\ Py.width a = 3 /\
                  is_cont b = true /\ is_cont c0 = true) \/
  (exists a b c0 d,
     c = String a (String b (String c0 (String d ""))) /\ Py.width a = 4 /\
     is_cont b = true /\ is_cont c0 = true /\ is_cont d = true).
Proof.
  destruct c as [|a r]; [discriminate|]. unfold is_char.
  intros [[Ha Hw]%andb_true_iff Hr]%andb_true_iff.
  apply negb_true_iff in Ha. apply Nat.eqb_eq in Hw.
  destruct (width_range a) as [H|[H|[H|H]]]; rewrite H in Hw;
    destruct r as [|b [|c0 [|d [|e r]]]]; simpl in Hw; try lia;
    simpl in Hr; repeat (apply andb_true_iff in Hr as [? Hr]).
  - left. eauto.
  - right; left. eauto.
  - right; right; left. eauto 7.
  - right; right; right. eauto 10.
Qed.

Lemma is_char_head (a : ascii) (r : string) :
  is_char (String a r) = true -> is_cont a = false /\ all_cont r = true.
Proof.
  unfold is_char. intros [[Ha _]%andb_true_iff Hr]%andb_true_iff.
  apply negb_true_iff in Ha. auto.
Qed.

Lemma is_char_length (a : ascii) (r : string) :
  is_char (String a r) = true -> S (String.length r) = Py.width a.
Proof.
  unfold is_char. intros [[_ Hw]%andb_true_iff _]%andb_true_iff.
  by apply Nat.eqb_eq.
Qed.

Lemma all_cont_app (s t : string) :
  all_cont (s ++ t) = all_cont s && all_cont t.
Proof.
  induction s as [|a s IH]; [reflexivity|].
  rewrite app_cons. simpl. rewrite IH, andb_assoc. reflexivity.
Qed.

(** Two characters that begin the same text are the same character. *)
Lemma is_char_prefix (c w x y : string) :
  is_char c = true -> is_char w = true -> c ++ x = w ++ y ->
  c = w /\ x = y.
Proof.
  intros Hc Hw H.
  destruct c as [|a r]; [discriminate|]. destruct w as [|a' r']; [discriminate|].
  rewrite !app_cons in H. injection H as <- H.
  apply is_char_length in Hc, Hw. rewrite <- Hc in Hw. injection Hw as Hw.
  clear Hc. revert r' Hw H. induction r as [|b r IH]; intros [|b' r'] Hl H;
    try discriminate.
  - auto.
  - rewrite !app_cons in H. injection H as <- H. injection Hl as Hl.
    destruct (IH r' Hl H) as [[= ->] ->]. auto.
Qed.

(** *** The tables *)

Lemma isspace_In (c : string) : Py.isspace c = true <-> In c Py.spaces.
Proof.
  unfold Py.isspace. rewrite existsb_exists. split.
  - intros (w & Hin & ->%String.eqb_eq). exact Hin.
  - intros Hin. exists c. split; [exact Hin | apply String.eqb_refl].
Qed.

Lemma spaces_ok :
  forallb (fun w => is_char w
                    && match Py.upper_char w with None => true | _ => false end)
    Py.spaces = true.
Proof. vm_compute. reflexivity. Qed.

Lemma isspace_char (w : string) :
  Py.isspace w = true -> is_char w = true /\ Py.upper_char w = None.
Proof.
  intros Hw%isspace_In.
  pose proof (proj1 (forallb_forall _ _) spaces_ok w Hw) as H.
  apply andb_true_iff in H as [H1 H2]. split; [exact H1|].
  destruct (Py.upper_char w); [discriminate | reflexivity].
Qed.

Lemma upper_char_In (k v : string) :
  Py.upper_char k = Some v -> In (k, v) Py.upper_map.
Proof.
  unfold Py.upper_char.
  destruct (find _ Py.upper_map) as [[k' v']|] eqn:H; [|discriminate].
  intros [= <-]. apply find_some in H as [Hin Hk]. cbn [fst snd] in *.
  apply String.eqb_eq in Hk as ->. exact Hin.
Qed.

Lemma whole_Whole (p : string -> bool) (n : nat) (s : string) :
  whole p n s = true -> Whole (fun c => p c = true) s.
Proof.
  revert s. induction n as [|n IH]; intros [|a s] H; try constructor;
    try discriminate.
  simpl in H. apply andb_true_iff in H as [[H1 H2]%andb_true_iff H3].
  rewrite <- (take_drop (Py.width a) (String a s)).
  constructor; auto.
Qed.

Lemma Whole_impl (P Q : string -> Prop) (s : string) :
  (forall c, P c -> Q c) -> Whole P s -> Whole Q s.
Proof. intros HPQ H. induction H; constructor; auto. Qed.

Lemma keys_ok :
  forallb (fun kv => is_char (fst kv) && negb (Py.isspace (fst kv))
                     && negb (String.eqb (snd kv) "")
                     && whole stable (String.length (snd kv)) (snd kv))
    Py.upper_map = true.
Proof. vm_compute. reflexivity. Qed.

Lemma upper_char_Some (k v : string) :
  Py.upper_char k = Some v ->
  is_char k = true /\ Py.isspace k = false /\ v <> "" /\ Whole Stable v.
Proof.
  intros Hin%upper_char_In.
  pose proof (proj1 (forallb_forall _ _) keys_ok (k, v) Hin) as H.
  cbn [fst snd] in H.
  apply andb_true_iff in H as [[[H1 H2]%andb_true_iff H3]%andb_true_iff H4].
  apply negb_true_iff in H2, H3. apply String.eqb_neq in H3.
  split; [exact H1|]. split; [exact H2|]. split; [exact H3|].
  apply whole_Whole in H4. revert H4. apply Whole_impl. intros c Hp.
  unfold stable in Hp. apply andb_true_iff in Hp as [Hp1 Hp2].
  apply negb_true_iff in Hp1. split; [exact Hp1|].
  destruct (Py.upper_char c); [discriminate | reflexivity].
Qed.

(** *** One step of [upper] *)

Lemma upper_cons (a : ascii) (s1 : string) :
  Py.upper (String a s1) =
    match Py.width a, s1 with
    | 1, _ =>
        match Py.upper_char (String a "") with
        | Some v => v ++ Py.upper s1
        | None => String a (Py.upper s1)
        end
    | 2, String b s2 =>
        match Py.upper_char (String a (String b "")) with
        | Some v => v ++ Py.upper s2
        | None => String a (Py.upper s1)
        end
    | 3, String b (String c s3) =>
        match Py.upper_char (String a (String b (String c ""))) with
        | Some v => v ++ Py.upper s3
        | None => String a (Py.upper s1)
        end
    | 4, String b (String c (String d s4)) =>
        match Py.upper_char (String a (String b (String c (String d "")))) with
        | Some v => v ++ Py.upper s4
        | None => String a (Py.upper s1)
        end
    | _, _ => String a (Py.upper s1)
    end.
Proof. reflexivity. Qed.

Lemma upper_char_cont (b : ascii) :
  is_cont b = true -> Py.upper_char (String b "") = None.
Proof.
  intros Hb. destruct (Py.upper_char (String b "")) as [v|] eqn:H; [|reflexivity].
  apply upper_char_Some in H as [Hc _]. apply is_char_head in Hc as [Hc _].
  congruence.
Qed.

Lemma upper_cont (b : ascii) (s : string) :
  is_cont b = true -> Py.upper (String b s) = String b (Py.upper s).
Proof.
  intros Hb. rewrite upper_cons, (cont_width b Hb), (upper_char_cont b Hb).
  reflexivity.
Qed.

Lemma upper_conts (k s : string) :
  all_cont k = true -> Py.upper (k ++ s) = k ++ Py.upper s.
Proof.
  induction k as [|b k IH]; [reflexivity|]. simpl.
  intros [Hb Hk]%andb_true_iff. rewrite !app_cons, (upper_cont b _ Hb), (IH Hk).
  reflexivity.
Qed.

(** [upper] on a text that begins with a whole character. *)
Lemma upper_step (c s : string) :
  is_char c = true ->
  Py.upper (c ++ s) =
    match Py.upper_char c with
    | Some v => v ++ Py.upper s
    | None => c ++ Py.upper s
    end.
Proof.
  intros Hc.
  destruct (is_char_cases c Hc)
    as [(a & -> & Hw & Ha)|[(a & b & -> & Hw & Hb)
       |[(a & b & c0 & -> & Hw & Hb & Hc0)
        |(a & b & c0 & d & -> & Hw & Hb & Hc0 & Hd)]]];
    rewrite !app_cons, app_nil_l, upper_cons, Hw;
    match goal with
    | |- context [Py.upper_char ?k] => destruct (Py.upper_char k)
    end; try reflexivity;
    rewrite ?upper_cont by assumption; reflexivity.
Qed.

Lemma take_app_length (k s : string) : take (String.length k) (k ++ s) = k.
Proof.
  induction k as [|a k IH]; [destruct s; reflexivity|].
  rewrite app_cons. simpl. rewrite IH. reflexivity.
Qed.

(** A character that has an upper case and begins a text is the first
    [width] bytes of that text. *)
Lemma key_at (k v s' : string) (a : ascii) (s1 : string) :
  Py.upper_char k = Some v -> String a s1 = k ++ s' ->
  String.length k = Py.width a /\ k = take (Py.width a) (String a s1).
Proof.
  intros Hk Heq. apply upper_char_Some in Hk as [Hc _].
  destruct k as [|a' r]; [discriminate|].
  pose proof (is_char_length _ _ Hc) as Hl.
  rewrite app_cons in Heq. injection Heq as <- Heq.
  split; [exact Hl|].
  rewrite <- Hl. rewrite <- (take_app_length (String a r) s').
  rewrite app_cons, Heq. reflexivity.
Qed.

(** The three shapes of a text under [upper]: empty; a character with an
    upper case, then the rest; a byte that begins no such character, kept,
    then the rest. *)
Lemma upper_cases (s : string) :
  s = "" \/
  (exists k v s1,
     s = k ++ s1 /\ Py.upper_char k = Some v /\
     Py.upper s = v ++ Py.upper s1) \/
  (exists a s1,
     s = String a s1 /\
     (forall k v s', Py.upper_char k = Some v -> s <> k ++ s') /\
     Py.upper s = String a (Py.upper s1)).
Proof.
  destruct s as [|a s1]; [left; reflexivity | right].
  rewrite upper_cons.
  assert (Hraw : Py.upper_char (take (Py.width a) (String a s1)) = None \/
                 String.length (take (Py.width a) (String a s1)) <> Py.width a ->
                 forall k v s', Py.upper_char k = Some v ->
                                String a s1 <> k ++ s').
  { intros Hnone k v s' Hk Heq. destruct (key_at k v s' a s1 Hk Heq) as [Hl ->].
    destruct Hnone as [Hnone|Hnone]; congruence. }
  destruct (width_range a) as [Hw|[Hw|[Hw|Hw]]]; rewrite Hw in *.
  - destruct (Py.upper_char (String a "")) as [v|] eqn:Hk.
    + left. exists (String a ""), v, s1. auto.
    + right. exists a, s1. split; [reflexivity|]. split; [|reflexivity].
      apply Hraw. left. exact Hk.
  - destruct s1 as [|b s2].
    { right. exists a, "". split; [reflexivity|]. split; [|reflexivity].
      apply Hraw. right. simpl. lia. }
    destruct (Py.upper_char (String a (String b ""))) as [v|] eqn:Hk.
    + left. exists (String a (String b "")), v, s2. auto.
    + right. exists a, (String b s2). split; [reflexivity|].
      split; [|reflexivity]. apply Hraw. left. exact Hk.
  - destruct s1 as [|b [|c s3]];
      try (right; eexists _, _; split; [reflexivity|]; split; [|reflexivity];
           apply Hraw; right; simpl; lia).
    destruct (Py.upper_char (String a (String b (String c "")))) as [v|] eqn:Hk.
    + left. exists (String a (String b (String c ""))), v, s3. auto.
    + right. eexists _, _. split; [reflexivity|].
      split; [|reflexivity]. apply Hraw. left. exact Hk.
  - destruct s1 as [|b [|c [|d s4]]];
      try (right; eexists _, _; split; [reflexivity|]; split; [|reflexivity];
           apply Hraw; right; simpl; lia).
    destruct (Py.upper_char (String a (String b (String c (String d "")))))
      as [v|] eqn:Hk.
    + left. exists (String a (String b (String c (String d "")))), v, s4. auto.
    + right. eexists _, _. split; [reflexivity|].
      split; [|reflexivity]. apply Hraw. left. exact Hk.
Qed.

Lemma upper_nil (s : string) : Py.upper s = "" -> s = "".
Proof.
  destruct (upper_cases s) as [->|[(k & v & s1 & -> & Hk & ->)
                                  |(a & s1 & -> & _ & ->)]];
    [reflexivity| |discriminate].
  intros [Hv _]%app_eq_nil. apply upper_char_Some in Hk as (_ & _ & Hne & _).
  contradiction.
Qed.

(** The first byte of what a character becomes is not a continuation
    byte. *)
Lemma Whole_head (P : string -> Prop) (a : ascii) (r : string) :
  Whole P (String a r) -> is_cont a = false.
Proof.
  intros H. remember (String a r) as s eqn:Hs. revert Hs.
  induction H as [|c s Hc _ _ IH]; [discriminate|].
  destruct c as [|a' r']; [discriminate|].
  rewrite app_cons. intros [= <- _]. apply is_char_head in Hc as [Hc _].
  exact Hc.
Qed.

(** Continuation bytes at the head of [upper s] were at the head of [s]. *)
Lemma upper_cont_prefix (k s t : string) :
  all_cont k = true -> Py.upper s = k ++ t ->
  exists s', s = k ++ s' /\ Py.upper s' = t.
Proof.
  revert s. induction k as [|b k IH]; intros s Hk H; [exists s; auto|].
  simpl in Hk. apply andb_true_iff in Hk as [Hb Hk]. rewrite app_cons in H.
  destruct (upper_cases s) as [->|[(k0 & v & s1 & -> & Hk0 & Hu)
                                  |(a & s1 & -> & _ & Hu)]].
  - discriminate.
  - exfalso. rewrite Hu in H.
    apply upper_char_Some in Hk0 as (_ & _ & Hne & Hv).
    destruct v as [|x v]; [contradiction|]. rewrite app_cons in H.
    injection H as -> _. apply Whole_head in Hv. congruence.
  - rewrite Hu in H. injection H as -> H.
    destruct (IH s1 Hk H) as (s' & -> & Hs'). exists s'. auto.
Qed.

Lemma upper_Whole (v s : string) :
  Whole Stable v -> Py.upper (v ++ s) = v ++ Py.upper s.
Proof.
  induction 1 as [|c v Hc [_ Hp] _ IH]; [reflexivity|].
  rewrite !app_assoc, (upper_step c _ Hc), Hp, IH. reflexivity.
Qed.

Lemma upper_key (k v s : string) :
  Py.upper_char k = Some v -> Py.upper (k ++ s) = v ++ Py.upper s.
Proof.
  intros Hk. pose proof (upper_char_Some k v Hk) as [Hc _].
  rewrite (upper_step k s Hc), Hk. reflexivity.
Qed.

Lemma length_ind (P : string -> Prop) :
  (forall s, (forall t, String.length t < String.length s -> P t) -> P s) ->
  forall s, P s.
Proof.
  intros H s. remember (String.length s) as n eqn:Hn. revert s Hn.
  induction (lt_wf n) as [n _ IH]. intros s ->. apply H.
  intros t Ht. exact (IH _ Ht t eq_refl).
Qed.

Lemma key_nonempty (k v : string) :
  Py.upper_char k = Some v -> exists a r, k = String a r /\ all_cont r = true.
Proof.
  intros [Hc _]%upper_char_Some. destruct k as [|a r]; [discriminate|].
  apply is_char_head in Hc as [_ Hr]. eauto.
Qed.

(** A byte that begins no character with an upper case in [s] begins none
    in front of a prefix of the rest, nor in front of [upper] of the
    rest. *)
Lemma upper_raw (a : ascii) (s1 : string) :
  (forall k v s', Py.upper_char k = Some v -> String a s1 <> k ++ s') ->
  forall t, (exists u, s1 = t ++ u) \/ t = Py.upper s1 ->
  Py.upper (String a t) = String a (Py.upper t).
Proof.
  intros Hraw t Ht.
  destruct (upper_cases (String a t))
    as [H|[(k & v & s1' & Heq & Hk & _)|(a' & s1' & [= <- <-] & _ & Hu)]];
    [discriminate| |exact Hu].
  exfalso. destruct (key_nonempty k v Hk) as (a' & r & -> & Hr).
  rewrite app_cons in Heq. injection Heq as <- Heq.
  destruct Ht as [(u & ->)| ->].
  - apply (Hraw (String a r) v (s1' ++ u) Hk).
    rewrite app_cons, <- app_assoc, <- Heq. reflexivity.
  - destruct (upper_cont_prefix r s1 s1' Hr Heq) as (s' & -> & _).
    exact (Hraw (String a r) v s' Hk eq_refl).
Qed.

Lemma upper_idem (s : string) : Py.upper (Py.upper s) = Py.upper s.
Proof.
  induction s as [s IH] using length_ind.
  destruct (upper_cases s) as [->|[(k & v & s1 & -> & Hk & ->)
                                  |(a & s1 & -> & Hraw & ->)]].
  - reflexivity.
  - pose proof (upper_char_Some k v Hk) as (_ & _ & _ & Hv).
    rewrite (upper_Whole v _ Hv), IH; [reflexivity|].
    destruct (key_nonempty k v Hk) as (a & r & -> & _).
    rewrite app_length. simpl. lia.
  - rewrite (upper_raw a s1 Hraw) by auto.
    rewrite IH by (simpl; lia). reflexivity.
Qed.

(** *** [lstrip] *)

Lemma lstrip_cons (a : ascii) (s1 : string) :
  Py.lstrip (String a s1) =
    if Py.isspace (String a "") then Py.lstrip s1 else
    match s1 with
    | String b s2 =>
        if Py.isspace (String a (String b "")) then Py.lstrip s2 else
        match s2 with
        | String c s3 =>
            if Py.isspace (String a (String b (String c "")))
            then Py.lstrip s3 else String a s1
        | EmptyString => String a s1
        end
    | EmptyString => String a s1
    end.
Proof. reflexivity. Qed.

(** White space is one, two or three bytes long. *)
Lemma isspace_shape (w : string) :
  Py.isspace w = true ->
  (exists a, w = String a "") \/
  (exists a b, w = String a (String b "")) \/
  (exists a b c, w = String a (String b (String c ""))).
Proof.
  intros H%isspace_In. unfold Py.spaces in H. simpl in H.
  repeat (destruct H as [<-|H]; [eauto 6|]). contradiction.
Qed.

Lemma isspace_nonempty (w : string) :
  Py.isspace w = true -> exists a r, w = String a r /\ all_cont r = true.
Proof.
  intros [Hc _]%isspace_char. destruct w as [|a r]; [discriminate|].
  apply is_char_head in Hc as [_ Hr]. eauto.
Qed.

Lemma lstrip_space (w s : string) :
  Py.isspace w = true -> Py.lstrip (w ++ s) = Py.lstrip s.
Proof.
  intros Hw. pose proof (isspace_char w Hw) as [Hc _].
  destruct (isspace_shape w Hw) as [(a & ->)|[(a & b & ->)|(a & b & c & ->)]];
    rewrite !app_cons, app_nil_l, lstrip_cons.
  - rewrite Hw. reflexivity.
  - destruct (Py.isspace (String a "")) eqn:H1.
    + apply isspace_char in H1 as [H1 _]. apply is_char_length in H1, Hc.
      simpl in H1, Hc. congruence.
    + rewrite Hw. reflexivity.
  - destruct (Py.isspace (String a "")) eqn:H1.
    { apply isspace_char in H1 as [H1 _]. apply is_char_length in H1, Hc.
      simpl in H1, Hc. congruence. }
    destruct (Py.isspace (String a (String b ""))) eqn:H2.
    { apply isspace_char in H2 as [H2 _]. apply is_char_length in H2, Hc.
      simpl in H2, Hc. congruence. }
    rewrite Hw. reflexivity.
Qed.

(** [lstrip] drops a white space character that begins the text and goes
    on, or the text begins with none and is kept. *)
Lemma lstrip_cases (s : string) :
  (exists w s', s = w ++ s' /\ Py.isspace w = true /\
                Py.lstrip s = Py.lstrip s') \/
  (Py.lstrip s = s /\
   forall w s', Py.isspace w = true -> s <> w ++ s').
Proof.
  assert (Hno : forall a s1,
            Py.isspace (String a "") = false ->
            (forall b s2, s1 = String b s2 ->
               Py.isspace (String a (String b "")) = false /\
               forall c s3, s2 = String c s3 ->
                 Py.isspace (String a (String b (String c ""))) = false) ->
            forall w s', Py.isspace w = true -> String a s1 <> w ++ s').
  { intros a s1 H1 H2 w s' Hw Heq.
    destruct (isspace_shape w Hw) as [(x & ->)|[(x & y & ->)|(x & y & z & ->)]];
      rewrite !app_cons, app_nil_l in Heq; injection Heq as <- Heq.
    - congruence.
    - destruct (H2 _ _ Heq) as [H _]. congruence.
    - destruct (H2 _ _ Heq) as [_ H]. specialize (H _ _ eq_refl). congruence. }
  destruct s as [|a s1].
  { right. split; [reflexivity|]. intros w s' Hw Heq.
    destruct (isspace_nonempty w Hw) as (a & r & -> & _). discriminate. }
  rewrite lstrip_cons.
  destruct (Py.isspace (String a "")) eqn:H1.
  { left. exists (String a ""), s1. auto. }
  destruct s1 as [|b s2].
  { right. split; [reflexivity|]. apply Hno; [exact H1|]. discriminate. }
  destruct (Py.isspace (String a (String b ""))) eqn:H2.
  { left. exists (String a (String b "")), s2. auto. }
  destruct s2 as [|c s3].
  { right. split; [reflexivity|]. apply Hno; [exact H1|].
    intros b' s2' [= <- <-]. split; [exact H2|]. discriminate. }
  destruct (Py.isspace (String a (String b (String c "")))) eqn:H3.
  { left. exists (String a (String b (String c ""))), s3. auto. }
  right. split; [reflexivity|]. apply Hno; [exact H1|].
  intros b' s2' [= <- <-]. split; [exact H2|].
  intros c' s3' [= <- <-]. exact H3.
Qed.

Lemma lstrip_id (s : string) :
  (forall w s', Py.isspace w = true -> s <> w ++ s') -> Py.lstrip s = s.
Proof.
  intros H. destruct (lstrip_cases s) as [(w & s' & -> & Hw & _)|[Hs _]];
    [|exact Hs].
  exfalso. exact (H w s' Hw eq_refl).
Qed.

(** White space at the head of [upper s] was at the head of [s]. *)
Lemma upper_space_prefix (w s t : string) :
  Py.isspace w = true -> Py.upper s = w ++ t -> exists s', s = w ++ s'.
Proof.
  intros Hw H. pose proof (isspace_char w Hw) as [Hc _].
  destruct (isspace_nonempty w Hw) as (x & r & -> & Hr).
  destruct (upper_cases s) as [->|[(k & v & s1 & -> & Hk & Hu)
                                  |(a & s1 & -> & _ & Hu)]].
  - discriminate.
  - exfalso. rewrite Hu in H.
    apply upper_char_Some in Hk as (_ & _ & Hne & Hv).
    destruct Hv as [|c v' Hc' [Hp _] _]; [contradiction|].
    rewrite app_assoc in H.
    destruct (is_char_prefix _ _ _ _ Hc' Hc H) as [-> _]. congruence.
  - rewrite Hu, app_cons in H. injection H as -> H.
    destruct (upper_cont_prefix r s1 t Hr H) as (s' & -> & _).
    exists s'. reflexivity.
Qed.

Lemma lstrip_upper (s : string) :
  Py.lstrip (Py.upper s) = Py.upper (Py.lstrip s).
Proof.
  induction s as [s IH] using length_ind.
  destruct (lstrip_cases s) as [(w & s' & -> & Hw & Hl)|[Hl Hno]].
  - pose proof (isspace_char w Hw) as [Hc Hn].
    rewrite Hl, (upper_step w s' Hc), Hn, (lstrip_space w _ Hw).
    apply IH. destruct (isspace_nonempty w Hw) as (a & r & -> & _).
    rewrite app_length. simpl. lia.
  - rewrite Hl. apply lstrip_id. intros w t Hw Heq.
    destruct (upper_space_prefix w s t Hw Heq) as (s' & ->).
    exact (Hno w s' Hw eq_refl).
Qed.

(** *** [rstrip] *)

Lemma rstrip_cons (a : ascii) (s : string) :
  Py.rstrip (String a s) =
    if Py.isspace (String a (Py.rstrip s)) then ""
    else String a (Py.rstrip s).
Proof. reflexivity. Qed.

Lemma rstrip_is_prefix (s : string) : exists w, s = Py.rstrip s ++ w.
Proof.
  induction s as [|a s [w IH]]; [exists ""; reflexivity|].
  rewrite rstrip_cons. destruct (Py.isspace _).
  - exists (String a s). reflexivity.
  - exists w. rewrite app_cons, <- IH. reflexivity.
Qed.

Lemma isspace_cont (b : ascii) (r : string) :
  is_cont b = true -> Py.isspace (String b r) = false.
Proof.
  intros Hb. destruct (Py.isspace (String b r)) eqn:H; [|reflexivity].
  apply isspace_char in H as [H _]. apply is_char_head in H as [H _].
  congruence.
Qed.

Lemma rstrip_conts (k s : string) :
  all_cont k = true -> Py.rstrip (k ++ s) = k ++ Py.rstrip s.
Proof.
  induction k as [|b k IH]; [reflexivity|]. simpl.
  intros [Hb Hk]%andb_true_iff.
  rewrite !app_cons, rstrip_cons, (IH Hk), (isspace_cont b _ Hb).
  reflexivity.
Qed.

(** A character that is not white space stays where it is. *)
Lemma rstrip_char (c s : string) :
  is_char c = true -> Py.isspace c = false ->
  Py.rstrip (c ++ s) = c ++ Py.rstrip s.
Proof.
  intros Hc Hn. destruct c as [|a r]; [discriminate|].
  pose proof (is_char_head a r Hc) as [_ Hr].
  rewrite !app_cons, rstrip_cons, (rstrip_conts r s Hr).
  destruct (Py.isspace (String a (r ++ Py.rstrip s))) eqn:H; [|reflexivity].
  exfalso. pose proof (isspace_char _ H) as [Hc' _].
  assert (Heq : String a r ++ Py.rstrip s = String a (r ++ Py.rstrip s) ++ "")
    by (rewrite app_nil_r; reflexivity).
  destruct (is_char_prefix _ _ _ _ Hc Hc' Heq) as [Hcw _].
  rewrite <- Hcw in H. congruence.
Qed.

Lemma rstrip_Whole (v s : string) :
  Whole Stable v -> Py.rstrip (v ++ s) = v ++ Py.rstrip s.
Proof.
  induction 1 as [|c v Hc [Hp _] _ IH]; [reflexivity|].
  rewrite !app_assoc, (rstrip_char c _ Hc Hp), IH. reflexivity.
Qed.

(** Whether a byte and what follows it are one white space character is
    not changed by [upper] on what follows. *)
Lemma isspace_cons_upper (a : ascii) (r : string) :
  Py.isspace (String a (Py.upper r)) = Py.isspace (String a r).
Proof.
  apply eq_true_iff_eq. split; intros H.
  - pose proof (isspace_char _ H) as [Hc _].
    apply is_char_head in Hc as [_ Hr].
    destruct (upper_cont_prefix (Py.upper r) r "" Hr) as (s' & Hs & Hn).
    { rewrite app_nil_r. reflexivity. }
    apply upper_nil in Hn. subst s'. rewrite app_nil_r in Hs.
    rewrite <- Hs in H. exact H.
  - pose proof (isspace_char _ H) as [Hc _].
    apply is_char_head in Hc as [_ Hr].
    pose proof (upper_conts r "" Hr) as Hu. rewrite app_nil_r in Hu.
    change (Py.upper "") with "" in Hu. rewrite app_nil_r in Hu.
    rewrite Hu. exact H.
Qed.

Lemma rstrip_upper (s : string) :
  Py.rstrip (Py.upper s) = Py.upper (Py.rstrip s).
Proof.
  induction s as [s IH] using length_ind.
  destruct (upper_cases s) as [->|[(k & v & s1 & -> & Hk & ->)
                                  |(a & s1 & -> & Hraw & ->)]].
  - reflexivity.
  - pose proof (upper_char_Some k v Hk) as (Hc & Hn & _ & Hv).
    rewrite (rstrip_Whole v _ Hv), (rstrip_char k s1 Hc Hn),
      (upper_key k v _ Hk), IH; [reflexivity|].
    destruct k; [discriminate|]. rewrite app_length. simpl. lia.
  - rewrite !rstrip_cons, IH by (simpl; lia). rewrite isspace_cons_upper.
    destruct (Py.isspace (String a (Py.rstrip s1))); [reflexivity|].
    symmetry. apply (upper_raw a s1 Hraw). left. apply rstrip_is_prefix.
Qed.

Lemma strip_upper (s : string) : Py.strip (Py.upper s) = Py.upper (Py.strip s).
Proof. unfold Py.strip. rewrite lstrip_upper, rstrip_upper. reflexivity. Qed.

(** *** Blank texts *)

Lemma Blank_app (x y : string) : Blank x -> Blank y -> Blank (x ++ y).
Proof.
  intros Hx Hy. induction Hx as [|w x Hc Hw _ IH]; [exact Hy|].
  rewrite app_assoc. constructor; auto.
Qed.

Lemma Blank_space (w : string) : Py.isspace w = true -> Blank w.
Proof.
  intros Hw. rewrite <- (app_nil_r w).
  constructor; [apply isspace_char, Hw | exact Hw | constructor].
Qed.

Lemma rstrip_space (w s : string) :
  Py.isspace w = true -> Py.rstrip s = "" -> Py.rstrip (w ++ s) = "".
Proof.
  intros Hw Hs. destruct (isspace_nonempty w Hw) as (a & r & -> & Hr).
  rewrite !app_cons, rstrip_cons, (rstrip_conts r s Hr), Hs, app_nil_r, Hw.
  reflexivity.
Qed.

Lemma rstrip_Blank (w : string) : Blank w -> Py.rstrip w = "".
Proof.
  induction 1 as [|c w _ Hc _ IH]; [reflexivity|].
  exact (rstrip_space c w Hc IH).
Qed.

Lemma lstrip_Blank_app (w s : string) :
  Blank w -> Py.lstrip (w ++ s) = Py.lstrip s.
Proof.
  induction 1 as [|c w _ Hc _ IH]; [reflexivity|].
  rewrite app_assoc, (lstrip_space c _ Hc). exact IH.
Qed.

Lemma lstrip_Blank (w : string) : Blank w -> Py.lstrip w = "".
Proof.
  intros Hw. rewrite <- (app_nil_r w). exact (lstrip_Blank_app w "" Hw).
Qed.

Lemma rstrip_split (s : string) :
  exists w, Blank w /\ s = Py.rstrip s ++ w.
Proof.
  induction s as [|a s (w & Hw & IH)]; [exists ""; split; [constructor|reflexivity]|].
  rewrite rstrip_cons. destruct (Py.isspace _) eqn:H.
  - exists (String a s). split; [|reflexivity].
    rewrite IH, <- app_cons. apply Blank_app; [apply Blank_space, H | exact Hw].
  - exists w. split; [exact Hw|]. rewrite app_cons, <- IH. reflexivity.
Qed.

Lemma lstrip_split (s : string) :
  exists w, Blank w /\ s = w ++ Py.lstrip s.
Proof.
  induction s as [s IH] using length_ind.
  destruct (lstrip_cases s) as [(w & s' & -> & Hw & Hl)|[Hl _]].
  - destruct (IH s') as (w' & Hw' & Hs').
    { destruct (isspace_nonempty w Hw) as (a & r & -> & _).
      rewrite app_length. simpl. lia. }
    exists (w ++ w'). split; [apply Blank_app; [apply Blank_space, Hw | exact Hw']|].
    rewrite Hl, app_assoc, <- Hs'. reflexivity.
  - exists "". split; [constructor|]. rewrite Hl. reflexivity.
Qed.

Lemma strip_Blank (w : string) : Py.strip w = "" <-> Blank w.
Proof.
  unfold Py.strip. split.
  - intros H. destruct (lstrip_split w) as (w1 & Hw1 & Hs).
    destruct (rstrip_split (Py.lstrip w)) as (w2 & Hw2 & Hr).
    rewrite H in Hr. rewrite Hs, Hr. apply Blank_app; assumption.
  - intros H. rewrite (lstrip_Blank w H). reflexivity.
Qed.

Lemma rstrip_app_Blank (s w : string) :
  Blank w -> Py.rstrip (s ++ w) = Py.rstrip s.
Proof.
  intros Hw. induction s as [|a s IH]; [exact (rstrip_Blank w Hw)|].
  rewrite app_cons, !rstrip_cons, IH. reflexivity.
Qed.

Lemma Blank_head (a : ascii) (r : string) :
  Blank (String a r) -> is_cont a = false.
Proof. apply Whole_head. Qed.

(** Blank text behind a text that does not begin with white space adds no
    white space to its head. *)
Lemma lstrip_app_Blank (q w : string) :
  Blank w -> Py.lstrip q <> "" -> Py.lstrip (q ++ w) = Py.lstrip q ++ w.
Proof.
  intros Hw. induction q as [q IH] using length_ind. intros Hq.
  destruct (lstrip_cases q) as [(w0 & q' & -> & Hw0 & Hl)|[Hl Hno]].
  - rewrite Hl in Hq |- *. rewrite app_assoc, (lstrip_space w0 _ Hw0).
    apply IH; [|exact Hq].
    destruct (isspace_nonempty w0 Hw0) as (a & r & -> & _).
    rewrite app_length. simpl. lia.
  - rewrite Hl in Hq |- *. apply lstrip_id. intros w1 t Hw1 Heq.
    destruct (app_eq_app _ _ _ _ Heq) as [(x & -> & _)|(y & -> & Hy)].
    + exact (Hno w1 x Hw1 eq_refl).
    + destruct q as [|a q]; [contradiction|].
      pose proof (isspace_char _ Hw1) as [Hc _].
      rewrite app_cons in Hc. apply is_char_head in Hc as [_ Hc].
      rewrite all_cont_app in Hc. apply andb_true_iff in Hc as [_ Hc].
      destruct y as [|b y].
      * rewrite app_nil_r in Hw1. exact (Hno _ "" Hw1 (eq_sym (app_nil_r _))).
      * simpl in Hc. apply andb_true_iff in Hc as [Hb _].
        rewrite Hy, app_cons in Hw. apply Blank_head in Hw. congruence.
Qed.

Lemma strip_surrounded (ws1 q ws2 : string) :
  Py.strip ws1 = "" -> Py.strip ws2 = "" ->
  Py.strip (ws1 ++ q ++ ws2) = Py.strip q.
Proof.
  intros H1%strip_Blank H2%strip_Blank. unfold Py.strip.
  rewrite (lstrip_Blank_app ws1 _ H1).
  destruct (Py.lstrip q) as [|a r] eqn:Hq.
  - destruct (lstrip_split q) as (w & Hw & Hs). rewrite Hq, app_nil_r in Hs.
    subst w. rewrite (lstrip_Blank _ (Blank_app _ _ Hw H2)). reflexivity.
  - rewrite (lstrip_app_Blank q ws2 H2) by (rewrite Hq; discriminate).
    rewrite Hq. apply rstrip_app_Blank, H2.
Qed.

(** A text that begins with characters that are neither white space nor
    changed by [upper] keeps them, in place, under [strip] and [upper]. *)
Lemma lstrip_Whole (v s : string) :
  Whole Stable v -> v <> "" -> Py.lstrip (v ++ s) = v ++ s.
Proof.
  intros Hv Hne. destruct Hv as [|c v Hc [Hp _] _]; [contradiction|].
  apply lstrip_id. intros w t Hw Heq. rewrite app_assoc in Heq.
  pose proof (isspace_char w Hw) as [Hcw _].
  destruct (is_char_prefix _ _ _ _ Hc Hcw Heq) as [-> _]. congruence.
Qed.

Lemma strip_upper_Whole (v s : string) :
  Whole Stable v -> v <> "" ->
  Py.upper (Py.strip (v ++ s)) = v ++ Py.upper (Py.rstrip s).
Proof.
  intros Hv Hne. unfold Py.strip.
  rewrite (lstrip_Whole v s Hv Hne), (rstrip_Whole v s Hv), (upper_Whole v _ Hv).
  reflexivity.
Qed.

Lemma whole_stable (v : string) :
  whole stable (String.length v) v = true -> Whole Stable v.
Proof.
  intros H%whole_Whole. revert H. apply Whole_impl. intros c Hp.
  unfold stable in Hp. apply andb_true_iff in Hp as [Hp1 Hp2].
  apply negb_true_iff in Hp1. split; [exact Hp1|].
  destruct (Py.upper_char c); [discriminate | reflexivity].
Qed.

End TextFacts.

Module SessionFacts.
Section SessionFacts.
Context {E : Type} {B : Backend E}.
Import SessionManager.

Lemma init_session_closed (s : session) :
  init_session s =
    {| db_path := Some (default None (db_path s));
       connection := Some (default None (connection s));
       tables := Some (default [] (tables s));
       query_history := Some (default [] (query_history s));
       selected_table := Some (default None (selected_table s));
       active_tab := Some (default "explorer" (active_tab s));
       preferences := Some (default default_preferences (preferences s)) |}.
Proof.
  destruct s as [p c t h sel a pr].
  destruct p, c, t, h, sel, a, pr; exact eq_refl.
Qed.

(** C8: [init_session_state] gives each of the seven fields its default
    exactly when the field is absent, keeps every field that is present,
    touches nothing else in the world, and a second call changes nothing. *)
Theorem init_session_state_idempotent (w : world E) :
  init_session_state w =
    (Val tt,
     World (init_session (st_session_state w)) (engine w) (calls w) (ui w)) /\
  db_path (init_session (st_session_state w))
    = Some (default None (db_path (st_session_state w))) /\
  connection (init_session (st_session_state w))
    = Some (default None (connection (st_session_state w))) /\
  tables (init_session (st_session_state w))
    = Some (default [] (tables (st_session_state w))) /\
  query_history (init_session (st_session_state w))
    = Some (default [] (query_history (st_session_state w))) /\
  selected_table (init_session (st_session_state w))
    = Some (default None (selected_table (st_session_state w))) /\
  active_tab (init_session (st_session_state w))
    = Some (default "explorer" (active_tab (st_session_state w))) /\
  preferences (init_session (st_session_state w))
    = Some (default default_preferences (preferences (st_session_state w))) /\
  init_session (init_session (st_session_state w))
    = init_session (st_session_state w) /\
  init_session_state (snd (init_session_state w)) = init_session_state w.
Proof.
  assert (Hidem : forall s, init_session (init_session s) = init_session s).
  { intros s. rewrite (init_session_closed (init_session s)).
    rewrite (init_session_closed s). reflexivity. }
  unfold init_session_state, setattr.
  cbn [snd st_session_state engine calls ui].
  rewrite Hidem, (init_session_closed (st_session_state w)).
  cbn [db_path connection tables query_history selected_table active_tab
       preferences].
  repeat apply conj; reflexivity.
Qed.

Lemma add_to_query_history_unfold (q : string) (ok : bool) (n : Z)
    (w : world E) :
  add_to_query_history q ok n w =
    let (ts, e1) := time_time (engine w) in
    let (tm, e2) := time_strftime "%H:%M:%S" e1 in
    let entry := {| query := q; timestamp := ts; success := ok;
                    rows_returned := n; time := tm |} in
    match query_history (st_session_state w) with
    | Some h =>
        (Val tt,
         World (set_query_history (take 50 (entry :: h)) (st_session_state w))
           e2 (calls w) (ui w))
    | None =>
        (Exn "st.session_state has no attribute query_history",
         World (st_session_state w) e2 (calls w) (ui w))
    end.
Proof.
  unfold add_to_query_history. run.
  destruct (time_time (engine w)) as [ts e1]; simpl.
  destruct (time_strftime "%H:%M:%S" e1) as [tm e2]; simpl.
  destruct (query_history (st_session_state w)) as [h|]; simpl;
    [|reflexivity].
  destruct (Nat.ltb 50 (S (length h))) eqn:Hlen; simpl; [reflexivity|].
  apply Nat.ltb_ge in Hlen. rewrite take_ge by (simpl; lia). reflexivity.
Qed.

Lemma clear_database_state_unfold (w : world E) (c : option conn) :
  connection (st_session_state w) = Some c ->
  clear_database_state w =
    (Val tt,
     World
       (set_selected_table None
          (set_tables []
             (set_connection None (set_db_path None (st_session_state w)))))
       (match c with
        | Some h => snd (conn_close h (engine w))
        | None => engine w
        end)
       (calls w ++ match c with Some h => [CClose h] | None => [] end)
       (ui w)).
Proof.
  intros Hc. unfold clear_database_state. run. rewrite Hc.
  destruct c as [h|]; simpl.
  - rewrite Hc; simpl.
    destruct (conn_close h (engine w)) as [[[]|msg] e']; reflexivity.
  - rewrite app_nil_r. reflexivity.
Qed.

(** C2: on a session whose history is the list [h], [add_to_query_history]
    returns, and the history becomes the new entry followed by [h], cut to
    50 entries: at most 50 long, with the new entry at index 0. *)
Theorem add_to_query_history_capped (q : string) (ok : bool) (n : Z)
    (w : world E) (h : list history_entry) :
  query_history (st_session_state w) = Some h ->
  exists (entry : history_entry) (h' : list history_entry) (w' : world E),
    add_to_query_history q ok n w = (Val tt, w') /\
    query_history (st_session_state w') = Some h' /\
    query entry = q /\ success entry = ok /\ rows_returned entry = n /\
    h' = take 50 (entry :: h) /\
    length h' <= 50 /\
    h' !! 0 = Some entry.
Proof.
  intros Hh. rewrite add_to_query_history_unfold.
  destruct (time_time (engine w)) as [ts e1].
  destruct (time_strftime "%H:%M:%S" e1) as [tm e2].
  cbv zeta. rewrite Hh.
  exists {| query := q; timestamp := ts; success := ok;
            rows_returned := n; time := tm |}.
  eexists _, _. split; [reflexivity|].
  split; [reflexivity|]. do 4 (split; [reflexivity|]).
  split; [rewrite length_take; lia | reflexivity].
Qed.

(** C4: on a session that has a [connection] field, [clear_database_state]
    returns whatever [close] does, asks the engine to close the handle when
    there is one, sets the four database fields to their empty values and
    leaves the history, the preferences, the active tab and the messages
    as they were. *)
Theorem clear_database_state_frame (w : world E) (c : option conn) :
  connection (st_session_state w) = Some c ->
  exists w' : world E,
    clear_database_state w = (Val tt, w') /\
    db_path (st_session_state w') = Some None /\
    connection (st_session_state w') = Some None /\
    tables (st_session_state w') = Some [] /\
    selected_table (st_session_state w') = Some None /\
    query_history (st_session_state w') = query_history (st_session_state w) /\
    preferences (st_session_state w') = preferences (st_session_state w) /\
    active_tab (st_session_state w') = active_tab (st_session_state w) /\
    ui w' = ui w /\
    calls w' = (calls w ++ match c with Some h => [CClose h] | None => [] end)%list /\
    engine w' = match c with
                | Some h => snd (conn_close h (engine w))
                | None => engine w
                end.
Proof.
  intros Hc. rewrite (clear_database_state_unfold w c Hc).
  eexists. split; [reflexivity|]. simpl. repeat split; reflexivity.
Qed.

End SessionFacts.
End SessionFacts.

Module GatewayFacts.
Section GatewayFacts.
Context {E : Type} {B : Backend E}.
Import Database.

(** The dispatch test on a text that begins with characters that are
    neither white space nor changed by [upper]. *)
Lemma is_select_prefix (p rest : string) :
  p <> "" -> Utf8.whole Utf8.stable (String.length p) p = true ->
  is_select (p ++ rest)
    = String.prefix "SELECT" (p ++ Py.upper (Py.rstrip rest)).
Proof.
  intros Hne Hp. unfold is_select, Py.startswith.
  rewrite (TextFacts.strip_upper_Whole p rest (TextFacts.whole_stable p Hp) Hne).
  reflexivity.
Qed.

Lemma select_star_is_select (table_name : string) :
  is_select ("SELECT * FROM " ++ table_name) = true.
Proof.
  change ("SELECT * FROM " ++ table_name)
    with ("SELECT" ++ (" * FROM " ++ table_name)).
  rewrite is_select_prefix; [reflexivity | discriminate | reflexivity].
Qed.

(** The gateway changes neither the session nor what the user sees. *)
Lemma execute_query_session (c : option conn) (q : string) (w : world E) :
  st_session_state (snd (execute_query c q w)) = st_session_state w /\
  ui (snd (execute_query c q w)) = ui w.
Proof.
  unfold execute_query, read_sql_query. run.
  destruct (is_select q), c as [h|]; simpl; auto.
  - destruct (pd_read_sql_query q h (engine w)) as [[df|m] e']; simpl; auto.
  - destruct (conn_cursor h (engine w)) as [[cu|m] e1]; simpl; auto.
    destruct (cursor_execute cu q e1) as [[[]|m] e2]; simpl; auto.
    destruct (conn_commit h e2) as [[[]|m] e3]; simpl; auto.
    destruct (Z.leb 0 (cursor_rowcount cu e3)); simpl; auto.
Qed.

Lemma execute_query_select (h : conn) (q : string) (w : world E) :
  is_select q = true ->
  execute_query (Some h) q w =
    let (r, e') := pd_read_sql_query q h (engine w) in
    (match r with
     | Val df => Val df
     | Exn m => Exn ("Error executing query: " ++ m)
     end,
     World (st_session_state w) e' (calls w ++ [CReadSql q h]) (ui w)).
Proof.
  intros Hsel. unfold execute_query, read_sql_query. run. rewrite Hsel.
  destruct (pd_read_sql_query q h (engine w)) as [[df|m] e']; reflexivity.
Qed.

Lemma execute_query_write_unfold (h : conn) (q : string) (w : world E) :
  is_select q = false ->
  execute_query (Some h) q w =
    let (r1, e1) := conn_cursor h (engine w) in
    match r1 with
    | Exn m =>
        (Exn ("Error executing query: " ++ m),
         World (st_session_state w) e1 (calls w ++ [CCursor h]) (ui w))
    | Val cu =>
        let (r2, e2) := cursor_execute cu q e1 in
        match r2 with
        | Exn m =>
            (Exn ("Error executing query: " ++ m),
             World (st_session_state w) e2
               (calls w ++ [CCursor h; CExecute cu q]) (ui w))
        | Val _ =>
            let (r3, e3) := conn_commit h e2 in
            let w3 := World (st_session_state w) e3
                        (calls w ++ [CCursor h; CExecute cu q; CCommit h])
                        (ui w) in
            match r3 with
            | Exn m => (Exn ("Error executing query: " ++ m), w3)
            | Val _ =>
                (Val (message_frame
                        (if Z.leb 0 (cursor_rowcount cu e3)
                         then "Query executed successfully. Rows affected: "
                                ++ Py.str_int (cursor_rowcount cu e3)
                         else "Query executed successfully.")),
                 w3)
            end
        end
    end.
Proof.
  intros Hsel. unfold execute_query. run. rewrite Hsel.
  destruct (conn_cursor h (engine w)) as [[cu|m] e1]; simpl; [|reflexivity].
  destruct (cursor_execute cu q e1) as [[[]|m] e2]; simpl;
    [|rewrite <- app_assoc; reflexivity].
  destruct (conn_commit h e2) as [[[]|m] e3]; simpl;
    [|rewrite <- !app_assoc; reflexivity].
  destruct (Z.leb 0 (cursor_rowcount cu e3)); simpl;
    rewrite <- !app_assoc; reflexivity.
Qed.

Lemma connect_to_database_session (path : string) (w : world E) :
  st_session_state (snd (connect_to_database path w)) = st_session_state w /\
  ui (snd (connect_to_database path w)) = ui w.
Proof.
  unfold connect_to_database. run.
  destruct (sqlite3_connect path (engine w)) as [[c|m] e1]; simpl; auto.
  destruct (conn_execute c "PRAGMA foreign_keys = ON" e1) as [[[]|m] e2];
    simpl; auto.
Qed.

Lemma connect_to_database_unfold (path : string) (w : world E) :
  connect_to_database path w =
    let (r, e1) := sqlite3_connect path (engine w) in
    match r with
    | Exn m =>
        (Exn ("Failed to connect to database: " ++ m),
         World (st_session_state w) e1 (calls w ++ [CConnect path]) (ui w))
    | Val c =>
        let (r2, e2) := conn_execute c "PRAGMA foreign_keys = ON" e1 in
        (match r2 with
         | Val _ => Val c
         | Exn m => Exn ("Failed to connect to database: " ++ m)
         end,
         World (st_session_state w) e2
           (calls w ++ [CConnect path;
                        CConnExecute c "PRAGMA foreign_keys = ON"])
           (ui w))
    end.
Proof.
  unfold connect_to_database. run.
  destruct (sqlite3_connect path (engine w)) as [[c|m] e1]; simpl;
    [|reflexivity].
  destruct (conn_execute c "PRAGMA foreign_keys = ON" e1) as [[[]|m] e2];
    simpl; rewrite <- app_assoc; reflexivity.
Qed.



End GatewayFacts.
End GatewayFacts.

Module SchemaFacts.
Section SchemaFacts.
Context {E : Type} {B : Backend E}.
Import Database.











Lemma get_table_list_unfold (c : conn) (w : world E) :
  get_table_list c w =
    let (r, e') := pd_read_sql_query table_list_query c (engine w) in
    let w1 := World (st_session_state w) e'
                (calls w ++ [CReadSql table_list_query c]) (ui w) in
    let failed (m : string) :=
      (Val [],
       World (st_session_state w) e'
         (calls w ++ [CReadSql table_list_query c])
         (ui w ++ [PyPrint ("Error getting table list: " ++ m)])) in
    match r with
    | Val df =>
        match column_tolist "name" df with
        | Val l => (Val l, w1)
        | Exn m => failed m
        end
    | Exn m => failed m
    end.
Proof.
  unfold get_table_list. run.
  destruct (pd_read_sql_query table_list_query c (engine w)) as [[df|m] e'];
    simpl; [|reflexivity].
  destruct (column_tolist "name" df); reflexivity.
Qed.


End SchemaFacts.
End SchemaFacts.

Module HandlerFacts.
Section HandlerFacts.
Context {E : Type} {B : Backend E} {D : Display E}.
Import SessionManager Database.

(** C3: on a session whose preferences are the dictionary [p],
    [update_preference] returns [True] and stores the value under the key
    when the key is in [p], and returns [False] and leaves the whole world
    as it was when the key is not in [p]; the initial dictionary knows
    [rows_per_page] and not [bogus_key]; and after
    [update_preference('rows_per_page', 250)] the preview of a table reads
    it with [LIMIT 250]. *)
Theorem update_preference_known_keys (key : string) (value : prefval)
    (w : world E) (p : gmap string prefval) :
  preferences (st_session_state w) = Some p ->
  (is_Some (p !! key) ->
   update_preference key value w =
     (Val true,
      World (set_preferences (<[key := value]> p) (st_session_state w))
        (engine w) (calls w) (ui w))) /\
  (p !! key = None -> update_preference key value w = (Val false, w)) /\
  (fst (update_preference key value w) = Val true <-> is_Some (p !! key)) /\
  default_preferences !! "rows_per_page" = Some (PInt 100) /\
  default_preferences !! "bogus_key" = None /\
  (forall (h : conn) (table_name : string),
     is_Some (p !! "rows_per_page") ->
     connection (st_session_state w) = Some (Some h) ->
     fst (update_preference "rows_per_page" (PInt 250) w) = Val true /\
     calls (snd (DbExplorer.render_data_preview table_name
                   (snd (update_preference "rows_per_page" (PInt 250) w))))
       = (calls w
            ++ [CReadSql ("SELECT * FROM " ++ table_name ++ " LIMIT 250") h])%list).
Proof.
  intros Hp.
  assert (Hknown : forall k v, is_Some (p !! k) ->
            update_preference k v w =
              (Val true,
               World (set_preferences (<[k := v]> p) (st_session_state w))
                 (engine w) (calls w) (ui w))).
  { intros k v [x Hx]. unfold update_preference. run.
    rewrite Hp; simpl. rewrite Hx; simpl. rewrite Hp; simpl. reflexivity. }
  assert (Hunknown : p !! key = None ->
            update_preference key value w = (Val false, w)).
  { intros Hx. unfold update_preference. run.
    rewrite Hp; simpl. rewrite Hx; simpl. reflexivity. }
  split; [apply Hknown|]. split; [exact Hunknown|].
  split.
  { destruct (p !! key) as [x|] eqn:Hx.
    - split; [eauto|]. intros _. rewrite Hknown by eauto. reflexivity.
    - rewrite Hunknown by reflexivity. simpl. split; [discriminate|].
      intros [? [=]]. }
  split; [reflexivity|]. split; [reflexivity|].
  intros h t Hrows Hc. rewrite (Hknown _ (PInt 250) Hrows).
  split; [reflexivity|].
  unfold DbExplorer.render_data_preview, DbExplorer.getitem,
    get_table_preview, read_sql_query.
  run. rewrite Hc; simpl. rewrite lookup_insert_eq; simpl.
  destruct (pd_read_sql_query _ h (engine w)) as [[df|m] e']; reflexivity.
Qed.

(** C7: on an initialised session, a text that is blank after [strip] is
    not executed at all (the handler only warns); for every other text on
    which the gateway raises, the handler returns normally, the history
    gains at its front an entry for that text marked unsuccessful with zero
    rows, and the user is shown the error. *)
Theorem failed_query_is_recorded (q : string) (w : world E)
    (c : option conn) (h : list history_entry) :
  connection (st_session_state w) = Some c ->
  query_history (st_session_state w) = Some h ->
  (Py.strip q = "" ->
   SqlEditor.execute_sql_query q w =
     (Val tt,
      World (st_session_state w) (engine w) (calls w)
        (ui w ++ [StWarning "Please enter a SQL query first."]))) /\
  (forall (msg : string) (w1 : world E),
     Py.strip q <> "" ->
     execute_query c q w = (Exn msg, w1) ->
     exists (entry : history_entry) (w' : world E),
       SqlEditor.execute_sql_query q w = (Val tt, w') /\
       query entry = q /\ success entry = false /\
       rows_returned entry = 0%Z /\
       query_history (st_session_state w') = Some (take 50 (entry :: h)) /\
       (take 50 (entry :: h)) !! 0 = Some entry /\
       ui w' = (ui w ++ [StError ("Query Error: " ++ msg)])%list).
Proof.
  intros Hc Hh. split.
  { intros Hblank. unfold SqlEditor.execute_sql_query. rewrite Hblank.
    reflexivity. }
  intros msg w1 Hq Hexec.
  pose proof (GatewayFacts.execute_query_session c q w) as [Hs Hu].
  rewrite Hexec in Hs, Hu; simpl in Hs, Hu.
  unfold SqlEditor.execute_sql_query.
  destruct (Py.strip q) eqn:Hstrip; [contradiction|]. simpl.
  run. rewrite Hc; simpl. rewrite Hexec; simpl.
  rewrite SessionFacts.add_to_query_history_unfold.
  destruct (time_time (engine w1)) as [ts e1].
  destruct (time_strftime "%H:%M:%S" e1) as [tm e2].
  cbv zeta. rewrite Hs, Hh. simpl.
  exists {| query := q; timestamp := ts; success := false;
            rows_returned := 0; time := tm |}.
  eexists. split; [reflexivity|]. simpl. rewrite Hu.
  repeat split; reflexivity.
Qed.

End HandlerFacts.
End HandlerFacts.

Module ExportFacts.
Section ExportFacts.
Context {E : Type} {B : Backend E}.
Import Database Exporter.

Lemma downloads_snoc (evs : list ui_event) (ev : ui_event) :
  downloads (evs ++ [ev]) =
    (downloads evs ++ match ev with
                      | StDownloadButton _ data _ _ => [data]
                      | _ => []
                      end)%list.
Proof.
  unfold downloads. rewrite omap_app. f_equal. destruct ev; reflexivity.
Qed.

(** C9: for every table name and format, exporting the table and exporting
    the result of [SELECT * FROM <table>] both return, issue the same calls,
    leave the same engine and session, and offer the same payloads for
    download; with a handle on which the read yields a frame that is not
    empty the payload is the CSV or JSON text of that frame, and for Excel
    (and any other format) neither offers a payload. *)
Theorem export_table_matches_export_query (table_name format : string)
    (w : world E) :
  fst (export_table_data table_name format w) = Val tt /\
  fst (export_query_results ("SELECT * FROM " ++ table_name) format w)
    = Val tt /\
  downloads (ui (snd (export_table_data table_name format w)))
    = downloads
        (ui (snd (export_query_results ("SELECT * FROM " ++ table_name)
                    format w))) /\
  calls (snd (export_table_data table_name format w))
    = calls (snd (export_query_results ("SELECT * FROM " ++ table_name)
                    format w)) /\
  engine (snd (export_table_data table_name format w))
    = engine (snd (export_query_results ("SELECT * FROM " ++ table_name)
                     format w)) /\
  st_session_state (snd (export_table_data table_name format w))
    = st_session_state
        (snd (export_query_results ("SELECT * FROM " ++ table_name)
                format w)) /\
  (forall (h : conn) (df : frame) (e' : E),
     connection (st_session_state w) = Some (Some h) ->
     pd_read_sql_query ("SELECT * FROM " ++ table_name) h (engine w)
       = (Val df, e') ->
     frame_empty df = false ->
     downloads (ui (snd (export_table_data table_name format w)))
       = (downloads (ui w)
            ++ (if String.eqb format "CSV" then [to_csv df]
                else if String.eqb format "JSON" then [to_json df]
                else []))%list).
Proof.
  unfold export_table_data, export_query_results. run.
  destruct (connection (st_session_state w)) as [c|] eqn:Hc; simpl.
  2:{ conjs; try reflexivity. discriminate. }
  destruct (execute_query c ("SELECT * FROM " ++ table_name) w)
    as [[df|m] w1] eqn:Hexec; simpl.
  2:{ conjs; try reflexivity.
      intros h df e' [= ->] Hread _.
      rewrite (GatewayFacts.execute_query_select h _ w
                 (GatewayFacts.select_star_is_select table_name)) in Hexec.
      rewrite Hread in Hexec. discriminate. }
  assert (Hdf : forall h df' e', c = Some h ->
            pd_read_sql_query ("SELECT * FROM " ++ table_name) h (engine w)
              = (Val df', e') -> df' = df /\ ui w1 = ui w).
  { intros h df' e' -> Hread.
    rewrite (GatewayFacts.execute_query_select h _ w
               (GatewayFacts.select_star_is_select table_name)) in Hexec.
    rewrite Hread in Hexec. injection Hexec as -> <-. auto. }
  destruct (frame_empty df) eqn:Hempty; simpl.
  { conjs; try reflexivity; try (rewrite !downloads_snoc; reflexivity).
    intros h df' e' [= ->] Hread Hne.
    destruct (Hdf _ _ _ eq_refl Hread) as [-> _]. congruence. }
  destruct (String.eqb format "CSV") eqn:Hcsv; simpl;
    [|destruct (String.eqb format "JSON") eqn:Hjson; simpl;
      [|destruct (String.eqb format "Excel") eqn:Hxl; simpl]];
    (conjs; try reflexivity; try (rewrite !downloads_snoc; reflexivity);
     intros h df' e' [= ->] Hread _;
     destruct (Hdf _ _ _ eq_refl Hread) as [-> Hu];
     rewrite !downloads_snoc, Hu; simpl;
     rewrite ?app_nil_r; reflexivity).
Qed.

End ExportFacts.
End ExportFacts.

Module UploadFacts.
Section UploadFacts.
Context {E : Type} {B : Backend E}.
Import SessionManager Database FileUploader.

(** C1, as the code has it: when the bytes are persisted at a path other
    than the current one and the connect on that path raises, the flow
    returns [False] and shows the error, but the reset has already run: the
    old handle, when there is one, was closed before the connect was tried
    (whatever the close did), the handle, the path, the table list and the
    selected table are cleared, and only the history, the preferences and
    the active tab are as they were before the call.  The engine was asked
    for the temporary file, the close, the connect and, when the connect
    itself returned, the PRAGMA that then raised, in that order and for
    nothing else. *)
Theorem handle_uploaded_file_connect_failure (data : list Byte.byte)
    (w : world E) (tmp_path : string) (e1 : E) (cur : option string)
    (c : option conn) (msg : string) :
  named_temporary_file ".db" data (engine w) = (Val tmp_path, e1) ->
  db_path (st_session_state w) = Some cur ->
  cur <> Some tmp_path ->
  connection (st_session_state w) = Some c ->
  fst (connect_to_database tmp_path
         (snd (clear_database_state
                 (World (st_session_state w) e1
                    (calls w ++ [CTempfile ".db" data]) (ui w)))))
    = Exn msg ->
  exists w' : world E,
    handle_uploaded_file data w = (Val false, w') /\
    ui w' = (ui w ++ [StError ("Error loading database: " ++ msg)])%list /\
    db_path (st_session_state w') = Some None /\
    connection (st_session_state w') = Some None /\
    tables (st_session_state w') = Some [] /\
    selected_table (st_session_state w') = Some None /\
    query_history (st_session_state w') = query_history (st_session_state w) /\
    preferences (st_session_state w') = preferences (st_session_state w) /\
    active_tab (st_session_state w') = active_tab (st_session_state w) /\
    exists (r : outcome conn) (e2 : E),
      sqlite3_connect tmp_path
        (match c with Some h => snd (conn_close h e1) | None => e1 end)
        = (r, e2) /\
      match r with
      | Exn m =>
          msg = "Failed to connect to database: " ++ m /\
          engine w' = e2 /\
          calls w' =
            (calls w ++ [CTempfile ".db" data]
               ++ match c with Some h => [CClose h] | None => [] end
               ++ [CConnect tmp_path])%list
      | Val hnew =>
          exists (m : string) (e3 : E),
            conn_execute hnew "PRAGMA foreign_keys = ON" e2 = (Exn m, e3) /\
            msg = "Failed to connect to database: " ++ m /\
            engine w' = e3 /\
            calls w' =
              (calls w ++ [CTempfile ".db" data]
                 ++ match c with Some h => [CClose h] | None => [] end
                 ++ [CConnect tmp_path;
                     CConnExecute hnew "PRAGMA foreign_keys = ON"])%list
      end.
Proof.
  intros Htmp Hcur Hne Hc Hconn.
  rewrite (SessionFacts.clear_database_state_unfold
             (World (st_session_state w) e1 _ _) c Hc) in Hconn.
  cbn [snd st_session_state engine calls ui] in Hconn.
  unfold handle_uploaded_file.
  unfold bind, ret, getattr, ask, try_except at 1.
  rewrite Htmp. cbn [st_session_state]. rewrite Hcur.
  destruct (decide (cur = Some tmp_path)) as [|_]; [contradiction|].
  rewrite (SessionFacts.clear_database_state_unfold
             (World (st_session_state w) e1 _ _) c Hc).
  cbn [st_session_state engine calls ui].
  rewrite GatewayFacts.connect_to_database_unfold in Hconn |- *.
  cbn [st_session_state engine calls ui] in Hconn |- *.
  destruct (sqlite3_connect tmp_path
              (match c with Some h => snd (conn_close h e1) | None => e1 end))
    as [[hnew|m] e2] eqn:Hopen.
  - destruct (conn_execute hnew "PRAGMA foreign_keys = ON" e2)
      as [[[]|m] e3] eqn:Hprag; cbn [fst] in Hconn; [discriminate|].
    injection Hconn as <-.
    unfold emit; cbn [st_session_state engine calls ui].
    eexists. split; [reflexivity|].
    cbn [st_session_state engine calls ui db_path connection tables
         selected_table query_history preferences active_tab
         set_db_path set_connection set_tables set_selected_table].
    conjs; try reflexivity.
    exists (Val hnew), e2. split; [reflexivity|].
    exists m, e3.
    conjs; [exact Hprag | reflexivity | reflexivity |].
    rewrite <- ?app_assoc. destruct c; reflexivity.
  - cbn [fst] in Hconn. injection Hconn as <-.
    unfold emit; cbn [st_session_state engine calls ui].
    eexists. split; [reflexivity|].
    cbn [st_session_state engine calls ui db_path connection tables
         selected_table query_history preferences active_tab
         set_db_path set_connection set_tables set_selected_table].
    conjs; try reflexivity.
    exists (Exn m), e2. split; [reflexivity|].
    conjs; [reflexivity | reflexivity |].
    rewrite <- ?app_assoc. destruct c; reflexivity.
Qed.

End UploadFacts.
End UploadFacts.

(** ** The handlers on the scripted engine *)

Module Runs.
Import Script SessionManager Database.

Example is_select_lower : is_select "  select * from users  " = true.
Proof. vm_compute. reflexivity. Qed.

Example is_select_insert :
  is_select "INSERT INTO users VALUES (3, 'Cy')" = false.
Proof. vm_compute. reflexivity. Qed.

Example strip_both_ends : Py.strip ("  a b " ++ Py.nl) = "a b".
Proof. vm_compute. reflexivity. Qed.

(** U+00A0 and U+0085 are white space, and U+017F has the upper case S. *)
Example strip_no_break_space :
  Py.strip (Py.utf8 160 ++ Py.utf8 133) = "" /\
  is_select (Py.utf8 160 ++ Py.utf8 383 ++ "elect 1") = true.
Proof. split; vm_compute; reflexivity. Qed.

Example like_needs_one_more_char :
  Sql.like "sqlite_%" "sqlite" = false /\ Sql.like "sqlite_%" "SQLite_seq" = true.
Proof. split; vm_compute; reflexivity. Qed.

Example sample_table_names :
  Sql.run (Sql.catalog sample_master) table_list_query
    = Val {| columns := ["name"];
             rows := [[SText "orders"]; [SText "users"]] |}.
Proof. vm_compute. reflexivity. Qed.

Example upload_success :
  fst (FileUploader.handle_uploaded_file [] (loaded_world true)) = Val true /\
  tables (st_session_state
            (snd (FileUploader.handle_uploaded_file [] (loaded_world true))))
    = Some [SText "orders"; SText "users"].
Proof. split; vm_compute; reflexivity. Qed.

Example excel_export_offers_nothing :
  ui (snd (Exporter.export_table_data "users" "Excel" (loaded_world true)))
    = [StError ("Export error: " ++ Exporter.to_excel_error)].
Proof. vm_compute. reflexivity. Qed.

(** C1 fails as stated: with a database loaded, an upload whose bytes are
    persisted and whose connect raises returns [False] and leaves a session
    that differs from the one before the call (the path is cleared). *)
Lemma upload_failure_changes_session :
  named_temporary_file ".db" [] (engine (loaded_world false))
    = (Val "/tmp/tmp0.db",
       snd (named_temporary_file ".db" [] (engine (loaded_world false)))) /\
  fst (sqlite3_connect "/tmp/tmp0.db"
         (snd (named_temporary_file ".db" [] (engine (loaded_world false)))))
    = Exn "unable to open database file" /\
  fst (FileUploader.handle_uploaded_file [] (loaded_world false)) = Val false /\
  db_path (st_session_state (loaded_world false)) = Some (Some "/tmp/old.db") /\
  db_path (st_session_state
             (snd (FileUploader.handle_uploaded_file [] (loaded_world false))))
    = Some None /\
  st_session_state
    (snd (FileUploader.handle_uploaded_file [] (loaded_world false)))
    <> st_session_state (loaded_world false).
Proof.
  do 5 (split; [vm_compute; reflexivity|]).
  intros H. apply (f_equal db_path) in H. vm_compute in H. discriminate.
Qed.

Lemma handle_uploaded_file_connect_failure_witness :
  exists w' : world db,
    FileUploader.handle_uploaded_file [] (loaded_world false) = (Val false, w') /\
    db_path (st_session_state w') = Some None /\
    query_history (st_session_state w') = query_history loaded_session /\
    calls w' = [CTempfile ".db" []; CClose 3; CConnect "/tmp/tmp0.db"].
Proof.
  destruct (UploadFacts.handle_uploaded_file_connect_failure
              [] (loaded_world false) "/tmp/tmp0.db"
              (snd (named_temporary_file ".db" [] (engine (loaded_world false))))
              (Some "/tmp/old.db") (Some 3)
              "Failed to connect to database: unable to open database file")
    as (w' & Hrun & _ & Hpath & _ & _ & _ & Hhist & _ & _ & r & e2 & Hopen & Hr).
  - vm_compute; reflexivity.
  - reflexivity.
  - discriminate.
  - reflexivity.
  - vm_compute; reflexivity.
  - exists w'. split; [exact Hrun|]. split; [exact Hpath|].
    split; [exact Hhist|].
    vm_compute in Hopen. injection Hopen as <- _.
    destruct Hr as (_ & _ & Hcalls). exact Hcalls.
Defined.

Lemma add_to_query_history_capped_witness :
  exists (entry : history_entry) (w' : world db),
    add_to_query_history "SELECT 2" true 1 (loaded_world true) = (Val tt, w') /\
    (default [] (query_history (st_session_state w'))) !! 0 = Some entry /\
    query entry = "SELECT 2".
Proof.
  destruct (SessionFacts.add_to_query_history_capped
              "SELECT 2" true 1 (loaded_world true)
              (default [] (query_history loaded_session)))
    as (entry & h' & w' & Hrun & Hh & Hq & _ & _ & _ & _ & Hhead).
  - reflexivity.
  - exists entry, w'. rewrite Hh. auto.
Defined.

Lemma update_preference_known_keys_witness :
  fst (update_preference "rows_per_page" (PInt 250) (loaded_world true))
    = Val true /\
  update_preference "bogus_key" (PInt 1) (loaded_world true)
    = (Val false, loaded_world true).
Proof.
  split.
  - apply (HandlerFacts.update_preference_known_keys
             "rows_per_page" (PInt 250) (loaded_world true)
             default_preferences eq_refl).
    exists (PInt 100). reflexivity.
  - apply (HandlerFacts.update_preference_known_keys
             "bogus_key" (PInt 1) (loaded_world true)
             default_preferences eq_refl).
    reflexivity.
Defined.

Lemma clear_database_state_frame_witness :
  exists w' : world db,
    clear_database_state (loaded_world true) = (Val tt, w') /\
    connection (st_session_state w') = Some None /\
    query_history (st_session_state w') = query_history loaded_session /\
    calls w' = [CClose 3].
Proof.
  destruct (SessionFacts.clear_database_state_frame
              (loaded_world true) (Some 3))
    as (w' & Hrun & _ & Hc & _ & _ & Hh & _ & _ & _ & Hcalls & _).
  - reflexivity.
  - exists w'. auto.
Defined.

(** C5 fails as stated: the first keyword of this text is SELECT, behind a
    comment, and SQLite runs it as a query; the gateway does not take it
    for one, executes it on a cursor, commits, and answers with the status
    frame instead of the rows of [users]. *)
Lemma select_behind_comment_is_written :
  Py.upper (Py.strip "/* all */ SELECT * FROM users")
    = "/* ALL */ SELECT * FROM USERS" /\
  is_select "/* all */ SELECT * FROM users" = false /\
  execute_query (B := ScriptUi.any_statement) (Some 3)
    "/* all */ SELECT * FROM users" (loaded_world true)
    = (Val {| columns := ["message"];
              rows := [[SText "Query executed successfully."]] |},
       World loaded_session (sample_db true)
         [CCursor 3; CExecute 3 "/* all */ SELECT * FROM users"; CCommit 3]
         []) /\
  execute_query (B := ScriptUi.any_statement) (Some 3)
    "SELECT * FROM users" (loaded_world true)
    = (Val (users_frame (sample_db true)),
       World loaded_session (sample_db true)
         [CReadSql "SELECT * FROM users" 3] []).
Proof. repeat split; vm_compute; reflexivity. Qed.



Lemma failed_query_is_recorded_witness :
  exists (entry : history_entry) (w' : world db),
    SqlEditor.execute_sql_query "drop table x" (loaded_world true)
      = (Val tt, w') /\
    success entry = false /\
    (default [] (query_history (st_session_state w'))) !! 0 = Some entry.
Proof.
  destruct (HandlerFacts.failed_query_is_recorded
              "drop table x" (loaded_world true)
              (Some 3) (default [] (query_history loaded_session)))
    as [_ Hfail].
  - reflexivity.
  - reflexivity.
  - destruct (Hfail "Error executing query: near syntax error"
                (snd (execute_query (Some 3) "drop table x"
                        (loaded_world true))))
      as (entry & w' & Hrun & _ & Hok & _ & Hh & Hhead & _).
    + vm_compute; discriminate.
    + vm_compute; reflexivity.
    + exists entry, w'. rewrite Hh. auto.
Defined.

Lemma export_table_matches_export_query_witness :
  Exporter.downloads
    (ui (snd (Exporter.export_table_data "users" "CSV" (loaded_world true))))
    = [to_csv (users_frame (sample_db true))].
Proof.
  apply (ExportFacts.export_table_matches_export_query
           "users" "CSV" (loaded_world true))
    with (h := 3) (e' := sample_db true).
  - reflexivity.
  - reflexivity.
  - reflexivity.
Defined.

(** C10 fails as stated: [sqlitex] is a table and its name is not
    reserved (SQLite creates it for a user), yet the list of a database
    whose tables are [users] and [sqlitex] is [users] alone. *)
Lemma sqlitex_is_left_out :
  Sql.reserved "sqlitex" = false /\
  Sql.like "sqlite_%" "sqlitex" = true /\
  pd_read_sql_query table_list_query 3 sqlitex_db
    = (Sql.run (Sql.catalog [ Sql.MasterRow "table" "users";
                              Sql.MasterRow "table" "sqlitex" ])
         table_list_query,
       sqlitex_db) /\
  get_table_list 3 (World loaded_session sqlitex_db [] [])
    = (Val [SText "users"],
       World loaded_session sqlitex_db [CReadSql table_list_query 3] []).
Proof. repeat split; vm_compute; reflexivity. Qed.


End Runs.

(** * Further properties *)

Module UploadMore.
Section UploadMore.
Context {E : Type} {B : Backend E}.
Import SessionManager Database FileUploader.

(** When the bytes are persisted at a path other than the current one and
    the connect and its PRAGMA succeed, the upload returns [True]; the old
    handle is closed before the new one is opened, foreign keys are switched
    on for the new handle before it is stored, the session holds the new
    handle, the new path and the table list read through the new handle, no
    table is selected, and the history, preferences and active tab are
    kept. *)
Theorem handle_uploaded_file_replaces_database (data : list Byte.byte)
    (w : world E) (tmp_path : string) (cur : option string)
    (c : option conn) (hnew : conn) (e1 e3 e4 : E) :
  named_temporary_file ".db" data (engine w) = (Val tmp_path, e1) ->
  db_path (st_session_state w) = Some cur ->
  cur <> Some tmp_path ->
  connection (st_session_state w) = Some c ->
  sqlite3_connect tmp_path
    (match c with Some h => snd (conn_close h e1) | None => e1 end)
    = (Val hnew, e3) ->
  conn_execute hnew "PRAGMA foreign_keys = ON" e3 = (Val tt, e4) ->
  exists (l : list scalar) (w' : world E),
    handle_uploaded_file data w = (Val true, w') /\
    l = match fst (pd_read_sql_query table_list_query hnew e4) with
        | Val df =>
            match column_tolist "name" df with Val l => l | Exn _ => [] end
        | Exn _ => []
        end /\
    connection (st_session_state w') = Some (Some hnew) /\
    db_path (st_session_state w') = Some (Some tmp_path) /\
    tables (st_session_state w') = Some l /\
    selected_table (st_session_state w') = Some None /\
    query_history (st_session_state w') = query_history (st_session_state w) /\
    preferences (st_session_state w') = preferences (st_session_state w) /\
    active_tab (st_session_state w') = active_tab (st_session_state w) /\
    calls w' =
      (calls w ++ [CTempfile ".db" data]
         ++ match c with Some h => [CClose h] | None => [] end
         ++ [CConnect tmp_path;
             CConnExecute hnew "PRAGMA foreign_keys = ON";
             CReadSql table_list_query hnew])%list /\
    last (ui w') =
      Some (StSuccess ("Database loaded successfully! Found "
                         ++ Py.str_int (Z.of_nat (length l)) ++ " tables.")).
Proof.
  intros Htmp Hcur Hne Hc Hconn Hprag.
  unfold handle_uploaded_file.
  unfold bind, ret, getattr, ask, try_except at 1.
  rewrite Htmp. cbn [st_session_state]. rewrite Hcur.
  destruct (decide (cur = Some tmp_path)) as [|_]; [contradiction|].
  rewrite (SessionFacts.clear_database_state_unfold
             (World (st_session_state w) e1 _ _) c Hc).
  cbn [st_session_state engine calls ui].
  rewrite GatewayFacts.connect_to_database_unfold.
  cbn [st_session_state engine calls ui].
  rewrite Hconn, Hprag.
  unfold setattr. cbn [st_session_state engine calls ui].
  rewrite SchemaFacts.get_table_list_unfold.
  cbn [st_session_state engine calls ui].
  destruct (pd_read_sql_query table_list_query hnew e4) as [[df|m] e5];
    cbn [fst];
    [destruct (column_tolist "name" df) as [l|m]|];
    cbv zeta; cbn [st_session_state engine calls ui tables set_tables];
    unfold emit; cbn [st_session_state engine calls ui];
    eexists _, _; (split; [reflexivity|]); (split; [reflexivity|]);
    cbn [st_session_state engine calls ui];
    (conjs; try reflexivity;
     [ rewrite <- !app_assoc; destruct c; reflexivity
     | apply last_snoc ]).
Qed.

(** When the bytes cannot be persisted the upload returns [False], shows
    the error and leaves the session as it was; nothing else is asked of
    the engine. *)
Theorem handle_uploaded_file_persist_failure (data : list Byte.byte)
    (w : world E) (m : string) (e1 : E) :
  named_temporary_file ".db" data (engine w) = (Exn m, e1) ->
  handle_uploaded_file data w =
    (Val false,
     World (st_session_state w) e1 (calls w ++ [CTempfile ".db" data])
       (ui w ++ [StError ("Error loading database: " ++ m)])).
Proof.
  intros Htmp. unfold handle_uploaded_file. run. rewrite Htmp. reflexivity.
Qed.

End UploadMore.
End UploadMore.

Module GatewayMore.
Section GatewayMore.
Context {E : Type} {B : Backend E}.
Import Database.

(** The dispatch test of the gateway does not see white space around the
    text nor the case of its letters. *)
Theorem is_select_ignores_space_and_case (ws1 q ws2 : string) :
  Py.strip ws1 = "" -> Py.strip ws2 = "" ->
  is_select (ws1 ++ q ++ ws2) = is_select q /\
  is_select (Py.upper q) = is_select q.
Proof.
  intros H1 H2. unfold is_select. split.
  - rewrite (TextFacts.strip_surrounded ws1 q ws2 H1 H2). reflexivity.
  - rewrite TextFacts.strip_upper, TextFacts.upper_idem. reflexivity.
Qed.

(** When the gateway raises on a text that fails the SELECT test, the
    message carries the gateway's prefix, and a commit was asked for only
    when the commit itself is what raised: a statement whose execution
    raises is never committed, and nothing is ever rolled back or closed. *)
Theorem execute_query_failure_is_not_committed (h : conn) (q : string)
    (w w' : world E) (msg : string) :
  is_select q = false ->
  execute_query (Some h) q w = (Exn msg, w') ->
  exists (m : string) (l : list call),
    msg = "Error executing query: " ++ m /\
    calls w' = (calls w ++ l)%list /\
    (l = [CCursor h] \/
     (exists cu : cursor, l = [CCursor h; CExecute cu q]) \/
     (exists (cu : cursor) (e e' : E),
        l = [CCursor h; CExecute cu q; CCommit h] /\
        conn_commit h e = (Exn m, e'))).
Proof.
  intros Hsel. rewrite (GatewayFacts.execute_query_write_unfold h q w Hsel).
  destruct (conn_cursor h (engine w)) as [[cu|m] e1].
  2:{ intros [= <- <-]. exists m, [CCursor h]. auto. }
  destruct (cursor_execute cu q e1) as [[[]|m] e2].
  2:{ intros [= <- <-]. exists m, [CCursor h; CExecute cu q]. eauto 6. }
  destruct (conn_commit h e2) as [[[]|m] e3] eqn:Hcommit; cbv zeta.
  - discriminate.
  - intros [= <- <-]. exists m, [CCursor h; CExecute cu q; CCommit h].
    split; [reflexivity|]. split; [reflexivity|].
    right; right. eauto.
Qed.

(** The preview of a table is the gateway's answer to
    [SELECT * FROM <table> LIMIT <limit>]: both leave the same world, return
    the same frame, and fail together, each with its own prefix on the
    engine's message. *)
Theorem get_table_preview_is_gateway_select (c : option conn)
    (table_name : string) (limit : prefval) (w : world E) :
  snd (get_table_preview c table_name limit w)
    = snd (execute_query c
             ("SELECT * FROM " ++ table_name ++ " LIMIT " ++ str_prefval limit)
             w) /\
  (forall df : frame,
     fst (get_table_preview c table_name limit w) = Val df <->
     fst (execute_query c
            ("SELECT * FROM " ++ table_name ++ " LIMIT " ++ str_prefval limit)
            w) = Val df) /\
  (forall m : string,
     fst (get_table_preview c table_name limit w)
       = Exn ("Error getting preview for table '" ++ table_name ++ "': " ++ m)
     <->
     fst (execute_query c
            ("SELECT * FROM " ++ table_name ++ " LIMIT " ++ str_prefval limit)
            w) = Exn ("Error executing query: " ++ m)).
Proof.
  assert (Hsel : is_select ("SELECT * FROM " ++ table_name ++ " LIMIT "
                              ++ str_prefval limit) = true).
  { exact (GatewayFacts.select_star_is_select
             (table_name ++ " LIMIT " ++ str_prefval limit)). }
  unfold get_table_preview, execute_query, read_sql_query. run.
  rewrite ?Hsel. destruct c as [h|]; simpl.
  - destruct (pd_read_sql_query _ h (engine w)) as [[df|m] e']; simpl.
    + conjs; [reflexivity | intros; tauto |].
      intros m; split; discriminate.
    + conjs; [reflexivity | intros; split; discriminate |].
      intros m'; split; intros [= H]; repeat apply String.app_inj in H;
        subst; reflexivity.
  - conjs; [reflexivity | intros; split; discriminate |].
    intros m'; split; intros [= H]; repeat apply String.app_inj in H;
      subst; reflexivity.
Qed.

(** The schema lookup reads [PRAGMA table_info(<table>)] directly: one read
    call, the frame returned as it is, a failure raised with the lookup's
    prefix.  It does not go through the gateway, which would take the same
    text for a write: execute it, commit, and return only a status
    message. *)
Theorem get_table_schema_reads_directly (h : conn) (table_name : string)
    (w : world E) :
  (exists (r : outcome frame) (e' : E),
     pd_read_sql_query ("PRAGMA table_info(" ++ table_name ++ ")") h
       (engine w) = (r, e') /\
     DatabaseSchema.get_table_schema (Some h) table_name w =
       (match r with
        | Val df => Val df
        | Exn m =>
            Exn ("Error getting schema for table '" ++ table_name ++ "': "
                   ++ m)
        end,
        World (st_session_state w) e'
          (calls w ++ [CReadSql ("PRAGMA table_info(" ++ table_name ++ ")") h])
          (ui w))) /\
  is_select ("PRAGMA table_info(" ++ table_name ++ ")") = false /\
  (forall (df : frame) (w' : world E),
     execute_query (Some h) ("PRAGMA table_info(" ++ table_name ++ ")") w
       = (Val df, w') ->
     (exists status : string, df = message_frame status) /\
     last (calls w') = Some (CCommit h)).
Proof.
  assert (Hsel : is_select ("PRAGMA table_info(" ++ table_name ++ ")") = false).
  { change ("PRAGMA table_info(" ++ table_name ++ ")")
      with ("PRAGMA" ++ (" table_info(" ++ table_name ++ ")")).
    rewrite GatewayFacts.is_select_prefix;
      [reflexivity | discriminate | reflexivity]. }
  conjs.
  - unfold DatabaseSchema.get_table_schema, read_sql_query. run.
    destruct (pd_read_sql_query _ h (engine w)) as [[df|m] e']; simpl;
      eexists _, _; split; reflexivity.
  - exact Hsel.
  - intros df w'. rewrite (GatewayFacts.execute_query_write_unfold h _ w Hsel).
    destruct (conn_cursor h (engine w)) as [[cu|m] e1]; [|discriminate].
    destruct (cursor_execute cu _ e1) as [[[]|m] e2]; [|discriminate].
    destruct (conn_commit h e2) as [[[]|m] e3]; cbv zeta; [|discriminate].
    intros [= <- <-]. split; [eauto|].
    cbn [calls].
    change [CCursor h; CExecute cu ("PRAGMA table_info(" ++ table_name ++ ")");
            CCommit h]
      with ([CCursor h;
             CExecute cu ("PRAGMA table_info(" ++ table_name ++ ")")]
              ++ [CCommit h])%list.
    rewrite app_assoc. apply last_snoc.
Qed.

End GatewayMore.
End GatewayMore.

Module SessionMore.
Section SessionMore.
Context {E : Type} {B : Backend E}.
Import SessionManager.

(** Recording a query shifts every older entry down by one place, in
    order, drops what would fall beyond place 49, makes the history one
    longer up to 50, and touches no other field of the session, no call
    and no message. *)
Theorem add_to_query_history_keeps_order (q : string) (ok : bool) (n : Z)
    (w : world E) (h : list history_entry) :
  query_history (st_session_state w) = Some h ->
  exists (h' : list history_entry) (w' : world E),
    add_to_query_history q ok n w = (Val tt, w') /\
    query_history (st_session_state w') = Some h' /\
    length h' = Nat.min 50 (S (length h)) /\
    (forall i : nat, S i < 50 -> h' !! S i = h !! i) /\
    (forall i : nat, 50 <= i -> h' !! i = None) /\
    db_path (st_session_state w') = db_path (st_session_state w) /\
    connection (st_session_state w') = connection (st_session_state w) /\
    tables (st_session_state w') = tables (st_session_state w) /\
    selected_table (st_session_state w')
      = selected_table (st_session_state w) /\
    active_tab (st_session_state w') = active_tab (st_session_state w) /\
    preferences (st_session_state w') = preferences (st_session_state w) /\
    calls w' = calls w /\ ui w' = ui w.
Proof.
  intros Hh. rewrite SessionFacts.add_to_query_history_unfold.
  destruct (time_time (engine w)) as [ts e1].
  destruct (time_strftime "%H:%M:%S" e1) as [tm e2].
  cbv zeta. rewrite Hh.
  eexists _, _. split; [reflexivity|]. split; [reflexivity|].
  split; [rewrite length_take; reflexivity|].
  split; [intros i Hi; rewrite lookup_take_lt by lia; reflexivity|].
  split; [intros i Hi; apply lookup_take_ge; lia|].
  conjs; reflexivity.
Qed.

(** [update_preference] never changes which keys the preferences have,
    whatever the key and the value; every other key keeps its value, and
    nothing else in the world changes. *)
Theorem update_preference_keeps_keys (key : string) (value : prefval)
    (w : world E) (p : gmap string prefval) :
  preferences (st_session_state w) = Some p ->
  exists (b : bool) (p' : gmap string prefval) (w' : world E),
    update_preference key value w = (Val b, w') /\
    preferences (st_session_state w') = Some p' /\
    dom p' = dom p /\
    (forall k : string, k <> key -> p' !! k = p !! k) /\
    (b = true -> p' !! key = Some value) /\
    (b = false -> p' = p) /\
    db_path (st_session_state w') = db_path (st_session_state w) /\
    connection (st_session_state w') = connection (st_session_state w) /\
    tables (st_session_state w') = tables (st_session_state w) /\
    selected_table (st_session_state w')
      = selected_table (st_session_state w) /\
    query_history (st_session_state w')
      = query_history (st_session_state w) /\
    active_tab (st_session_state w') = active_tab (st_session_state w) /\
    engine w' = engine w /\ calls w' = calls w /\ ui w' = ui w.
Proof.
  intros Hp. unfold update_preference. run. rewrite Hp; simpl.
  destruct (p !! key) as [x|] eqn:Hx; simpl.
  - rewrite Hp; simpl. exists true, (<[key := value]> p). eexists.
    split; [reflexivity|]. simpl. split; [reflexivity|].
    split; [apply dom_insert_lookup_L; eauto|].
    split; [intros k Hk; apply lookup_insert_ne; congruence|].
    split; [intros _; apply lookup_insert_eq|].
    split; [discriminate|]. conjs; reflexivity.
  - exists false, p, w. split; [reflexivity|]. split; [exact Hp|].
    conjs; try reflexivity; try discriminate.
Qed.

(** A second [clear_database_state] right after the first changes nothing
    and closes nothing; and on a session that [init_session_state] had left
    unchanged, it still leaves the cleared session unchanged. *)
Theorem clear_database_state_twice (w : world E) (c : option conn) :
  connection (st_session_state w) = Some c ->
  clear_database_state (snd (clear_database_state w))
    = (Val tt, snd (clear_database_state w)) /\
  (init_session (st_session_state w) = st_session_state w ->
   init_session (st_session_state (snd (clear_database_state w)))
     = st_session_state (snd (clear_database_state w))).
Proof.
  intros Hc. rewrite (SessionFacts.clear_database_state_unfold w c Hc).
  cbn [snd]. split.
  - match goal with
    | |- clear_database_state ?w1 = _ =>
        rewrite (SessionFacts.clear_database_state_unfold w1 None eq_refl)
    end.
    cbn [st_session_state engine calls ui]. rewrite app_nil_r.
    reflexivity.
  - cbn [st_session_state]. intros Hinit.
    rewrite SessionFacts.init_session_closed in Hinit |- *.
    destruct (st_session_state w) as [p cn t hi sel a pr].
    cbn in Hinit |- *. injection Hinit as _ _ _ Hh _ Ha Hpr.
    rewrite <- Hh, <- Ha, <- Hpr. reflexivity.
Qed.

End SessionMore.
End SessionMore.

Module HandlerMore.
Section HandlerMore.
Context {E : Type} {B : Backend E} {D : Display E} {F : FloatText}.
Import SessionManager Database.

Lemma render_cases (ev : ui_event) (w : world E) :
  (exists e' : E,
     render ev w =
       (Val tt,
        World (st_session_state w) e' (calls w) (ui w ++ [ev]))) \/
  (exists (m : string) (e' : E),
     st_display ev (engine w) = (Exn m, e') /\
     render ev w =
       (Exn m, World (st_session_state w) e' (calls w) (ui w))).
Proof.
  unfold render. destruct (st_display ev (engine w)) as [[[]|m] e']; eauto.
Qed.

Lemma set_query_history_twice (h1 h2 : list history_entry) (s : session) :
  set_query_history h2 (set_query_history h1 s) = set_query_history h2 s.
Proof. reflexivity. Qed.

(** What the write path of the gateway returns is a status frame. *)
Lemma execute_query_write_frame (c : option conn) (q : string)
    (w w1 : world E) (df : frame) :
  is_select q = false -> execute_query c q w = (Val df, w1) ->
  exists status : string, df = message_frame status.
Proof.
  intros Hsel Hexec. destruct c as [hd|].
  - rewrite (GatewayFacts.execute_query_write_unfold hd q w Hsel) in Hexec.
    destruct (conn_cursor hd (engine w)) as [[cu|m] e1]; [|discriminate].
    destruct (cursor_execute cu q e1) as [[[]|m] e2]; [|discriminate].
    destruct (conn_commit hd e2) as [[[]|m] e3]; [|discriminate].
    cbv zeta in Hexec. injection Hexec as <- _. eauto.
  - unfold execute_query in Hexec. run. rewrite Hsel in Hexec.
    discriminate.
Qed.

(** The display calls of [execute_sql_query], run after the query was
    recorded: they leave the session and the call log alone, and either
    all return, the success message first, or one of them raises. *)
Lemma execute_sql_query_shows (q : string) (df : frame) (w2 : world E) :
  (is_select q = false -> exists status : string, df = message_frame status) ->
  exists (r : outcome unit) (w3 : world E),
    (render (StSuccess "Query executed successfully!") ;;;
     if is_select q
     then
       if negb (frame_empty df)
       then
         render (StWrite ("**Results ("
                            ++ Py.str_int (Z.of_nat (frame_len df))
                            ++ " rows):**")) ;;;
         render (StDataframe df)
       else render (StInfo "Query returned 0 rows.")
     else
       if negb (frame_empty df)
       then v <- lift (SqlEditor.iloc_0_0 df) ;; render (StInfoValue v)
       else render (StInfo "Query executed.")) w2 = (r, w3) /\
    st_session_state w3 = st_session_state w2 /\
    calls w3 = calls w2 /\
    match r with
    | Val _ =>
        exists rest : list ui_event,
          ui w3 = (ui w2 ++ StSuccess "Query executed successfully!" :: rest)%list
    | Exn m => exists (ev : ui_event) (e : E), fst (st_display ev e) = Exn m
    end.
Proof.
  intros Hwrite.
  assert (Hone : forall (ev : ui_event) (w : world E) (pre : list ui_event),
            ui w = (ui w2 ++ StSuccess "Query executed successfully!" :: pre)%list ->
            exists (r : outcome unit) (w3 : world E),
              render ev w = (r, w3) /\
              st_session_state w3 = st_session_state w /\
              calls w3 = calls w /\
              match r with
              | Val _ =>
                  exists rest : list ui_event,
                    ui w3 = (ui w2 ++ StSuccess "Query executed successfully!"
                                        :: rest)%list
              | Exn m =>
                  exists (ev : ui_event) (e : E), fst (st_display ev e) = Exn m
              end).
  { intros ev w pre Hui.
    destruct (render_cases ev w) as [(e' & ->)|(m & e' & Hd & ->)].
    - eexists _, _. split; [reflexivity|]. simpl. conjs; try reflexivity.
      exists (pre ++ [ev])%list. rewrite Hui, <- app_assoc. reflexivity.
    - eexists _, _. split; [reflexivity|]. simpl. conjs; try reflexivity.
      exists ev, (engine w). rewrite Hd. reflexivity. }
  unfold bind at 1.
  destruct (render_cases (StSuccess "Query executed successfully!") w2)
    as [(e' & ->)|(m & e' & Hd & ->)].
  2:{ eexists _, _. split; [reflexivity|]. simpl. conjs; try reflexivity.
      exists (StSuccess "Query executed successfully!"), (engine w2).
      rewrite Hd. reflexivity. }
  set (w := World (st_session_state w2) e' (calls w2)
              (ui w2 ++ [StSuccess "Query executed successfully!"])).
  assert (Hui : ui w = (ui w2 ++ StSuccess "Query executed successfully!" :: [])%list)
    by reflexivity.
  destruct (is_select q) eqn:Hsel.
  - destruct (frame_empty df); cbn [negb].
    + exact (Hone _ w [] Hui).
    + unfold bind at 1.
      destruct (render_cases
                  (StWrite ("**Results ("
                              ++ Py.str_int (Z.of_nat (frame_len df))
                              ++ " rows):**")) w)
        as [(e'' & ->)|(m & e'' & Hd & ->)].
      * match goal with
        | |- context [render (StDataframe df) ?w0] =>
            destruct (Hone (StDataframe df) w0
                        [StWrite ("**Results ("
                                    ++ Py.str_int (Z.of_nat (frame_len df))
                                    ++ " rows):**")])
              as (r & w3 & Hr & H1 & H2 & H3)
        end.
        { simpl. rewrite <- app_assoc. reflexivity. }
        exists r, w3. rewrite Hr. split; [reflexivity|]. auto.
      * eexists _, _. split; [reflexivity|]. simpl. conjs; try reflexivity.
        eexists _, (engine w). rewrite Hd. reflexivity.
  - destruct (Hwrite eq_refl) as [status ->]. cbn [negb frame_empty].
    unfold bind at 1, lift. cbn [SqlEditor.iloc_0_0 rows message_frame].
    exact (Hone _ w [] Hui).
Qed.

(** The whole handler on a text that is not blank and on which the gateway
    returns a frame. *)
Lemma execute_sql_query_returned (q : string) (w w1 : world E)
    (c : option conn) (h : list history_entry) (df : frame) :
  Py.strip q <> "" ->
  connection (st_session_state w) = Some c ->
  query_history (st_session_state w) = Some h ->
  execute_query c q w = (Val df, w1) ->
  exists (ok : history_entry) (w' : world E),
    SqlEditor.execute_sql_query q w = (Val tt, w') /\
    query ok = q /\ success ok = true /\
    rows_returned ok = Z.of_nat (frame_len df) /\
    (is_select q = false -> rows_returned ok = 1%Z) /\
    ((st_session_state w'
        = set_query_history (take 50 (ok :: h)) (st_session_state w) /\
      exists rest : list ui_event,
        ui w' = (ui w ++ StSuccess "Query executed successfully!" :: rest)%list)
     \/
     (exists (failed : history_entry) (m : string),
        query failed = q /\ success failed = false /\
        rows_returned failed = 0%Z /\
        st_session_state w'
          = set_query_history (take 50 (failed :: take 50 (ok :: h)))
              (st_session_state w) /\
        last (ui w') = Some (StError ("Query Error: " ++ m)) /\
        exists (ev : ui_event) (e : E), fst (st_display ev e) = Exn m)).
Proof.
  intros Hq Hc Hh Hexec.
  pose proof (GatewayFacts.execute_query_session c q w) as [Hs Hu].
  rewrite Hexec in Hs, Hu; simpl in Hs, Hu.
  assert (Hwrite : is_select q = false ->
            exists status, df = message_frame status)
    by (intros Hsel; exact (execute_query_write_frame c q w w1 df Hsel Hexec)).
  unfold SqlEditor.execute_sql_query.
  destruct (Py.strip q) eqn:Hstrip; [contradiction|]. cbn [Py.truthy negb].
  unfold try_except, bind at 1, getattr at 1.
  rewrite Hc. unfold bind at 1. rewrite Hexec.
  unfold bind at 1. rewrite SessionFacts.add_to_query_history_unfold.
  destruct (time_time (engine w1)) as [ts e1].
  destruct (time_strftime "%H:%M:%S" e1) as [tm e2].
  cbv zeta. rewrite Hs, Hh.
  set (ok := {| query := q; timestamp := ts; success := true;
                rows_returned := Z.of_nat (frame_len df); time := tm |}).
  match goal with
  | |- context [bind _ _ ?w0] =>
      destruct (execute_sql_query_shows q df w0 Hwrite)
        as (r & w3 & Hr & Hs3 & Hc3 & Hr3)
  end.
  rewrite Hr. cbn [st_session_state calls ui] in Hs3, Hc3, Hr3.
  destruct r as [[]|m].
  - exists ok, w3. split; [reflexivity|].
    split; [reflexivity|]. split; [reflexivity|]. split; [reflexivity|].
    split.
    { intros Hsel. destruct (Hwrite Hsel) as [status ->]. reflexivity. }
    left. split; [exact Hs3|]. rewrite <- Hu. exact Hr3.
  - unfold bind. rewrite SessionFacts.add_to_query_history_unfold.
    destruct (time_time (engine w3)) as [ts' e1'].
    destruct (time_strftime "%H:%M:%S" e1') as [tm' e2'].
    cbv zeta. rewrite Hs3. cbn [query_history set_query_history].
    unfold emit. cbn [st_session_state engine calls ui].
    eexists ok, _. split; [reflexivity|].
    split; [reflexivity|]. split; [reflexivity|]. split; [reflexivity|].
    split.
    { intros Hsel. destruct (Hwrite Hsel) as [status ->]. reflexivity. }
    right.
    exists {| query := q; timestamp := ts'; success := false;
              rows_returned := 0; time := tm' |}, m.
    cbn [st_session_state ui query success rows_returned].
    conjs; try reflexivity; [apply last_snoc | exact Hr3].
Qed.

(** A text that is not blank and on which the gateway returns a frame is
    recorded as successful, with the number of rows of that frame, before
    anything is shown; for a text that fails the SELECT test that number is
    always 1, the one row of the status frame, whatever the statement
    changed.  When every display call returns, that entry is the only one
    added and the success message is shown.  When a display call raises,
    the handler still returns: a second entry for the same text, marked
    unsuccessful with zero rows, is put in front of the first, and the
    error is the last message shown. *)
Theorem successful_query_is_recorded_first (q : string) (w w1 : world E)
    (c : option conn) (h : list history_entry) (df : frame) :
  Py.strip q <> "" ->
  connection (st_session_state w) = Some c ->
  query_history (st_session_state w) = Some h ->
  execute_query c q w = (Val df, w1) ->
  exists (ok : history_entry) (w' : world E),
    SqlEditor.execute_sql_query q w = (Val tt, w') /\
    query ok = q /\ success ok = true /\
    rows_returned ok = Z.of_nat (frame_len df) /\
    (is_select q = false -> rows_returned ok = 1%Z) /\
    ((query_history (st_session_state w') = Some (take 50 (ok :: h)) /\
      exists rest : list ui_event,
        ui w' = (ui w ++ StSuccess "Query executed successfully!" :: rest)%list)
     \/
     (exists (failed : history_entry) (m : string),
        query failed = q /\ success failed = false /\
        rows_returned failed = 0%Z /\
        query_history (st_session_state w')
          = Some (take 50 (failed :: take 50 (ok :: h))) /\
        last (ui w') = Some (StError ("Query Error: " ++ m)) /\
        exists (ev : ui_event) (e : E), fst (st_display ev e) = Exn m)) /\
    ((forall (ev : ui_event) (e : E), fst (st_display ev e) = Val tt) ->
     query_history (st_session_state w') = Some (take 50 (ok :: h))).
Proof.
  intros Hq Hc Hh Hexec.
  destruct (execute_sql_query_returned q w w1 c h df Hq Hc Hh Hexec)
    as (ok & w' & Hrun & H1 & H2 & H3 & H4 & H5).
  exists ok, w'. do 5 (split; [assumption|]).
  destruct H5 as [[Hs Hrest]|(failed & m & F1 & F2 & F3 & Hs & Hl & Hd)].
  - split; [left; split; [rewrite Hs; reflexivity | exact Hrest]|].
    intros _. rewrite Hs. reflexivity.
  - split.
    + right. exists failed, m. rewrite Hs. auto 10.
    + intros Hall. destruct Hd as (ev & e & Hd). rewrite Hall in Hd.
      discriminate.
Qed.

(** Exporting query results runs any text through the gateway: a text that
    fails the SELECT test is executed and committed, and what is offered
    for download is the encoding of its status frame. *)
Theorem export_query_results_runs_writes (q format : string)
    (w w1 : world E) (h : conn) (df : frame) :
  connection (st_session_state w) = Some (Some h) ->
  is_select q = false ->
  execute_query (Some h) q w = (Val df, w1) ->
  last (calls (snd (Exporter.export_query_results q format w)))
    = Some (CCommit h) /\
  exists status : string,
    df = message_frame status /\
    Exporter.downloads (ui (snd (Exporter.export_query_results q format w)))
      = (Exporter.downloads (ui w)
           ++ (if String.eqb format "CSV"
               then [to_csv (message_frame status)]
               else if String.eqb format "JSON"
               then [to_json (message_frame status)]
               else []))%list.
Proof.
  intros Hc Hsel Hexec.
  pose proof (GatewayFacts.execute_query_session (Some h) q w) as [_ Hu].
  rewrite Hexec in Hu; simpl in Hu.
  assert (Hlast : last (calls w1) = Some (CCommit h) /\
                  exists status, df = message_frame status).
  { rewrite (GatewayFacts.execute_query_write_unfold h q w Hsel) in Hexec.
    destruct (conn_cursor h (engine w)) as [[cu|m] e1]; [|discriminate].
    destruct (cursor_execute cu q e1) as [[[]|m] e2]; [|discriminate].
    destruct (conn_commit h e2) as [[[]|m] e3]; [|discriminate].
    cbv zeta in Hexec. injection Hexec as <- <-. split; [|eauto].
    cbn [calls].
    change [CCursor h; CExecute cu q; CCommit h]
      with ([CCursor h; CExecute cu q] ++ [CCommit h])%list.
    rewrite app_assoc. apply last_snoc. }
  destruct Hlast as [Hlast [status ->]].
  unfold Exporter.export_query_results. run.
  rewrite Hc; simpl. rewrite Hexec; simpl.
  destruct (String.eqb format "CSV") eqn:Hcsv;
    [|destruct (String.eqb format "JSON") eqn:Hjson;
      [|destruct (String.eqb format "Excel") eqn:Hxl]];
    simpl; (split; [exact Hlast|]); exists status; (split; [reflexivity|]);
    rewrite ?ExportFacts.downloads_snoc, Hu; simpl;
    rewrite ?app_nil_r; reflexivity.
Qed.

(** The data preview never raises and never writes: whatever the session
    and the engine, it returns and leaves the session as it was.  When the
    session holds a handle and the preferences have a value for
    [rows_per_page], it asks the engine for one read of the table with that
    value as the limit, and for nothing else; in every other case it asks
    the engine for nothing. *)
Theorem render_data_preview_only_reads (table_name : string) (w : world E) :
  exists w' : world E,
    DbExplorer.render_data_preview table_name w = (Val tt, w') /\
    st_session_state w' = st_session_state w /\
    (forall (h : conn) (p : gmap string prefval) (limit : prefval),
       connection (st_session_state w) = Some (Some h) ->
       preferences (st_session_state w) = Some p ->
       p !! "rows_per_page" = Some limit ->
       calls w' =
         (calls w
            ++ [CReadSql ("SELECT * FROM " ++ table_name ++ " LIMIT "
                            ++ str_prefval limit) h])%list) /\
    (calls w' = calls w \/
     exists (h : conn) (p : gmap string prefval) (limit : prefval),
       connection (st_session_state w) = Some (Some h) /\
       preferences (st_session_state w) = Some p /\
       p !! "rows_per_page" = Some limit /\
       calls w' =
         (calls w
            ++ [CReadSql ("SELECT * FROM " ++ table_name ++ " LIMIT "
                            ++ str_prefval limit) h])%list).
Proof.
  unfold DbExplorer.render_data_preview, DbExplorer.getitem,
    get_table_preview, read_sql_query. run.
  destruct (connection (st_session_state w)) as [c|]; simpl;
    [|eexists; (split; [reflexivity|]); simpl; (split; [reflexivity|]);
      split; [discriminate | auto]].
  destruct (preferences (st_session_state w)) as [p|]; simpl;
    [|eexists; (split; [reflexivity|]); simpl; (split; [reflexivity|]);
      split; [discriminate | auto]].
  destruct (p !! "rows_per_page") as [limit|] eqn:Hl; simpl;
    [|eexists; (split; [reflexivity|]); simpl; (split; [reflexivity|]);
      split; [intros h p' l _ [= <-]; congruence | auto]].
  destruct c as [h|]; simpl;
    [|eexists; (split; [reflexivity|]); simpl; (split; [reflexivity|]);
      split; [discriminate | auto]].
  destruct (pd_read_sql_query _ h (engine w)) as [[df|m] e']; simpl;
    eexists; (split; [reflexivity|]); simpl; (split; [reflexivity|]);
    (split;
     [intros h' p' l [= <-] [= <-] Hl'; rewrite Hl in Hl';
      injection Hl' as <-; reflexivity
     |right; exists h, p, limit; auto]).
Qed.

(** The update tab changes nothing: it never raises, leaves the session as
    it was, and asks the engine for nothing or for one read of the table
    with [LIMIT 20]; a failure of that read is dropped without a
    message. *)
Theorem render_update_interface_only_reads (table_name : string)
    (w : world E) :
  exists w' : world E,
    TableEditor.render_update_interface table_name w = (Val tt, w') /\
    st_session_state w' = st_session_state w /\
    (calls w' = calls w \/
     exists h : conn,
       connection (st_session_state w) = Some (Some h) /\
       calls w' =
         (calls w
            ++ [CReadSql ("SELECT * FROM " ++ table_name ++ " LIMIT 20") h])%list) /\
    (forall ev : ui_event,
       ev ∈ ui w' -> ev ∈ ui w \/
       match ev with StError _ | StWarning _ => False | _ => True end).
Proof.
  unfold TableEditor.render_update_interface, get_table_preview,
    read_sql_query. run.
  assert (Hui : forall (u : list ui_event) (l : list ui_event),
            Forall (fun ev => match ev with
                              | StError _ | StWarning _ => False
                              | _ => True
                              end) l ->
            forall ev, ev ∈ (u ++ l)%list -> ev ∈ u \/
              match ev with StError _ | StWarning _ => False | _ => True end).
  { intros u l Hl ev Hin. apply elem_of_app in Hin as [Hin|Hin]; [auto|].
    right. rewrite Forall_forall in Hl. exact (Hl ev Hin). }
  destruct (connection (st_session_state w)) as [[h|]|]; simpl.
  - destruct (pd_read_sql_query _ h (engine w)) as [[df|m] e']; simpl;
      [destruct (frame_empty df); simpl|];
      eexists; (split; [reflexivity|]); simpl; (split; [reflexivity|]);
      (split; [right; exists h; split; reflexivity|]);
      rewrite <- ?app_assoc; simpl; apply Hui; repeat constructor.
  - eexists; (split; [reflexivity|]); simpl; (split; [reflexivity|]).
    split; [auto|]. rewrite <- ?app_assoc; simpl; apply Hui; repeat constructor.
  - eexists; (split; [reflexivity|]); simpl; (split; [reflexivity|]).
    split; [auto|]. rewrite <- ?app_assoc; simpl; apply Hui; repeat constructor.
Qed.

(** [insert_row] never raises.  Its text always takes the write path of the
    gateway; when the gateway returns, the insert was committed, the
    success message is shown and the handler is left by a rerun; when the
    gateway raises, the error is shown with the handler's prefix, there is
    no rerun, and the session is as before in both cases.  An empty
    dictionary gives an INSERT with empty lists. *)
Theorem insert_row_commits_or_reports (table_name : string)
    (data : list (string * TableEditor.input_value)) (w : world E)
    (c : option conn) :
  connection (st_session_state w) = Some c ->
  is_select (TableEditor.insert_query table_name data) = false /\
  TableEditor.insert_query table_name []
    = "INSERT INTO " ++ table_name ++ " () VALUES ()" /\
  (forall (df : frame) (w1 : world E),
     execute_query c (TableEditor.insert_query table_name data) w
       = (Val df, w1) ->
     TableEditor.insert_row table_name data w =
       (Val true,
        World (st_session_state w) (engine w1) (calls w1)
          (ui w ++ [StSuccess "Row inserted successfully!"])) /\
     exists h : conn, c = Some h /\ last (calls w1) = Some (CCommit h)) /\
  (forall (m : string) (w1 : world E),
     execute_query c (TableEditor.insert_query table_name data) w
       = (Exn m, w1) ->
     TableEditor.insert_row table_name data w =
       (Val false,
        World (st_session_state w) (engine w1) (calls w1)
          (ui w ++ [StError ("Error inserting row: " ++ m)]))).
Proof.
  intros Hc.
  assert (Hsel : is_select (TableEditor.insert_query table_name data) = false).
  { unfold TableEditor.insert_query. cbv zeta.
    match goal with
    | |- is_select ("INSERT INTO " ++ ?x) = false =>
        change ("INSERT INTO " ++ x) with ("INSERT" ++ (" INTO " ++ x))
    end.
    rewrite GatewayFacts.is_select_prefix;
      [reflexivity | discriminate | reflexivity]. }
  split; [exact Hsel|]. split; [reflexivity|].
  split.
  - intros df w1 Hexec.
    pose proof (GatewayFacts.execute_query_session c
                  (TableEditor.insert_query table_name data) w) as [Hs Hu].
    rewrite Hexec in Hs, Hu; simpl in Hs, Hu.
    split.
    + unfold TableEditor.insert_row.
      unfold try_except, bind at 1, getattr at 1. rewrite Hc.
      unfold bind at 1. rewrite Hexec. run. rewrite Hs, Hu. reflexivity.
    + destruct c as [h|].
      * exists h. split; [reflexivity|].
        rewrite (GatewayFacts.execute_query_write_unfold h _ w Hsel) in Hexec.
        destruct (conn_cursor h (engine w)) as [[cu|m] e1]; [|discriminate].
        destruct (cursor_execute cu _ e1) as [[[]|m] e2]; [|discriminate].
        destruct (conn_commit h e2) as [[[]|m] e3]; [|discriminate].
        cbv zeta in Hexec. injection Hexec as _ <-. cbn [calls].
        match goal with
        | |- last (_ ++ [?a; ?b; ?c']) = _ =>
            change [a; b; c'] with ([a; b] ++ [c'])%list
        end.
        rewrite app_assoc. apply last_snoc.
      * unfold execute_query in Hexec. rewrite Hsel in Hexec. run.
        discriminate.
  - intros m w1 Hexec.
    pose proof (GatewayFacts.execute_query_session c
                  (TableEditor.insert_query table_name data) w) as [Hs Hu].
    rewrite Hexec in Hs, Hu; simpl in Hs, Hu.
    unfold TableEditor.insert_row.
    unfold try_except, bind at 1, getattr at 1. rewrite Hc.
    unfold bind at 1. rewrite Hexec. run. rewrite Hs, Hu. reflexivity.
Qed.


End HandlerMore.
End HandlerMore.

Module EditorMore.
Section EditorMore.
Context {F : FloatText}.

Lemma contains_first_char (a : ascii) (sub s : string) :
  PyText.contains (String a sub) s = true ->
  PyText.contains (String a "") s = true.
Proof.
  induction s as [|b s IH]; cbn [PyText.contains String.prefix].
  - rewrite orb_false_r. discriminate.
  - destruct (ascii_dec a b) as [->|Hab].
    + intros _. destruct s; reflexivity.
    + cbn [orb]. exact IH.
Qed.

Lemma pretty_N_go_no_P (x : N) (s : string) :
  PyText.contains "P" s = false ->
  PyText.contains "P" (pretty_N_go x s) = false.
Proof.
  revert s. induction (N.lt_wf_0 x) as [x _ IH]; intros s Hs.
  assert (x = 0 \/ 0 < x)%N as [->|Hx] by lia.
  - rewrite pretty_N_go_0. exact Hs.
  - rewrite pretty_N_go_step by done. apply IH.
    + by apply N.div_lt.
    + cbn [PyText.contains String.prefix]. rewrite Hs.
      unfold pretty_N_char. by repeat case_match.
Qed.

Lemma str_int_no_P (n : Z) : PyText.contains "P" (Py.str_int n) = false.
Proof.
  assert (HN : forall x : N, PyText.contains "P" (pretty x) = false).
  { intros x. unfold pretty, pretty_N. case_decide; [reflexivity|].
    by apply pretty_N_go_no_P. }
  unfold Py.str_int, pretty, pretty_Z. destruct n as [|p|p].
  - reflexivity.
  - apply (HN (N.pos p)).
  - change ("-" +:+ pretty p) with (String "-" (pretty p)).
    cbn [PyText.contains String.prefix].
    destruct (ascii_dec "P" "-"); [discriminate|]. apply (HN (N.pos p)).
Qed.

(** The test that is meant to leave out an auto-increment primary key
    never holds for a row whose [pk] cell is an integer, as the rows of
    [PRAGMA table_info] have it: whatever the declared type, such a column
    gets an input. *)
Theorem skips_column_never_for_integer_pk (n : Z) (ty : string) :
  TableEditor.skips_column (SInt n) ty = false.
Proof.
  unfold TableEditor.skips_column, TableEditor.str_cell.
  destruct (PyText.contains "PRIMARY KEY" (Py.str_int n)) eqn:Hc;
    [|reflexivity].
  apply contains_first_char in Hc. rewrite str_int_no_P in Hc.
  discriminate.
Qed.

Lemma basename_no_slash (p : string) :
  PyText.contains "/" (PyText.basename p) = false.
Proof.
  induction p as [|a p IH]; [reflexivity|].
  cbn [PyText.basename].
  destruct (PyText.contains "/" p) eqn:Hp; [exact IH|].
  destruct (Ascii.eqb a "/") eqn:Ha; [exact Hp|].
  cbn [PyText.contains String.prefix]. rewrite Hp.
  destruct (ascii_dec "/" a) as [<-|]; [discriminate|].
  destruct p; reflexivity.
Qed.

Lemma basename_is_suffix (p : string) :
  exists dir : string, p = dir ++ PyText.basename p.
Proof.
  induction p as [|a p [dir IH]]; [by exists ""|].
  cbn [PyText.basename].
  destruct (PyText.contains "/" p).
  - exists (String a dir). change (String a dir ++ PyText.basename p)
      with (String a (dir ++ PyText.basename p)). by rewrite <- IH.
  - destruct (Ascii.eqb a "/"); [by exists (String a "") | by exists ""].
Qed.

(** The name under which the database file is offered always ends in
    [.db] and has no slash; it is the last component of the session's path
    when that component ends in [.db], and [database.db] otherwise. *)
Theorem export_filename_ends_with_db (path : string) :
  PyText.endswith (ExporterFile.export_filename path) ".db" = true /\
  PyText.contains "/" (ExporterFile.export_filename path) = false /\
  (exists dir : string, path = dir ++ PyText.basename path) /\
  (PyText.endswith (PyText.basename path) ".db" = true ->
   ExporterFile.export_filename path = PyText.basename path) /\
  (PyText.endswith (PyText.basename path) ".db" = false ->
   ExporterFile.export_filename path = "database.db").
Proof.
  unfold ExporterFile.export_filename. cbv zeta.
  destruct (PyText.endswith (PyText.basename path) ".db") eqn:Hend;
    cbn [negb]; conjs; try reflexivity; try discriminate;
    auto using basename_no_slash, basename_is_suffix.
Qed.

End EditorMore.
End EditorMore.

Module SettingsMore.
Section SettingsMore.
Context {E : Type} {B : Backend E} {S : Streamlit E}.
Import SessionManager.

(** The settings tab, on a session whose preferences know [rows_per_page]:
    when the slider returns a number other than the current value the
    preference takes it and the update is announced, otherwise the
    preferences are left alone; the history is emptied exactly when the
    clear button was pressed; the keys of the preferences, the database
    fields and the call log never change. *)
Theorem render_settings_effect (w : world E) (p : gmap string prefval)
    (cur : prefval) (v : Z) (e1 e2 : E) (clicked : bool) :
  preferences (st_session_state w) = Some p ->
  p !! "rows_per_page" = Some cur ->
  st_slider "Rows per page in preview:" 10 500 cur 10
    (st_header "Settings" (engine w)) = (Val v, e1) ->
  st_button "Clear Query History" e1 = (clicked, e2) ->
  exists (p' : gmap string prefval) (w' : world E),
    App.render_settings w = (Val tt, w') /\
    preferences (st_session_state w') = Some p' /\
    p' = (if App.int_ne v cur then <["rows_per_page" := PInt v]> p else p) /\
    dom p' = dom p /\
    query_history (st_session_state w')
      = (if clicked then Some [] else query_history (st_session_state w)) /\
    db_path (st_session_state w') = db_path (st_session_state w) /\
    connection (st_session_state w') = connection (st_session_state w) /\
    tables (st_session_state w') = tables (st_session_state w) /\
    selected_table (st_session_state w')
      = selected_table (st_session_state w) /\
    calls w' = calls w /\
    ui w' =
      (ui w
         ++ (if App.int_ne v cur then [StSuccess "Settings updated!"] else [])
         ++ [StSubheader "Data Management"]
         ++ (if clicked then [StSuccess "Query history cleared!"] else [])
         ++ [StSubheader "About"; StWrite App.about_text])%list.
Proof.
  intros Hp Hcur Hslider Hbutton.
  unfold App.render_settings, DbExplorer.getitem, update_preference,
    layout, widget.
  run. rewrite Hp; simpl. rewrite Hcur; simpl. rewrite Hslider; simpl.
  rewrite Hp; simpl. rewrite Hcur; simpl.
  destruct (App.int_ne v cur) eqn:Hne; simpl.
  - rewrite Hp; simpl. rewrite Hcur; simpl. rewrite Hp; simpl.
    rewrite Hbutton; simpl.
    destruct clicked; simpl; eexists _, _;
      (split; [reflexivity|]); simpl; (split; [reflexivity|]);
      (split; [reflexivity|]);
      (split; [apply dom_insert_lookup_L; eauto|]);
      rewrite <- ?app_assoc; simpl; conjs; reflexivity.
  - rewrite Hbutton; simpl.
    destruct clicked; simpl; eexists _, _;
      (split; [reflexivity|]); simpl; (split; [exact Hp|]);
      (split; [reflexivity|]); (split; [reflexivity|]);
      rewrite <- ?app_assoc; simpl; conjs; reflexivity.
Qed.

End SettingsMore.
End SettingsMore.

Module SampleMore.
Section SampleMore.
Context {E : Type} {B : Backend E} {S : Streamlit E} {Fs : Files E}.
Import Database.

Lemma keeps_ret {A} (a : A) : keeps_session (ret (E := E) a).
Proof. intros w. split; reflexivity. Qed.

Lemma keeps_ask {A} (c : call) (op : E -> outcome A * E) :
  keeps_session (ask c op).
Proof. intros w. unfold ask. destruct (op (engine w)). split; reflexivity. Qed.

Lemma keeps_widget {A} (op : E -> outcome A * E) : keeps_session (widget op).
Proof.
  intros w. unfold widget. destruct (op (engine w)). split; reflexivity.
Qed.

Lemma keeps_bind {A A'} (m : M E A) (k : A -> M E A') :
  keeps_session m -> (forall a, keeps_session (k a)) ->
  keeps_session (bind m k).
Proof.
  intros Hm Hk w. unfold bind. specialize (Hm w).
  destruct (m w) as [[a|e] w1]; simpl in Hm; [|exact Hm].
  destruct (Hk a w1) as [H1 H2]. destruct Hm as [H3 H4].
  split; congruence.
Qed.

Lemma keeps_execute_all (cu : cursor) (l : list string) :
  keeps_session (App.execute_all cu l).
Proof.
  induction l as [|s l IH]; [apply keeps_ret|].
  apply keeps_bind; [apply keeps_ask | intros _; exact IH].
Qed.

Lemma keeps_build_sample_database : keeps_session App.build_sample_database.
Proof.
  unfold App.build_sample_database.
  repeat (apply keeps_bind; [|intros ?]);
    first [apply keeps_ask | apply keeps_widget | apply keeps_execute_all
          | apply keeps_ret].
Qed.

Lemma handle_uploaded_file_returns (data : list Byte.byte) (w : world E) :
  exists (b : bool) (w' : world E),
    FileUploader.handle_uploaded_file data w = (Val b, w').
Proof.
  unfold FileUploader.handle_uploaded_file, try_except.
  match goal with
  | |- context [match ?x with _ => _ end] => destruct x as [[b|m] w1]
  end; [eauto|]. run. eauto.
Qed.

Lemma build_sample_database_calls (w w1 : world E)
    (value : list Byte.byte) :
  App.build_sample_database w = (Val value, w1) ->
  exists (tmp_path : string) (c : conn) (cu : cursor),
    calls w1 =
      (calls w
         ++ [CTempfile ".db" []; CConnect tmp_path; CCursor c]
         ++ map (CExecute cu) App.sample_statements
         ++ [CCommit c; CClose c])%list.
Proof.
  unfold App.build_sample_database, App.sample_statements, App.execute_all,
    widget.
  run. intros H.
  repeat match type of H with
         | context [let (_, _) := ?x in _] =>
             lazymatch x with
             | context [let (_, _) := _ in _] => fail
             | _ => idtac
             end;
             destruct x as [[?|?] ?]; simpl in H; try discriminate H
         end.
  injection H as _ <-. simpl. rewrite <- ?app_assoc. simpl. eauto.
Qed.

(** [create_sample_database] never raises.  Building the sample file does
    not touch the session and asks the engine, in this order, for a
    temporary file, a handle on it, a cursor, the nine statements, one
    commit and the close of that handle; once it is built and read back,
    the handler
    announces that the database was created and loaded and is left by a
    rerun whatever the upload did with it, also when the upload reported a
    failure; when building fails the error is shown, the session is as
    before and there is no rerun. *)
Theorem create_sample_database_announces_success (w : world E) :
  (forall (value : list Byte.byte) (w1 : world E),
     App.build_sample_database w = (Val value, w1) ->
     st_session_state w1 = st_session_state w /\
     (exists (tmp_path : string) (c : conn) (cu : cursor),
        calls w1 =
          (calls w
             ++ [CTempfile ".db" []; CConnect tmp_path; CCursor c]
             ++ map (CExecute cu) App.sample_statements
             ++ [CCommit c; CClose c])%list) /\
     exists (loaded : bool) (w2 : world E),
       FileUploader.handle_uploaded_file value w1 = (Val loaded, w2) /\
       App.create_sample_database w =
         (Val true,
          World (st_session_state w2) (engine w2) (calls w2)
            (ui w2 ++ [StSuccess "Sample database created and loaded!"]))) /\
  (forall (m : string) (w1 : world E),
     App.build_sample_database w = (Exn m, w1) ->
     App.create_sample_database w =
       (Val false,
        World (st_session_state w) (engine w1) (calls w1)
          (ui w ++ [StError ("Error creating sample database: " ++ m)]))).
Proof.
  pose proof (keeps_build_sample_database w) as [Hs Hu].
  split.
  - intros value w1 Hbuild. rewrite Hbuild in Hs, Hu; simpl in Hs, Hu.
    split; [exact Hs|].
    split; [exact (build_sample_database_calls w w1 value Hbuild)|].
    destruct (handle_uploaded_file_returns value w1) as (loaded & w2 & Hup).
    exists loaded, w2. split; [exact Hup|].
    unfold App.create_sample_database, try_except, bind at 1.
    rewrite Hbuild. unfold bind at 1. rewrite Hup. reflexivity.
  - intros m w1 Hbuild. rewrite Hbuild in Hs, Hu; simpl in Hs, Hu.
    unfold App.create_sample_database, try_except, bind at 1.
    rewrite Hbuild. run. rewrite Hs, Hu. reflexivity.
Qed.

End SampleMore.
End SampleMore.

(** ** More runs on the scripted engine *)

Module MoreRuns.
Import Script ScriptUi SessionManager Database.

Example insert_query_text :
  TableEditor.insert_query "users" [("id", TableEditor.IInt 3);
                                    ("name", TableEditor.IStr "Cy")]
    = "INSERT INTO users (id, name) VALUES (3, 'Cy')".
Proof. reflexivity. Qed.

Example export_filename_of_temp_path :
  ExporterFile.export_filename "/tmp/tmpab12.db" = "tmpab12.db" /\
  ExporterFile.export_filename "/data/shop.sqlite" = "database.db".
Proof. split; reflexivity. Qed.

Example sample_upload_fails_but_success_is_shown :
  fst (App.create_sample_database (B := first_file_only) (loaded_world true))
    = Val true /\
  ui (snd (App.create_sample_database (B := first_file_only)
             (loaded_world true)))
    = [StError
         "Error loading database: Failed to connect to database: unable to open database file";
       StSuccess "Sample database created and loaded!"].
Proof. split; vm_compute; reflexivity. Qed.

Lemma handle_uploaded_file_replaces_database_witness :
  exists w' : world db,
    FileUploader.handle_uploaded_file [] (loaded_world true) = (Val true, w') /\
    connection (st_session_state w') = Some (Some 7) /\
    tables (st_session_state w') = Some [SText "orders"; SText "users"] /\
    selected_table (st_session_state w') = Some None.
Proof.
  destruct (UploadMore.handle_uploaded_file_replaces_database
              [] (loaded_world true) "/tmp/tmp0.db" (Some "/tmp/old.db")
              (Some 3) 7
              (snd (named_temporary_file ".db" [] (engine (loaded_world true))))
              (snd (named_temporary_file ".db" [] (engine (loaded_world true))))
              (snd (named_temporary_file ".db" [] (engine (loaded_world true)))))
    as (l & w' & Hrun & Hl & Hc & _ & Ht & Hsel & _).
  - vm_compute; reflexivity.
  - reflexivity.
  - discriminate.
  - reflexivity.
  - vm_compute; reflexivity.
  - vm_compute; reflexivity.
  - exists w'. rewrite Ht, Hl. split; [exact Hrun|]. split; [exact Hc|].
    split; [vm_compute; reflexivity | exact Hsel].
Defined.

Lemma handle_uploaded_file_persist_failure_witness :
  FileUploader.handle_uploaded_file (B := full_disk) [] (loaded_world true)
    = (Val false,
       World loaded_session (sample_db true) [CTempfile ".db" []]
         [StError "Error loading database: No space left on device"]).
Proof.
  apply (UploadMore.handle_uploaded_file_persist_failure (B := full_disk)
           [] (loaded_world true) "No space left on device" (sample_db true)).
  reflexivity.
Defined.

Lemma is_select_ignores_space_and_case_witness :
  is_select ("  " ++ "select 1" ++ Py.nl) = is_select "select 1" /\
  is_select (Py.upper "select 1") = is_select "select 1".
Proof.
  apply (GatewayMore.is_select_ignores_space_and_case "  " "select 1" Py.nl);
    vm_compute; reflexivity.
Defined.

Lemma execute_query_failure_is_not_committed_witness :
  exists (m : string) (l : list call),
    calls (snd (execute_query (Some 3) "drop table x" (loaded_world true)))
      = ([] ++ l)%list /\
    (l = [CCursor 3] \/
     (exists cu : cursor, l = [CCursor 3; CExecute cu "drop table x"]) \/
     (exists (cu : cursor) (e e' : db),
        l = [CCursor 3; CExecute cu "drop table x"; CCommit 3] /\
        conn_commit 3 e = (Exn m, e'))).
Proof.
  destruct (GatewayMore.execute_query_failure_is_not_committed
              3 "drop table x" (loaded_world true)
              (snd (execute_query (Some 3) "drop table x" (loaded_world true)))
              "Error executing query: near syntax error")
    as (m & l & _ & Hcalls & Hl).
  - reflexivity.
  - vm_compute; reflexivity.
  - exists m, l. split; [exact Hcalls | exact Hl].
Defined.

Lemma add_to_query_history_keeps_order_witness :
  exists (h' : list history_entry) (w' : world db),
    add_to_query_history "SELECT 2" true 1 (loaded_world true) = (Val tt, w') /\
    length h' = 2 /\
    h' !! 1 = (default [] (query_history loaded_session)) !! 0.
Proof.
  destruct (SessionMore.add_to_query_history_keeps_order
              "SELECT 2" true 1 (loaded_world true)
              (default [] (query_history loaded_session)))
    as (h' & w' & Hrun & _ & Hlen & Hshift & _).
  - reflexivity.
  - exists h', w'. split; [exact Hrun|]. split; [exact Hlen|].
    apply Hshift. lia.
Defined.

Lemma update_preference_keeps_keys_witness :
  exists (b : bool) (p' : gmap string prefval) (w' : world db),
    update_preference "theme" (PStr "dark") (loaded_world true) = (Val b, w') /\
    dom p' = dom default_preferences.
Proof.
  destruct (SessionMore.update_preference_keeps_keys
              "theme" (PStr "dark") (loaded_world true) default_preferences)
    as (b & p' & w' & Hrun & _ & Hdom & _).
  - reflexivity.
  - exists b, p', w'. split; [exact Hrun | exact Hdom].
Defined.

Lemma clear_database_state_twice_witness :
  clear_database_state (snd (clear_database_state (loaded_world true)))
    = (Val tt, snd (clear_database_state (loaded_world true))).
Proof.
  apply (SessionMore.clear_database_state_twice (loaded_world true) (Some 3)).
  reflexivity.
Defined.

(** With a Streamlit that cannot show a frame, a query that returned its
    rows is recorded twice: as successful, then, in front, as failed. *)
Example shown_frame_raises :
  map (fun en => (query en, success en, rows_returned en))
    (default []
       (query_history
          (st_session_state
             (snd (SqlEditor.execute_sql_query (D := no_frames)
                     "SELECT * FROM users" (loaded_world true))))))
    = [("SELECT * FROM users", false, 0%Z);
       ("SELECT * FROM users", true, 2%Z);
       ("SELECT 1", true, 1%Z)] /\
  ui (snd (SqlEditor.execute_sql_query (D := no_frames)
             "SELECT * FROM users" (loaded_world true)))
    = [StSuccess "Query executed successfully!";
       StWrite "**Results (2 rows):**";
       StError "Query Error: Duplicate column names found"].
Proof. split; vm_compute; reflexivity. Qed.

Lemma successful_query_is_recorded_first_witness :
  exists (entry : history_entry) (w' : world db),
    SqlEditor.execute_sql_query "DELETE FROM users" (loaded_world true)
      = (Val tt, w') /\
    success entry = true /\ rows_returned entry = 1%Z /\
    query_history (st_session_state w')
      = Some (take 50 (entry :: default [] (query_history loaded_session))).
Proof.
  destruct (HandlerMore.successful_query_is_recorded_first
              "DELETE FROM users" (loaded_world true)
              (snd (execute_query (Some 3) "DELETE FROM users"
                      (loaded_world true)))
              (Some 3) (default [] (query_history loaded_session))
              (message_frame "Query executed successfully. Rows affected: 2"))
    as (entry & w' & Hrun & _ & Hok & _ & Hone & _ & Hall).
  - vm_compute; discriminate.
  - reflexivity.
  - reflexivity.
  - vm_compute; reflexivity.
  - exists entry, w'. split; [exact Hrun|]. split; [exact Hok|].
    split; [apply Hone; vm_compute; reflexivity|].
    apply Hall. intros ev e. reflexivity.
Defined.

Lemma export_query_results_runs_writes_witness :
  last (calls (snd (Exporter.export_query_results "DELETE FROM users" "CSV"
                      (loaded_world true))))
    = Some (CCommit 3).
Proof.
  apply (HandlerMore.export_query_results_runs_writes
           "DELETE FROM users" "CSV" (loaded_world true)
           (snd (execute_query (Some 3) "DELETE FROM users"
                   (loaded_world true)))
           3 (message_frame "Query executed successfully. Rows affected: 2")).
  - reflexivity.
  - reflexivity.
  - vm_compute; reflexivity.
Defined.

Lemma insert_row_commits_or_reports_witness :
  is_select (TableEditor.insert_query "users"
               [("id", TableEditor.IInt 3); ("name", TableEditor.IStr "Cy")])
    = false /\
  fst (TableEditor.insert_row (B := accepts_inserts) "users"
         [("id", TableEditor.IInt 3); ("name", TableEditor.IStr "Cy")]
         (loaded_world true))
    = Val true.
Proof.
  destruct (HandlerMore.insert_row_commits_or_reports (B := accepts_inserts)
              "users"
              [("id", TableEditor.IInt 3); ("name", TableEditor.IStr "Cy")]
              (loaded_world true) (Some 3) eq_refl)
    as (Hsel & _ & Hok & _).
  split; [exact Hsel|].
  destruct (Hok (message_frame "Query executed successfully. Rows affected: 1")
              (snd (execute_query (B := accepts_inserts) (Some 3)
                      (TableEditor.insert_query "users"
                         [("id", TableEditor.IInt 3);
                          ("name", TableEditor.IStr "Cy")])
                      (loaded_world true))))
    as [Hrun _].
  - vm_compute; reflexivity.
  - rewrite Hrun. reflexivity.
Defined.


Lemma render_settings_effect_witness :
  exists (p' : gmap string prefval) (w' : world db),
    App.render_settings (loaded_world true) = (Val tt, w') /\
    p' !! "rows_per_page" = Some (PInt 50) /\
    query_history (st_session_state w') = Some [].
Proof.
  destruct (SettingsMore.render_settings_effect
              (loaded_world true) default_preferences (PInt 100) 50
              (sample_db true) (sample_db true) true)
    as (p' & w' & Hrun & _ & Hp & _ & Hh & _).
  - reflexivity.
  - reflexivity.
  - reflexivity.
  - reflexivity.
  - exists p', w'. split; [exact Hrun|]. split; [|exact Hh].
    rewrite Hp. reflexivity.
Defined.

Lemma create_sample_database_announces_success_witness :
  exists w2 : world db,
    FileUploader.handle_uploaded_file (B := first_file_only) []
      (snd (App.build_sample_database (B := first_file_only)
              (loaded_world true)))
      = (Val false, w2) /\
    fst (App.create_sample_database (B := first_file_only)
           (loaded_world true)) = Val true.
Proof.
  destruct (SampleMore.create_sample_database_announces_success
              (B := first_file_only) (loaded_world true))
    as [Hbuilt _].
  destruct (Hbuilt [] (snd (App.build_sample_database (B := first_file_only)
                              (loaded_world true))))
    as (_ & _ & loaded & w2 & Hup & Hrun).
  - vm_compute; reflexivity.
  - exists w2. rewrite Hrun. split; [|reflexivity].
    rewrite Hup. f_equal. f_equal.
    assert (Hfst : fst (FileUploader.handle_uploaded_file
                          (B := first_file_only) []
                          (snd (App.build_sample_database
                                  (B := first_file_only)
                                  (loaded_world true)))) = Val false)
      by (vm_compute; reflexivity).
    rewrite Hup in Hfst. simpl in Hfst. congruence.
Defined.

End MoreRuns.
